(** * KVM-over-USB client: controller driver and input translation

    A shallow embedding of [client/controller_ch9329.py] and of the input
    handling methods of [MyMainWindow] in [client/main.py], followed by the
    properties of the specification that are settled against them.

    Conventions.
    - Python [int] is [Z]; a Python [float] is idealised as an exact
      rational (type [Q]), so rounding is not modelled.
    - A Python [str] used as a name or a dictionary key is a [string]; the
      text handed to [keyboard_send_string] is a list of code points.
    - A [dict] is a [gmap]; [d.get(k, v)] is [default v (d !! k)].
    - [with self.connection_mutex:] is a scoped lock; the embedding is
      sequential, the lock is not represented. *)

From Stdlib Require Import ZArith QArith Qround List String Ascii Bool Lia Lqa.
From stdpp Require Import base option gmap strings.
Import ListNotations.

#[local] Open Scope Z_scope.
#[local] Open Scope string_scope.
#[local] Open Scope list_scope.

(* ===================================================================== *)
(** ** Python values and exceptions *)
(* ===================================================================== *)

Module Py.

(** The exceptions the embedded methods raise themselves or let
    through. *)
Inductive exn : Type :=
| NameError (name : string)
| AssertionError
| TypeError (msg : string)
| ValueError (msg : string)
| ZeroDivisionError.

(** Outcome of a call: a returned value or a raised exception. *)
Inductive result (A : Type) : Type :=
| Returned (a : A)
| Raised (e : exn).
Arguments Returned {A} a.
Arguments Raised {A} e.

(** What a method whose paths end in [return True], [return False] or
    fall off the end (returning [None]) hands back. *)
Inductive value : Type :=
| PyNone
| PyBool (b : bool).

(** [d.get(k, dflt)] on a dictionary. *)
Definition dict_get {K : Type} `{Countable K} {V : Type}
    (d : gmap K V) (k : K) (dflt : V) : V :=
  default dflt (d !! k).

(** [xs[0:n]]. *)
Definition slice_to {A : Type} (n : nat) (xs : list A) : list A := firstn n xs.

End Py.

(* ===================================================================== *)
(** ** controller_ch9329.py *)
(* ===================================================================== *)

Module Ch9329.

(** The [serial.Serial] object held in [self.connection]. *)
Record Serial : Type := mkSerial {
  ser_port : string;
  ser_baudrate : Z;
  ser_timeout : Q;
  is_open : bool
}.

(** Outcome of [Serial(port, baud, timeout=...)]: the constructor
    returns an object, raises [SerialException] (the port cannot be
    opened or configured), the one exception [create_connection]
    handles, or raises an exception of another class, which the
    [except SerialException] clause does not catch: pyserial raises
    [ValueError] for a baud rate or a timeout that is out of range. *)
Inductive open_outcome : Type :=
| Opened (c : Serial)
| SerialException
| ConstructorRaised (e : Py.exn).

(** Outcome of [chip_command.get_product]: the product string, or one of
    the two exceptions [product_info] handles. *)
Inductive product_outcome : Type :=
| Product (info : string)
| InvalidStringEncoding
| ChipBaseException.

(** The transport capability: every call the driver makes on pyserial
    or pych9329, indexed by the type of what the call hands back.
    A call outside a [try] block is taken to return. *)
Inductive call : Type -> Type :=
| Serial_new (port : string) (baud : Z) (timeout : Q) : call open_outcome
| Serial_close (c : Serial) : call unit
| chip_get_product (c : Serial) : call product_outcome
| chip_send_command_restore_factory_config (c : Serial) : call unit
| chip_send_command_reset (c : Serial) : call unit
| mouse_send_absolute_data (c : Serial) (x y : Z) (button_name : string)
    (screen_x screen_y : Z) (wheel : Z) : call unit
| mouse_send_relative_data (c : Serial) (x y : Z) (button_name : string)
    (wheel : Z) : call unit
| mouse_release (c : Serial) : call unit
| keyboard_trigger (c : Serial) (keys function_keys : list string) : call unit
| keyboard_receive_indicator_status (c : Serial)
    : call (bool * gmap string bool)
| keyboard_release (c : Serial) : call unit.

(** A computation that may call the transport: it either finishes with a
    value or makes one call and continues with what the call returned. *)
Inductive io (A : Type) : Type :=
| Ret (a : A)
| Vis {R : Type} (c : call R) (k : R -> io A).
Arguments Ret {A} a.
Arguments Vis {A R} c k.

Fixpoint io_bind {A B : Type} (m : io A) (f : A -> io B) : io B :=
  match m with
  | Ret a => f a
  | Vis c k => Vis c (fun r => io_bind (k r) f)
  end.

(** The object state of [ControllerCh9329] ([ch9329_hid_map] and the
    mutex are left out: no embedded method reads them). *)
Record ControllerCh9329 : Type := mkController {
  connection : option Serial;
  port : string;
  baud : Z;
  screen_x : Z;
  screen_y : Z;
  min_interval : Q;
  max_interval : Q;
  timeout : Q
}.

(** [__init__] *)
Definition init (controller_port : string) (baud0 screen_x0 screen_y0 : Z)
    : ControllerCh9329 :=
  {| connection := None;
     port := controller_port;
     baud := baud0;
     screen_x := screen_x0;
     screen_y := screen_y0;
     min_interval := 2 # 10;
     max_interval := 5 # 10;
     timeout := 5 # 10 |}.

Definition set_connection (c : option Serial) (self : ControllerCh9329)
    : ControllerCh9329 :=
  {| connection := c;
     port := port self;
     baud := baud self;
     screen_x := screen_x self;
     screen_y := screen_y self;
     min_interval := min_interval self;
     max_interval := max_interval self;
     timeout := timeout self |}.

(** [set_connection_params] *)
Definition set_connection_params (controller_port : string)
    (baud0 screen_x0 screen_y0 : Z) (self : ControllerCh9329)
    : ControllerCh9329 :=
  {| connection := connection self;
     port := controller_port;
     baud := baud0;
     screen_x := screen_x0;
     screen_y := screen_y0;
     min_interval := min_interval self;
     max_interval := max_interval self;
     timeout := timeout self |}.

(** A method: a state transformer over [self] that may call the
    transport. *)
Definition M (A : Type) : Type := ControllerCh9329 -> io (A * ControllerCh9329).

Definition ret {A : Type} (a : A) : M A := fun self => Ret (a, self).

Definition bind {A B : Type} (m : M A) (f : A -> M B) : M B :=
  fun self => io_bind (m self) (fun '(a, self') => f a self').

Definition get_self : M ControllerCh9329 := fun self => Ret (self, self).

Definition assign_connection (c : option Serial) : M unit :=
  fun self => Ret (tt, set_connection c self).

Definition perform {R : Type} (c : call R) : M R :=
  fun self => Vis c (fun r => Ret (r, self)).

Declare Scope ctl_scope.
Delimit Scope ctl_scope with ctl.
Notation "x <- m ;; k" := (bind m (fun x => k))
  (at level 100, m at next level, right associativity) : ctl_scope.
Notation "m ;; k" := (bind m (fun _ => k))
  (at level 100, right associativity) : ctl_scope.
#[local] Open Scope ctl_scope.

(** [close_connection] *)
Definition close_connection : M unit :=
  self <- get_self ;;
  match connection self with
  | Some c => perform (Serial_close c)
  | None => ret tt
  end ;;
  assign_connection None.

(** [create_connection]: [Py.Raised] when an exception of the
    constructor escapes the [try], which happens before the assignment
    to [self.connection]. *)
Definition create_connection : M (Py.result bool) :=
  let connection_status := false in
  self <- get_self ;;
  if String.eqb (port self) "" then ret (Py.Returned connection_status)
  else
    match connection self with
    | Some _ => close_connection
    | None => ret tt
    end ;;
    r <- perform (Serial_new (port self) (baud self) (timeout self)) ;;
    match r with
    | Opened c =>
        assign_connection (Some c) ;;
        ret (Py.Returned true)
    | SerialException =>
        assign_connection None ;;
        ret (Py.Returned connection_status)
    | ConstructorRaised e => ret (Py.Raised e)
    end.

(** [reset_connection] (the override in [ControllerCh9329], which drops
    the result of [create_connection]); an exception that escapes
    [create_connection] escapes it too. *)
Definition reset_connection : M (Py.result unit) :=
  close_connection ;;
  r <- create_connection ;;
  match r with
  | Py.Returned _ => ret (Py.Returned tt)
  | Py.Raised e => ret (Py.Raised e)
  end.

(** [check_connection] *)
Definition check_connection : M bool :=
  self <- get_self ;;
  match connection self with
  | Some c => if is_open c then ret true else ret false
  | None => ret false
  end.

(** [product_info] *)
Definition product_info : M string :=
  let info := "" in
  self <- get_self ;;
  match connection self with
  | None => ret info
  | Some c =>
      if negb (is_open c) then ret info
      else
        r <- perform (chip_get_product c) ;;
        match r with
        | Product s => ret s
        | InvalidStringEncoding => ret "Invalid string"
        | ChipBaseException => ret "Unknown error"
        end
  end.

(** [restore_factory_settings] *)
Definition restore_factory_settings : M Py.value :=
  self <- get_self ;;
  match connection self with
  | None => ret (Py.PyBool false)
  | Some c =>
      if negb (is_open c) then ret (Py.PyBool false)
      else
        perform (chip_send_command_restore_factory_config c) ;;
        ret Py.PyNone
  end.

(** [reset_controller] *)
Definition reset_controller : M Py.value :=
  self <- get_self ;;
  match connection self with
  | None => ret (Py.PyBool false)
  | Some c =>
      if negb (is_open c) then ret (Py.PyBool false)
      else
        perform (chip_send_command_reset c) ;;
        ret Py.PyNone
  end.

(** [mouse_send_data] *)
Definition mouse_send_data (button_name : string) (x y wheel : Z)
    (relative : bool) : M Py.value :=
  self <- get_self ;;
  match connection self with
  | None => ret (Py.PyBool false)
  | Some c =>
      if negb (is_open c) then ret (Py.PyBool false)
      else
        (if negb relative
         then perform (mouse_send_absolute_data c x y button_name
                         (screen_x self) (screen_y self) wheel)
         else perform (mouse_send_relative_data c x y button_name wheel)) ;;
        ret Py.PyNone
  end.

(** [keyboard_send_data] *)
Definition keyboard_send_data (keys function_keys : list string)
    : M Py.value :=
  self <- get_self ;;
  match connection self with
  | None => ret (Py.PyBool false)
  | Some c =>
      if negb (is_open c) then ret (Py.PyBool false)
      else
        let keys :=
          if (6 <? length keys)%nat then Py.slice_to 6 keys else keys in
        let function_keys :=
          if (8 <? length function_keys)%nat
          then Py.slice_to 8 function_keys else function_keys in
        perform (keyboard_trigger c keys function_keys) ;;
        ret (Py.PyBool true)
  end.

(** [keyboard_receive_status] (the [logger.debug] lines are left out). *)
Definition keyboard_receive_status : M (bool * gmap string bool) :=
  let status := false in
  let reply_dict : gmap string bool := ∅ in
  self <- get_self ;;
  match connection self with
  | None => ret (status, reply_dict)
  | Some c =>
      if negb (is_open c) then ret (status, reply_dict)
      else
        r <- perform (keyboard_receive_indicator_status c) ;;
        ret r
  end.

(** [release]: [None] is returned on every path. *)
Definition release (release_type : string) : M unit :=
  self <- get_self ;;
  match connection self with
  | None => ret tt
  | Some c =>
      if String.eqb release_type "mouse" then perform (mouse_release c)
      else if String.eqb release_type "keyboard"
      then perform (keyboard_release c)
      else if String.eqb release_type "all" || String.eqb release_type "any"
      then perform (mouse_release c) ;; perform (keyboard_release c)
      else ret tt
  end.

(** *** Running a method against a transport *)

(** One transport call together with what it handed back. *)
Record event : Type := Event {
  ev_type : Type;
  ev_call : call ev_type;
  ev_reply : ev_type
}.
Arguments Event {ev_type} ev_call ev_reply.

(** The transport's behaviour: the reply to the [n]-th call. *)
Definition transport : Type := nat -> forall R : Type, call R -> R.

(** [run p env n]: the value [p] ends with and the calls it made, the
    first of which is numbered [n]. *)
Fixpoint run {A : Type} (p : io A) (env : transport) (n : nat)
    : A * list event :=
  match p with
  | Ret a => (a, [])
  | Vis c k =>
      let r := env n _ c in
      let '(a, tr) := run (k r) env (S n) in
      (a, Event c r :: tr)
  end.

(** The replies to the [Serial(...)] calls of a trace, in order. *)
Definition open_reply (e : event) : option open_outcome :=
  match ev_call e in call R return R -> option open_outcome with
  | Serial_new _ _ _ => fun r => Some r
  | _ => fun _ => None
  end (ev_reply e).

Definition open_attempts (tr : list event) : list open_outcome :=
  omap open_reply tr.

(** The transport calls of a trace that close a port or open one. *)
Definition reconnects (e : event) : bool :=
  match ev_call e with
  | Serial_new _ _ _ | Serial_close _ => true
  | _ => false
  end.

(** The connection is absent or not open. *)
Definition unavailable (self : ControllerCh9329) : Prop :=
  match connection self with
  | None => True
  | Some c => is_open c = false
  end.

(** A transport on which every open succeeds and every reply is the
    plainest one. *)
Definition ideal_transport : transport :=
  fun _ R c =>
    match c in call R return R with
    | Serial_new p b t =>
        Opened {| ser_port := p; ser_baudrate := b; ser_timeout := t;
                  is_open := true |}
    | Serial_close _ => tt
    | chip_get_product _ => Product "CH9329"
    | chip_send_command_restore_factory_config _ => tt
    | chip_send_command_reset _ => tt
    | mouse_send_absolute_data _ _ _ _ _ _ _ => tt
    | mouse_send_relative_data _ _ _ _ _ => tt
    | mouse_release _ => tt
    | keyboard_trigger _ _ _ => tt
    | keyboard_receive_indicator_status _ => (true, ∅)
    | keyboard_release _ => tt
    end.

(** A transport on which opening a port always fails. *)
Definition dead_transport : transport :=
  fun n R c =>
    match c in call R return R with
    | Serial_new _ _ _ => SerialException
    | c' => ideal_transport n _ c'
    end.

(** A transport whose constructor checks the baud rate the way pyserial
    does before it opens the port: a negative one is refused with
    [ValueError]. *)
Definition validating_transport : transport :=
  fun n R c =>
    match c in call R return R with
    | Serial_new p b t =>
        if (b <? 0)%Z
        then ConstructorRaised (Py.ValueError "Not a valid baudrate")
        else Opened {| ser_port := p; ser_baudrate := b; ser_timeout := t;
                       is_open := true |}
    | c' => ideal_transport n _ c'
    end.

(** The transport calls of a trace that close a port. *)
Definition closes (e : event) : bool :=
  match ev_call e with
  | Serial_close _ => true
  | _ => false
  end.

(** Run from [self] against [env], a method ends with the driver object
    as it was and has neither closed nor opened a port. *)
Definition keeps_driver {A : Type} (m : M A) (self : ControllerCh9329)
    (env : transport) (n : nat) : Prop :=
  snd (fst (run (m self) env n)) = self
  /\ List.filter reconnects (snd (run (m self) env n)) = [].

End Ch9329.

(* ===================================================================== *)
(** ** main.py: the input handling of [MyMainWindow] *)
(* ===================================================================== *)

Module Main.

#[local] Open Scope Q_scope.

(** *** Python arithmetic on numbers *)

Definition Qltb (a b : Q) : bool := negb (Qle_bool b a).

(** [min(a, b)]: the first argument unless the second is smaller. *)
Definition py_min (a b : Q) : Q := if Qltb b a then b else a.

(** [max(a, b)]: the first argument unless the second is larger. *)
Definition py_max (a b : Q) : Q := if Qltb a b then b else a.

(** [int(q)]: truncation towards zero. *)
Definition py_int (q : Q) : Z :=
  if Qle_bool 0 q then Qfloor q else Qceiling q.

(** [round(q)]: to the nearest integer, ties to the even one. *)
Definition py_round (q : Q) : Z :=
  let f := Qfloor q in
  let r := q - inject_Z f in
  if Qltb r (1 # 2) then f
  else if Qltb (1 # 2) r then (f + 1)%Z
  else if Z.even f then f else (f + 1)%Z.

(** *** Enumerations of keyboard_buffer.py and mouse_buffer.py *)

Module KeyStateEnum.
Inductive t : Type := PRESS | RELEASE.
End KeyStateEnum.

Module MouseButtonStateEnum.
Inductive t : Type := PRESS | RELEASE.
End MouseButtonStateEnum.

Module MouseWheelStateEnum.
Inductive t : Type := STOP | UP | DOWN.
End MouseWheelStateEnum.

Module MouseButtonCodeEnum.
Inductive t : Type :=
| LEFT_BUTTON | RIGHT_BUTTON | MIDDLE_BUTTON
| XBUTTON1_BUTTON | XBUTTON2_BUTTON | UNKNOWN_BUTTON.

Definition eqb (a b : t) : bool :=
  match a, b with
  | LEFT_BUTTON, LEFT_BUTTON | RIGHT_BUTTON, RIGHT_BUTTON
  | MIDDLE_BUTTON, MIDDLE_BUTTON | XBUTTON1_BUTTON, XBUTTON1_BUTTON
  | XBUTTON2_BUTTON, XBUTTON2_BUTTON | UNKNOWN_BUTTON, UNKNOWN_BUTTON => true
  | _, _ => false
  end.
End MouseButtonCodeEnum.

(** [Qt.MouseButton] *)
Module Qt.
Inductive MouseButton : Type :=
| LeftButton | RightButton | MiddleButton | XButton1 | XButton2
| OtherButton.
End Qt.

(** Modelled from the spec: the class [MouseStateBuffer] of
    mouse_buffer.py, which is not among the sources. The spec gives it a
    button mask with one independent bit per logical button, a wheel
    state and a point, with [set_button], [set_point], [clear_point],
    [clear_wheel], [clear_button], [clear] and a copying snapshot;
    main.py reads and assigns the attribute [wheel] directly. *)
Record MouseStateBuffer : Type := mkMouseStateBuffer {
  button : list MouseButtonCodeEnum.t;
  wheel : MouseWheelStateEnum.t;
  point : Q * Q
}.

Module MouseBuffer.
Definition new : MouseStateBuffer :=
  {| button := []; wheel := MouseWheelStateEnum.STOP; point := (0, 0) |}.

Definition set_button (code : MouseButtonCodeEnum.t)
    (state : MouseButtonStateEnum.t) (b : MouseStateBuffer)
    : MouseStateBuffer :=
  let others :=
    List.filter (fun c => negb (MouseButtonCodeEnum.eqb c code)) (button b) in
  {| button :=
       match state with
       | MouseButtonStateEnum.PRESS => others ++ [code]
       | MouseButtonStateEnum.RELEASE => others
       end;
     wheel := wheel b;
     point := point b |}.

Definition set_point (x y : Q) (b : MouseStateBuffer) : MouseStateBuffer :=
  {| button := button b; wheel := wheel b; point := (x, y) |}.

Definition get_point (b : MouseStateBuffer) : Q * Q := point b.

Definition clear_point (b : MouseStateBuffer) : MouseStateBuffer :=
  {| button := button b; wheel := wheel b; point := (0, 0) |}.

Definition set_wheel (w : MouseWheelStateEnum.t) (b : MouseStateBuffer)
    : MouseStateBuffer :=
  {| button := button b; wheel := w; point := point b |}.

Definition clear_wheel (b : MouseStateBuffer) : MouseStateBuffer :=
  set_wheel MouseWheelStateEnum.STOP b.

Definition clear_button (b : MouseStateBuffer) : MouseStateBuffer :=
  {| button := []; wheel := wheel b; point := point b |}.

Definition clear (_ : MouseStateBuffer) : MouseStateBuffer := new.

Definition dup (b : MouseStateBuffer) : MouseStateBuffer := b.
End MouseBuffer.

(** [KeyboardIndicatorBuffer]: the three lock indicators main.py reads
    and assigns. *)
Record KeyboardIndicatorBuffer : Type := mkIndicator {
  num_lock : bool;
  caps_lock : bool;
  scroll_lock : bool
}.

(** The interface of [KeyboardKeyBuffer] (keyboard_buffer.py is not among
    the sources): the methods main.py calls on it. [dup] returns a copy,
    which for a value is the value itself. *)
Class KeyboardKeyBufferOps (KB : Type) : Type := {
  key_press : Z -> KB -> KB;
  key_release : Z -> KB -> KB;
  clear_released : KB -> KB;
  clear : KB -> KB
}.

(** [int(round(rel + delta * speed))] for the number [rel], the integer
    [delta] and the number [speed], as Python computes it: exactly when
    [speed] is an integer, in binary floating point, which rounds the
    product and the sum before [round] sees them, when it is a float.
    The arithmetic of floats is not modelled: the methods take the
    result as given. *)
Class FloatArithmetic : Type := {
  round_sum : Q -> Z -> Q -> Z
}.

(** The part of [MainConfig] the embedded methods read. *)
Record MainConfig : Type := mkConfig {
  video_resolution_x : Z;
  video_resolution_y : Z;
  video_keep_aspect_ratio : bool;
  mouse_cursor_offset_x : Z;
  mouse_cursor_offset_y : Z;
  paste_board_interval : Z
}.

(** What the methods read of a widget: [width()], [height()], [pos()]. *)
Record QWidget : Type := mkWidget {
  width : Z;
  height : Z;
  pos_x : Z;
  pos_y : Z
}.

Definition QPoint : Type := (Z * Z)%type.

(** Lines handed to the logger. *)
Inductive log_record : Type :=
| critical_character_not_supported (character : N)
| critical_character_key_code_not_found (character : N)
| error_key_name (key_name : string).

(** Names bound at module level in main.py: its imports, its two classes,
    its five functions and the exit code of the script. *)
Definition module_names : list string :=
  [ "argparse"; "ctypes"; "os"; "platform"; "random"; "subprocess"; "sys";
    "tempfile"; "typing"; "pyHook"; "pythoncom";
    "QEvent"; "QEventLoop"; "QLocale"; "QMutex"; "QMutexLocker"; "QObject";
    "QPoint"; "QSize"; "Qt"; "QThread"; "QTimer"; "QTranslator"; "QUrl";
    "Signal"; "QCloseEvent"; "QCursor"; "QFont"; "QGuiApplication"; "QIcon";
    "QImage"; "QKeyEvent"; "QMouseEvent"; "QPixmap"; "QSurfaceFormat";
    "QAudioDevice"; "QAudioInput"; "QAudioOutput"; "QCamera";
    "QImageCapture"; "QMediaCaptureSession"; "QMediaDevices";
    "QMediaFormat"; "QMediaRecorder"; "QVideoFrame"; "QVideoSink";
    "QVideoWidget"; "QApplication"; "QFileDialog"; "QLabel"; "QMessageBox";
    "QWidget"; "logger"; "controller_device"; "HexData";
    "KEY_NAME_TO_HID_CODE"; "SCANCODE_TO_HID_CODE"; "SHIFT_SYMBOL";
    "KeyboardIndicatorBuffer"; "KeyboardKeyBuffer"; "KeyStateEnum";
    "MouseButtonCodeEnum"; "MouseButtonStateEnum"; "MouseStateBuffer";
    "MouseWheelStateEnum"; "MainConfig"; "CONFIG_VERSION_STRING";
    "project_binary_directory_path"; "project_source_directory_path";
    "StatusBuffer"; "AboutDialog"; "ControllerDeviceConfig";
    "ControllerDeviceSetupDialog"; "CustomKeyDialog";
    "IndicatorLightsDialog"; "MainWindow"; "MessageBox";
    "PasteBoardDialog"; "AudioDeviceConfig"; "VideoDeviceConfig";
    "VideoDeviceSetupDialog"; "ControllerEventWorker"; "MyMainWindow";
    "clear_splash"; "debug_mode"; "command_line_parser"; "os_init";
    "main"; "exit_code" ]%string.

(** [character.isascii()] and, for an ASCII character,
    [character.isupper()]. *)
Definition isascii (character : N) : bool := (character <? 128)%N.
Definition isupper (character : N) : bool :=
  ((65 <=? character) && (character <=? 90))%N.

(** The one-character [str] of an ASCII code point, as a dictionary
    key. *)
Definition str_of_char (character : N) : string :=
  String (ascii_of_N character) EmptyString.

(** *** The window object and its methods *)

Section Window.

Context {KB : Type} `{KeyboardKeyBufferOps KB}
  {float_arithmetic : FloatArithmetic}.

(** [data.keyboard_shift_symbol.SHIFT_SYMBOL], which is not among the
    sources: the characters typed with shift held. *)
Variable SHIFT_SYMBOL : list string.

(** The object handed to [command_send_signal.emit] with a command. *)
Inductive payload : Type :=
| PNone
| PStr (s : string)
| PKeyboard (buffer : KB)
| PMouse (buffer : MouseStateBuffer).

(** What a method does to the world outside the window object, in the
    order it does it. *)
Inductive effect : Type :=
| Emit (command : string) (buffer : payload)
| Log (record : log_record)
| Msleep (interval : Z)
| SetCursorPos (p : QPoint).

(** The attributes of [MyMainWindow] the embedded methods use.
    [effects] is the history of emitted commands, log lines and
    sleeps. *)
Record MyMainWindow : Type := mkWindow {
  status : gmap string bool;
  config : MainConfig;
  disconnect_label : QWidget;
  video_widget : QWidget;
  keyboard_key_name_to_hid_code : gmap string Z;
  relative_mouse_speed : Q;
  keyboard_key_buffer : KB;
  keyboard_indicator_buffer : KeyboardIndicatorBuffer;
  mouse_buffer : MouseStateBuffer;
  mouse_last_pos : option QPoint;
  mouse_need_report : bool;
  effects : list effect
}.

Definition set_status (v : gmap string bool) (self : MyMainWindow)
    : MyMainWindow :=
  {| status := v; config := config self;
     disconnect_label := disconnect_label self;
     video_widget := video_widget self;
     keyboard_key_name_to_hid_code := keyboard_key_name_to_hid_code self;
     relative_mouse_speed := relative_mouse_speed self;
     keyboard_key_buffer := keyboard_key_buffer self;
     keyboard_indicator_buffer := keyboard_indicator_buffer self;
     mouse_buffer := mouse_buffer self;
     mouse_last_pos := mouse_last_pos self;
     mouse_need_report := mouse_need_report self;
     effects := effects self |}.

Definition set_keyboard_key_buffer (v : KB) (self : MyMainWindow)
    : MyMainWindow :=
  {| status := status self; config := config self;
     disconnect_label := disconnect_label self;
     video_widget := video_widget self;
     keyboard_key_name_to_hid_code := keyboard_key_name_to_hid_code self;
     relative_mouse_speed := relative_mouse_speed self;
     keyboard_key_buffer := v;
     keyboard_indicator_buffer := keyboard_indicator_buffer self;
     mouse_buffer := mouse_buffer self;
     mouse_last_pos := mouse_last_pos self;
     mouse_need_report := mouse_need_report self;
     effects := effects self |}.

Definition set_keyboard_indicator_buffer (v : KeyboardIndicatorBuffer)
    (self : MyMainWindow) : MyMainWindow :=
  {| status := status self; config := config self;
     disconnect_label := disconnect_label self;
     video_widget := video_widget self;
     keyboard_key_name_to_hid_code := keyboard_key_name_to_hid_code self;
     relative_mouse_speed := relative_mouse_speed self;
     keyboard_key_buffer := keyboard_key_buffer self;
     keyboard_indicator_buffer := v;
     mouse_buffer := mouse_buffer self;
     mouse_last_pos := mouse_last_pos self;
     mouse_need_report := mouse_need_report self;
     effects := effects self |}.

Definition set_mouse_buffer (v : MouseStateBuffer) (self : MyMainWindow)
    : MyMainWindow :=
  {| status := status self; config := config self;
     disconnect_label := disconnect_label self;
     video_widget := video_widget self;
     keyboard_key_name_to_hid_code := keyboard_key_name_to_hid_code self;
     relative_mouse_speed := relative_mouse_speed self;
     keyboard_key_buffer := keyboard_key_buffer self;
     keyboard_indicator_buffer := keyboard_indicator_buffer self;
     mouse_buffer := v;
     mouse_last_pos := mouse_last_pos self;
     mouse_need_report := mouse_need_report self;
     effects := effects self |}.

Definition set_mouse_last_pos (v : option QPoint) (self : MyMainWindow)
    : MyMainWindow :=
  {| status := status self; config := config self;
     disconnect_label := disconnect_label self;
     video_widget := video_widget self;
     keyboard_key_name_to_hid_code := keyboard_key_name_to_hid_code self;
     relative_mouse_speed := relative_mouse_speed self;
     keyboard_key_buffer := keyboard_key_buffer self;
     keyboard_indicator_buffer := keyboard_indicator_buffer self;
     mouse_buffer := mouse_buffer self;
     mouse_last_pos := v;
     mouse_need_report := mouse_need_report self;
     effects := effects self |}.

Definition set_mouse_need_report (v : bool) (self : MyMainWindow)
    : MyMainWindow :=
  {| status := status self; config := config self;
     disconnect_label := disconnect_label self;
     video_widget := video_widget self;
     keyboard_key_name_to_hid_code := keyboard_key_name_to_hid_code self;
     relative_mouse_speed := relative_mouse_speed self;
     keyboard_key_buffer := keyboard_key_buffer self;
     keyboard_indicator_buffer := keyboard_indicator_buffer self;
     mouse_buffer := mouse_buffer self;
     mouse_last_pos := mouse_last_pos self;
     mouse_need_report := v;
     effects := effects self |}.

Definition set_effects (v : list effect) (self : MyMainWindow)
    : MyMainWindow :=
  {| status := status self; config := config self;
     disconnect_label := disconnect_label self;
     video_widget := video_widget self;
     keyboard_key_name_to_hid_code := keyboard_key_name_to_hid_code self;
     relative_mouse_speed := relative_mouse_speed self;
     keyboard_key_buffer := keyboard_key_buffer self;
     keyboard_indicator_buffer := keyboard_indicator_buffer self;
     mouse_buffer := mouse_buffer self;
     mouse_last_pos := mouse_last_pos self;
     mouse_need_report := mouse_need_report self;
     effects := v |}.

(** A method of the window: it returns or raises, and leaves the
    object in the state it reached. *)
Definition W (A : Type) : Type :=
  MyMainWindow -> Py.result A * MyMainWindow.

Definition ret {A : Type} (a : A) : W A := fun self => (Py.Returned a, self).

Definition raise {A : Type} (e : Py.exn) : W A :=
  fun self => (Py.Raised e, self).

Definition bind {A B : Type} (m : W A) (f : A -> W B) : W B :=
  fun self =>
    match m self with
    | (Py.Returned a, self') => f a self'
    | (Py.Raised e, self') => (Py.Raised e, self')
    end.

Definition get_self : W MyMainWindow := fun self => (Py.Returned self, self).

Definition modify (f : MyMainWindow -> MyMainWindow) : W unit :=
  fun self => (Py.Returned tt, f self).

Definition do_effect (e : effect) : W unit :=
  modify (fun self => set_effects (effects self ++ [e]) self).

Declare Scope win_scope.
Delimit Scope win_scope with win.
#[local] Notation "x <- m ;; k" := (bind m (fun x => k))
  (at level 100, m at next level, right associativity) : win_scope.
#[local] Notation "m ;; k" := (bind m (fun _ => k))
  (at level 100, right associativity) : win_scope.
#[local] Open Scope win_scope.

(** [for x in xs: body(x)] *)
Fixpoint for_each {A : Type} (xs : list A) (body : A -> W unit) : W unit :=
  match xs with
  | [] => ret tt
  | x :: rest => body x ;; for_each rest body
  end.

(** [a / b] on numbers. *)
Definition truediv (a b : Q) : W Q :=
  if Qeq_bool b 0 then raise Py.ZeroDivisionError else ret (a / b).

(** [self.status.is_enabled(name)], [set_bool] and [reverse_bool] of
    [StatusBuffer] (status_buffer.py is not among the sources): a
    table of named flags. *)
Definition is_enabled (self : MyMainWindow) (name : string) : bool :=
  Py.dict_get (status self) name false.

Definition status_set_bool (name : string) (value : bool) : W unit :=
  modify (fun self => set_status (<[name := value]> (status self)) self).

Definition status_reverse_bool (name : string) : W unit :=
  modify (fun self =>
    set_status (<[name := negb (is_enabled self name)]> (status self)) self).

(** [self.controller_event_worker.command_send_signal.emit(command, buffer)] *)
Definition emit (command : string) (buffer : payload) : W unit :=
  do_effect (Emit command buffer).

Definition logger (record : log_record) : W unit := do_effect (Log record).

(** [update_status_bar] recolours the labels of the status bar and
    changes nothing the other methods read. *)
Definition update_status_bar : W unit := ret tt.

(** [user_input_block] *)
Definition user_input_block (block : bool) : W unit :=
  status_set_bool "block_input" block.

(** [sleep_ms] *)
Definition sleep_ms (interval : Z) : W unit := do_effect (Msleep interval).

(** Evaluating a name in a method whose frame binds [frame]: the local
    binding, else [NameError] when the module does not bind the name
    either (no builtin is called [interval]); a module-level binding is
    a module, class or function, which [msleep] refuses with [TypeError]. *)
Definition load_name (frame : list (string * Z)) (name : string) : W Z :=
  match List.find (fun b => String.eqb (fst b) name) frame with
  | Some b => ret (snd b)
  | None =>
      if existsb (String.eqb name) module_names
      then raise (Py.TypeError name)
      else raise (Py.NameError name)
  end.

(** [random_sleep_ms]; [u] is the number [random.uniform] draws. *)
Definition random_sleep_ms (min_interval max_interval : Z) (u : Q)
    : W unit :=
  let random_sleep_time := py_int u in
  interval <- load_name [("min_interval", min_interval);
                         ("max_interval", max_interval);
                         ("random_sleep_time", random_sleep_time)]
                        "interval" ;;
  do_effect (Msleep interval).

(** [update_keyboard_buffer_with_hid_code] *)
Definition update_keyboard_buffer_with_hid_code (hid_code : Z)
    (state : KeyStateEnum.t) : W unit :=
  modify (fun self =>
    set_keyboard_key_buffer
      match state with
      | KeyStateEnum.PRESS => key_press hid_code (keyboard_key_buffer self)
      | KeyStateEnum.RELEASE => key_release hid_code (keyboard_key_buffer self)
      end self) ;;
  self <- get_self ;;
  emit "keyboard_write" (PKeyboard (keyboard_key_buffer self)) ;;
  modify (fun self =>
    set_keyboard_key_buffer (clear_released (keyboard_key_buffer self)) self) ;;
  update_status_bar.

(** [update_keyboard_indicator_buffer] *)
Definition update_keyboard_indicator_buffer (key_name : string) : W unit :=
  self <- get_self ;;
  let table := keyboard_key_name_to_hid_code self in
  let ind := keyboard_indicator_buffer self in
  key_code <-
    (if String.eqb key_name "num_lock" then
       let key_code := Py.dict_get table "num_lock" 0%Z in
       if (key_code =? 0)%Z then raise Py.AssertionError
       else
         modify (set_keyboard_indicator_buffer
                   {| num_lock := negb (num_lock ind);
                      caps_lock := caps_lock ind;
                      scroll_lock := scroll_lock ind |}) ;;
         ret key_code
     else if String.eqb key_name "caps_lock" then
       let key_code := Py.dict_get table "caps_lock" 0%Z in
       if (key_code =? 0)%Z then raise Py.AssertionError
       else
         modify (set_keyboard_indicator_buffer
                   {| num_lock := num_lock ind;
                      caps_lock := negb (caps_lock ind);
                      scroll_lock := scroll_lock ind |}) ;;
         ret key_code
     else if String.eqb key_name "scroll_lock" then
       let key_code := Py.dict_get table "scroll_lock" 0%Z in
       if (key_code =? 0)%Z then raise Py.AssertionError
       else
         modify (set_keyboard_indicator_buffer
                   {| num_lock := num_lock ind;
                      caps_lock := caps_lock ind;
                      scroll_lock := negb (scroll_lock ind) |}) ;;
         ret key_code
     else
       logger (error_key_name key_name) ;;
       raise (Py.ValueError key_name)) ;;
  update_keyboard_buffer_with_hid_code key_code KeyStateEnum.PRESS ;;
  update_keyboard_buffer_with_hid_code key_code KeyStateEnum.RELEASE ;;
  update_status_bar.

(** [shortcut_key_send]; [u] is the number [random.uniform] draws. *)
Definition shortcut_key_send (keys : list string) (u : Q) : W unit :=
  self <- get_self ;;
  let key_code_list :=
    List.filter (fun key_code => negb (key_code =? 0)%Z)
      (List.map
         (fun key_name =>
            Py.dict_get (keyboard_key_name_to_hid_code self) key_name 0%Z)
         keys) in
  for_each key_code_list
    (fun key_code =>
       update_keyboard_buffer_with_hid_code key_code KeyStateEnum.PRESS) ;;
  random_sleep_ms 0 100 u ;;
  for_each key_code_list
    (fun key_code =>
       update_keyboard_buffer_with_hid_code key_code KeyStateEnum.RELEASE).

(** The body of the loop of [keyboard_send_string]. *)
Definition keyboard_send_character (shift_hid_code : Z) (character : N)
    : W unit :=
  if negb (isascii character) then
    logger (critical_character_not_supported character)
  else
    let shift_flag := false in
    let shift_flag :=
      if existsb (String.eqb (str_of_char character)) SHIFT_SYMBOL
      then true else shift_flag in
    let shift_flag := if isupper character then true else shift_flag in
    self <- get_self ;;
    let key_code :=
      Py.dict_get (keyboard_key_name_to_hid_code self)
        (str_of_char character) 0%Z in
    if (key_code =? 0)%Z then
      logger (critical_character_key_code_not_found character)
    else
      (if shift_flag then
         update_keyboard_buffer_with_hid_code shift_hid_code KeyStateEnum.PRESS ;;
         update_keyboard_buffer_with_hid_code key_code KeyStateEnum.PRESS ;;
         update_keyboard_buffer_with_hid_code key_code KeyStateEnum.RELEASE ;;
         update_keyboard_buffer_with_hid_code shift_hid_code KeyStateEnum.RELEASE
       else
         update_keyboard_buffer_with_hid_code key_code KeyStateEnum.PRESS ;;
         update_keyboard_buffer_with_hid_code key_code KeyStateEnum.RELEASE) ;;
      sleep_ms (paste_board_interval (config self)).

(** [keyboard_send_string] *)
Definition keyboard_send_string (data : list N) : W unit :=
  user_input_block true ;;
  self <- get_self ;;
  let shift_hid_code :=
    Py.dict_get (keyboard_key_name_to_hid_code self) "shift" 0%Z in
  if (shift_hid_code =? 0)%Z then raise Py.AssertionError
  else
    (if caps_lock (keyboard_indicator_buffer self)
     then update_keyboard_indicator_buffer "caps_lock"
     else ret tt) ;;
    for_each data (keyboard_send_character shift_hid_code) ;;
    user_input_block false.

(** [clear_mouse_key_buffer] *)
Definition clear_mouse_key_buffer : W unit :=
  modify (fun self =>
    set_mouse_buffer (MouseBuffer.clear_button (mouse_buffer self)) self) ;;
  modify (fun self =>
    set_mouse_buffer (MouseBuffer.clear_wheel (mouse_buffer self)) self) ;;
  self <- get_self ;;
  emit "mouse_relative_write" (PMouse (MouseBuffer.dup (mouse_buffer self))).

(** [update_mouse_position_buffer_with_absolute_mode] (the message
    shown in the status bar is left out). *)
Definition update_mouse_position_buffer_with_absolute_mode (x y : Z)
    : W unit :=
  modify (set_mouse_last_pos None) ;;
  self <- get_self ;;
  let '(x_res, y_res, width, height, x_pos, y_pos) :=
    if negb (is_enabled self "camera") then
      (Main.width (disconnect_label self),
       Main.height (disconnect_label self),
       Main.width (disconnect_label self),
       Main.height (disconnect_label self),
       pos_x (disconnect_label self),
       pos_y (disconnect_label self))
    else
      (video_resolution_x (config self),
       video_resolution_y (config self),
       Main.width (video_widget self),
       Main.height (video_widget self),
       pos_x (video_widget self),
       pos_y (video_widget self)) in
  let x_diff := 0 in
  let y_diff := 0 in
  diff <-
    (if video_keep_aspect_ratio (config self) then
       cam_scale <- truediv (inject_Z y_res) (inject_Z x_res) ;;
       finder_scale <- truediv (inject_Z height) (inject_Z width) ;;
       if Qltb cam_scale finder_scale then
         ret (0, inject_Z height - inject_Z width * cam_scale)
       else if Qltb finder_scale cam_scale then
         q <- truediv (inject_Z height) cam_scale ;;
         ret (inject_Z width - q, 0)
       else ret (x_diff, y_diff)
     else ret (x_diff, y_diff)) ;;
  let '(x_diff, y_diff) := diff in
  let '(x_pos, y_pos) :=
    if is_enabled self "correction_cursor" then
      ((x_pos + mouse_cursor_offset_x (config self))%Z,
       (y_pos + mouse_cursor_offset_y (config self))%Z)
    else (x_pos, y_pos) in
  x_hid <- truediv (inject_Z x - x_diff / 2 - inject_Z x_pos)
                   (inject_Z width - x_diff) ;;
  y_hid <- truediv (inject_Z y - y_diff / 2 - inject_Z y_pos)
                   (inject_Z height - y_diff) ;;
  let x_hid := py_max (py_min x_hid 1) 0 in
  let y_hid := py_max (py_min y_hid 1) 0 in
  modify (fun self =>
    set_mouse_buffer (MouseBuffer.set_point x_hid y_hid (mouse_buffer self))
      self).

(** [update_mouse_position_buffer_with_relative_mode]; [middle_pos] is
    what [mapToGlobal] gives for the centre of the window and
    [mouse_pos] what [QCursor.pos()] reads. *)
Definition update_mouse_position_buffer_with_relative_mode
    (middle_pos mouse_pos : QPoint) : W unit :=
  self <- get_self ;;
  match mouse_last_pos self with
  | Some last =>
      let '(rel_x, rel_y) := MouseBuffer.get_point (mouse_buffer self) in
      let rel_x :=
        round_sum rel_x (fst mouse_pos - fst last) (relative_mouse_speed self) in
      let rel_y :=
        round_sum rel_y (snd mouse_pos - snd last) (relative_mouse_speed self) in
      modify (set_mouse_last_pos (Some mouse_pos)) ;;
      modify (fun self =>
        set_mouse_buffer
          (MouseBuffer.set_point (inject_Z rel_x) (inject_Z rel_y)
             (mouse_buffer self)) self) ;;
      if (25 <? Z.abs (fst mouse_pos - fst middle_pos))%Z
         || (25 <? Z.abs (snd mouse_pos - snd middle_pos))%Z
      then
        do_effect (SetCursorPos middle_pos) ;;
        modify (set_mouse_last_pos (Some middle_pos))
      else ret tt
  | None =>
      modify (set_mouse_last_pos (Some middle_pos)) ;;
      modify (fun self =>
        set_mouse_buffer (MouseBuffer.clear_point (mouse_buffer self)) self) ;;
      do_effect (SetCursorPos middle_pos)
  end.

(** [update_mouse_position_buffer] *)
Definition update_mouse_position_buffer (x y : Z)
    (middle_pos mouse_pos : QPoint) : W unit :=
  self <- get_self ;;
  (if negb (is_enabled self "relative_mode")
   then update_mouse_position_buffer_with_absolute_mode x y
   else update_mouse_position_buffer_with_relative_mode middle_pos mouse_pos) ;;
  modify (set_mouse_need_report true).

(** [convert_to_button_code] *)
Definition convert_to_button_code (value : Qt.MouseButton)
    : MouseButtonCodeEnum.t :=
  match value with
  | Qt.LeftButton => MouseButtonCodeEnum.LEFT_BUTTON
  | Qt.RightButton => MouseButtonCodeEnum.RIGHT_BUTTON
  | Qt.MiddleButton => MouseButtonCodeEnum.MIDDLE_BUTTON
  | Qt.XButton1 => MouseButtonCodeEnum.XBUTTON1_BUTTON
  | Qt.XButton2 => MouseButtonCodeEnum.XBUTTON2_BUTTON
  | Qt.OtherButton => MouseButtonCodeEnum.UNKNOWN_BUTTON
  end.

(** [mouse_scroll_report] *)
Definition mouse_scroll_report : W unit :=
  self <- get_self ;;
  let command :=
    if is_enabled self "relative_mode"
    then "mouse_relative_write" else "mouse_absolute_write" in
  emit command (PMouse (MouseBuffer.dup (mouse_buffer self))) ;;
  modify (fun self =>
    set_mouse_buffer
      (MouseBuffer.set_wheel MouseWheelStateEnum.STOP (mouse_buffer self))
      self).

(** [mouse_timer_report] *)
Definition mouse_timer_report : W unit :=
  self <- get_self ;;
  let command :=
    if is_enabled self "relative_mode"
    then "mouse_relative_write" else "mouse_absolute_write" in
  (if mouse_need_report self then
     emit command (PMouse (MouseBuffer.dup (mouse_buffer self))) ;;
     if is_enabled self "relative_mode" then
       modify (fun self =>
         set_mouse_buffer (MouseBuffer.clear_point (mouse_buffer self)) self)
     else ret tt
   else ret tt) ;;
  modify (set_mouse_need_report false).

(** [mouse_capture_action] and [mouse_capture_release_action] *)
Definition mouse_capture_action : W unit :=
  status_set_bool "mouse_capture" true.

Definition mouse_capture_release_action : W unit :=
  status_set_bool "mouse_capture" false.

(** [mouseMoveEvent] (cursor shapes and the full-screen tool bar are
    left out). *)
Definition mouseMoveEvent (x y : Z) (middle_pos mouse_pos : QPoint)
    : W unit :=
  self <- get_self ;;
  if negb (is_enabled self "mouse_capture") then ret tt
  else if is_enabled self "block_input" then ret tt
  else if is_enabled self "pause_mouse" then ret tt
  else update_mouse_position_buffer x y middle_pos mouse_pos.

(** The common part of [mousePressEvent] and [mouseReleaseEvent]. *)
Definition mouse_button_report (button : Qt.MouseButton)
    (button_state : MouseButtonStateEnum.t) : W unit :=
  self <- get_self ;;
  let button_code := convert_to_button_code button in
  let command :=
    if is_enabled self "relative_mode"
    then "mouse_relative_write" else "mouse_absolute_write" in
  modify (fun self =>
    set_mouse_buffer
      (MouseBuffer.set_button button_code button_state (mouse_buffer self))
      self) ;;
  (if is_enabled self "relative_mode" then
     modify (fun self =>
       set_mouse_buffer (MouseBuffer.clear_point (mouse_buffer self)) self)
   else ret tt) ;;
  self <- get_self ;;
  emit command (PMouse (MouseBuffer.dup (mouse_buffer self))).

(** [mousePressEvent] *)
Definition mousePressEvent (button : Qt.MouseButton) : W unit :=
  self <- get_self ;;
  if negb (is_enabled self "mouse_capture")
     && match button with Qt.LeftButton => true | _ => false end
     && is_enabled self "camera"
  then mouse_capture_action
  else if negb (is_enabled self "mouse_capture") then ret tt
  else if is_enabled self "block_input" then ret tt
  else if is_enabled self "pause_mouse" then ret tt
  else mouse_button_report button MouseButtonStateEnum.PRESS.

(** [mouseReleaseEvent] *)
Definition mouseReleaseEvent (button : Qt.MouseButton) : W unit :=
  self <- get_self ;;
  if negb (is_enabled self "mouse_capture") then ret tt
  else if is_enabled self "block_input" then ret tt
  else if is_enabled self "pause_mouse" then ret tt
  else mouse_button_report button MouseButtonStateEnum.RELEASE.

(** The wheel state [wheelEvent] assigns for an angle delta. *)
Definition wheel_of_angle_delta (y : Z) : MouseWheelStateEnum.t :=
  if (y =? 120)%Z then MouseWheelStateEnum.DOWN
  else if (y =? -120)%Z then MouseWheelStateEnum.UP
  else MouseWheelStateEnum.STOP.

(** [wheelEvent]; [y] is [event.angleDelta().y()]. *)
Definition wheelEvent (y : Z) : W unit :=
  self <- get_self ;;
  if negb (is_enabled self "mouse_capture") then ret tt
  else if is_enabled self "block_input" then ret tt
  else if is_enabled self "pause_mouse" then ret tt
  else
    modify (fun self =>
      set_mouse_buffer
        (MouseBuffer.set_wheel (wheel_of_angle_delta y) (mouse_buffer self))
        self) ;;
    mouse_scroll_report.

(** [controller_device_release] *)
Definition controller_device_release (release_type : string) : W unit :=
  if String.eqb release_type "keyboard" then
    emit "device_release" (PStr "keyboard") ;;
    modify (fun self =>
      set_keyboard_key_buffer (clear (keyboard_key_buffer self)) self) ;;
    update_status_bar
  else if String.eqb release_type "mouse" then
    emit "device_release" (PStr "mouse") ;;
    modify (fun self =>
      set_mouse_buffer (MouseBuffer.clear (mouse_buffer self)) self)
  else
    emit "device_release" (PStr "all") ;;
    modify (fun self =>
      set_keyboard_key_buffer (clear (keyboard_key_buffer self)) self) ;;
    modify (fun self =>
      set_mouse_buffer (MouseBuffer.clear (mouse_buffer self)) self) ;;
    update_status_bar.

(** [controller_device_reset] *)
Definition controller_device_reset : W unit :=
  emit "device_reset" PNone ;;
  modify (fun self =>
    set_keyboard_key_buffer (clear (keyboard_key_buffer self)) self) ;;
  modify (fun self =>
    set_mouse_buffer (MouseBuffer.clear (mouse_buffer self)) self).

(** *** The window as a machine driven by events *)

(** What the event loop delivers to the methods above that touch the
    mouse buffer. [StatusChanged] stands for the menu actions that set
    a status flag. *)
Inductive gui_event : Type :=
| WheelEvent (angle_delta_y : Z)
| MouseMoveEvent (x y : Z) (middle_pos mouse_pos : QPoint)
| MousePressEvent (button : Qt.MouseButton)
| MouseReleaseEvent (button : Qt.MouseButton)
| MouseReportTimeout
| ReloadMouseKeys
| DeviceRelease (release_type : string)
| DeviceReset
| StatusChanged (name : string) (value : bool).

Definition handler (e : gui_event) : W unit :=
  match e with
  | WheelEvent y => wheelEvent y
  | MouseMoveEvent x y middle_pos mouse_pos =>
      mouseMoveEvent x y middle_pos mouse_pos
  | MousePressEvent b => mousePressEvent b
  | MouseReleaseEvent b => mouseReleaseEvent b
  | MouseReportTimeout => mouse_timer_report
  | ReloadMouseKeys => clear_mouse_key_buffer
  | DeviceRelease t => controller_device_release t
  | DeviceReset => controller_device_reset
  | StatusChanged name value => status_set_bool name value
  end.

(** One turn of the event loop: the handler runs to its end (or to the
    exception it raises, which the loop reports and drops). *)
Definition step (self : MyMainWindow) (e : gui_event) : MyMainWindow :=
  snd (handler e self).

Definition run_events (self : MyMainWindow) (es : list gui_event)
    : MyMainWindow :=
  fold_left step es self.

(** The mouse write commands among a list of effects, each with the
    snapshot it carries. *)
Definition is_mouse_write (command : string) : bool :=
  String.eqb command "mouse_relative_write"
  || String.eqb command "mouse_absolute_write".

Fixpoint mouse_writes (es : list effect) : list MouseStateBuffer :=
  match es with
  | [] => []
  | Emit command (PMouse b) :: rest =>
      if is_mouse_write command then b :: mouse_writes rest
      else mouse_writes rest
  | _ :: rest => mouse_writes rest
  end.

(** The events the mouse itself causes. *)
Definition mouse_input (e : gui_event) : bool :=
  match e with
  | WheelEvent _ | MouseMoveEvent _ _ _ _
  | MousePressEvent _ | MouseReleaseEvent _ => true
  | _ => false
  end.

(** *** The specification's reading of the two translations *)

(** What the specification has [keyboard_send_string] emit: key updates,
    the delay between characters, and the log line of a character that is
    skipped. *)
Inductive keystroke : Type :=
| Stroke (hid_code : Z) (state : KeyStateEnum.t)
| Delay (interval : Z)
| Skipped (record : log_record).

(** One character, in the specification's words: a character that is not
    ASCII, or that has no key code, is logged and skipped; an uppercase
    letter or a symbol of the shift set is wrapped in shift press, key
    press, key release, shift release; any other character is key press,
    key release; the delay follows each character that was emitted. *)
Definition expand_character (table : gmap string Z) (interval : Z)
    (shift_hid_code : Z) (character : N) : list keystroke :=
  if negb (isascii character) then
    [Skipped (critical_character_not_supported character)]
  else
    match default 0%Z (table !! str_of_char character) with
    | 0%Z => [Skipped (critical_character_key_code_not_found character)]
    | key_code =>
        if isupper character
           || existsb (String.eqb (str_of_char character)) SHIFT_SYMBOL
        then [Stroke shift_hid_code KeyStateEnum.PRESS;
              Stroke key_code KeyStateEnum.PRESS;
              Stroke key_code KeyStateEnum.RELEASE;
              Stroke shift_hid_code KeyStateEnum.RELEASE;
              Delay interval]
        else [Stroke key_code KeyStateEnum.PRESS;
              Stroke key_code KeyStateEnum.RELEASE;
              Delay interval]
    end.

(** A whole text: the caps-lock toggle first when the indicator cache has
    caps lock on, then the characters in order. *)
Definition expand_string (self : MyMainWindow) (data : list N)
    : list keystroke :=
  let table := keyboard_key_name_to_hid_code self in
  (if caps_lock (keyboard_indicator_buffer self)
   then [Stroke (default 0%Z (table !! "caps_lock")) KeyStateEnum.PRESS;
         Stroke (default 0%Z (table !! "caps_lock")) KeyStateEnum.RELEASE]
   else [])
  ++ flat_map
       (expand_character table (paste_board_interval (config self))
          (default 0%Z (table !! "shift")))
       data.

(** Emitting a keystroke with the methods of the window. *)
Definition play_keystroke (k : keystroke) : W unit :=
  match k with
  | Stroke hid_code state => update_keyboard_buffer_with_hid_code hid_code state
  | Delay interval => sleep_ms interval
  | Skipped record => logger record
  end.

Definition play (ks : list keystroke) : W unit := for_each ks play_keystroke.

(** The window after a list of keystrokes has been emitted. *)
Definition typed (ks : list keystroke) (self : MyMainWindow) : MyMainWindow :=
  fold_left (fun s k => snd (play_keystroke k s)) ks self.

(** What a keystroke of the specification is on the wire: a key update is
    one [keyboard_write] command carrying the key buffer with the key
    pressed or released, after which the released keys are dropped from
    the buffer; a delay is one sleep; a skipped character is one log
    line. [held] is the key buffer before the keystroke; the second
    component is the key buffer after it. *)
Definition keystroke_effect (k : keystroke) (held : KB) : effect * KB :=
  match k with
  | Stroke hid_code KeyStateEnum.PRESS =>
      (Emit "keyboard_write" (PKeyboard (key_press hid_code held)),
       clear_released (key_press hid_code held))
  | Stroke hid_code KeyStateEnum.RELEASE =>
      (Emit "keyboard_write" (PKeyboard (key_release hid_code held)),
       clear_released (key_release hid_code held))
  | Delay interval => (Msleep interval, held)
  | Skipped record => (Log record, held)
  end.

Fixpoint keystroke_effects (ks : list keystroke) (held : KB)
    : list effect * KB :=
  match ks with
  | [] => ([], held)
  | k :: rest =>
      let '(e, held') := keystroke_effect k held in
      let '(es, held'') := keystroke_effects rest held' in
      (e :: es, held'')
  end.

(** The window as [keyboard_send_string] has it when the first keystroke
    goes out: input blocked, caps lock off in the indicator cache. *)
Definition begin_paste (self : MyMainWindow) : MyMainWindow :=
  set_keyboard_indicator_buffer
    {| num_lock := num_lock (keyboard_indicator_buffer self);
       caps_lock := false;
       scroll_lock := scroll_lock (keyboard_indicator_buffer self) |}
    (set_status (<["block_input" := true]> (status self)) self).

Definition end_paste (self : MyMainWindow) : MyMainWindow :=
  set_status (<["block_input" := false]> (status self)) self.

(** [clamp(v, lo, hi)] *)
Definition clamp (v lo hi : Q) : Q :=
  if Qltb v lo then lo else if Qltb hi v then hi else v.

(** The specification's normalisation of one axis:
    [clamp((p - diff/2 - viewport_pos) / (viewport_extent - diff), 0, 1)]. *)
Definition normalize (p : Z) (diff : Q) (viewport_pos viewport_extent : Z) : Q :=
  clamp ((inject_Z p - diff / 2 - inject_Z viewport_pos)
         / (inject_Z viewport_extent - diff)) 0 1.

(** The viewport the absolute mapping works in: the video widget and the
    configured resolution when the camera is on, the placeholder label
    with its own size as resolution otherwise; its position is shifted by
    the cursor correction when that is enabled. *)
Record viewport : Type := mkViewport {
  vp_x_res : Z;
  vp_y_res : Z;
  vp_width : Z;
  vp_height : Z;
  vp_x_pos : Z;
  vp_y_pos : Z
}.

Definition viewport_of (self : MyMainWindow) : viewport :=
  let widget :=
    if is_enabled self "camera" then video_widget self
    else disconnect_label self in
  let correction := is_enabled self "correction_cursor" in
  {| vp_x_res := if is_enabled self "camera"
                 then video_resolution_x (config self) else Main.width widget;
     vp_y_res := if is_enabled self "camera"
                 then video_resolution_y (config self) else Main.height widget;
     vp_width := Main.width widget;
     vp_height := Main.height widget;
     vp_x_pos := if correction
                 then (pos_x widget + mouse_cursor_offset_x (config self))%Z
                 else pos_x widget;
     vp_y_pos := if correction
                 then (pos_y widget + mouse_cursor_offset_y (config self))%Z
                 else pos_y widget |}.

(** The letterbox offsets [(x_diff, y_diff)] in the specification's words:
    none unless the aspect ratio is kept; a viewport taller than the
    source is padded vertically and a wider one horizontally, by what the
    scaled source leaves free on that axis. *)
Definition letterbox (keep_aspect_ratio : bool) (v : viewport) : Q * Q :=
  let source_ratio := inject_Z (vp_y_res v) / inject_Z (vp_x_res v) in
  if negb keep_aspect_ratio then (0, 0)
  else if (vp_y_res v * vp_width v <? vp_height v * vp_x_res v)%Z
  then (0, inject_Z (vp_height v) - inject_Z (vp_width v) * source_ratio)
  else if (vp_height v * vp_x_res v <? vp_y_res v * vp_width v)%Z
  then (inject_Z (vp_width v) - inject_Z (vp_height v) / source_ratio, 0)
  else (0, 0).

End Window.

End Main.

(* ===================================================================== *)
(** ** main.py: the handlers around the input translation *)
(* ===================================================================== *)

Module Shell.
Import Main.

(** The values of [Qt.Key] the key handlers compare with. *)
Module Key.
Inductive t : Type :=
| Key_F11 | Key_F12 | Key_V | Key_CapsLock | Key_ScrollLock | Key_NumLock
| Key_other (code : Z).
End Key.

(** [Qt.KeyboardModifier]: one bit per modifier. *)
Definition ShiftModifier : Z := 0x02000000.
Definition ControlModifier : Z := 0x04000000.
Definition AltModifier : Z := 0x08000000.
Definition MetaModifier : Z := 0x10000000.

(** What the handlers read of a [QKeyEvent]. *)
Record QKeyEvent : Type := mkKeyEvent {
  isAutoRepeat : bool;
  modifiers : Z;
  key : Key.t;
  nativeScanCode : Z
}.

(** What the hook callbacks read of a pyHook keyboard event. *)
Record HookEvent : Type := mkHookEvent {
  Key : string;
  ScanCode : Z
}.

(** [MyMainWindow.SCANCODE_REMAP] *)
Definition SCANCODE_REMAP : gmap string Z :=
  list_to_map
    [("Lcontrol", 0x001D%Z); ("Rcontrol", 0x011D%Z);
     ("Lwin", 0x015B%Z); ("Rwin", 0x015C%Z)].

(** [xs.remove(x)] inside [try ... except ValueError: pass]: the first
    occurrence goes, a list without [x] stays as it is. *)
Fixpoint list_remove (x : Z) (xs : list Z) : list Z :=
  match xs with
  | [] => []
  | y :: rest => if (y =? x)%Z then rest else y :: list_remove x rest
  end.

Section Shell.

Context {KB : Type} `{KeyboardKeyBufferOps KB}.
Variable SHIFT_SYMBOL : list string.

(** [fullscreen_state_toggle] shows a dialog and switches the window
    between full screen and normal; it is taken as given. *)
Variable fullscreen_state_toggle : @W KB unit.

(** [KeyboardIndicatorBuffer.from_dict] (keyboard_buffer.py is not among
    the sources). *)
Variable from_dict :
  gmap string bool -> KeyboardIndicatorBuffer -> KeyboardIndicatorBuffer.

(** The window of [Main] together with the further attributes the
    handlers below use: the scan-code table, the keys the system hook
    holds, the configured shortcuts and controller port, the arguments
    [device_init] of the controller device was called with, and the scan
    codes logged as unknown. *)
Record Application : Type := mkApplication {
  window : @MyMainWindow KB;
  keyboard_scancode_to_hid_code : gmap Z Z;
  hook_pressed_keys : list Z;
  shortcut_keys : gmap string (list string);
  controller_port : string;
  controller_baud : Z;
  device_init_calls : list (string * Z * Z * Z);
  unknown_scancodes : list Z
}.

Definition set_window (v : @MyMainWindow KB) (self : Application)
    : Application :=
  {| window := v;
     keyboard_scancode_to_hid_code := keyboard_scancode_to_hid_code self;
     hook_pressed_keys := hook_pressed_keys self;
     shortcut_keys := shortcut_keys self;
     controller_port := controller_port self;
     controller_baud := controller_baud self;
     device_init_calls := device_init_calls self;
     unknown_scancodes := unknown_scancodes self |}.

Definition set_hook_pressed_keys (v : list Z) (self : Application)
    : Application :=
  {| window := window self;
     keyboard_scancode_to_hid_code := keyboard_scancode_to_hid_code self;
     hook_pressed_keys := v;
     shortcut_keys := shortcut_keys self;
     controller_port := controller_port self;
     controller_baud := controller_baud self;
     device_init_calls := device_init_calls self;
     unknown_scancodes := unknown_scancodes self |}.

Definition set_device_init_calls (v : list (string * Z * Z * Z))
    (self : Application) : Application :=
  {| window := window self;
     keyboard_scancode_to_hid_code := keyboard_scancode_to_hid_code self;
     hook_pressed_keys := hook_pressed_keys self;
     shortcut_keys := shortcut_keys self;
     controller_port := controller_port self;
     controller_baud := controller_baud self;
     device_init_calls := v;
     unknown_scancodes := unknown_scancodes self |}.

Definition set_unknown_scancodes (v : list Z) (self : Application)
    : Application :=
  {| window := window self;
     keyboard_scancode_to_hid_code := keyboard_scancode_to_hid_code self;
     hook_pressed_keys := hook_pressed_keys self;
     shortcut_keys := shortcut_keys self;
     controller_port := controller_port self;
     controller_baud := controller_baud self;
     device_init_calls := device_init_calls self;
     unknown_scancodes := v |}.

(** A method over the whole object. *)
Definition G (A : Type) : Type := Application -> Py.result A * Application.

Definition gret {A : Type} (a : A) : G A := fun self => (Py.Returned a, self).

Definition gbind {A B : Type} (m : G A) (f : A -> G B) : G B :=
  fun self =>
    match m self with
    | (Py.Returned a, self') => f a self'
    | (Py.Raised e, self') => (Py.Raised e, self')
    end.

Definition gget : G Application := fun self => (Py.Returned self, self).

Definition gmodify (f : Application -> Application) : G unit :=
  fun self => (Py.Returned tt, f self).

(** A method of [Main] run on the window part. *)
Definition lift {A : Type} (m : @W KB A) : G A :=
  fun self =>
    let '(r, w) := m (window self) in (r, set_window w self).

Declare Scope app_scope.
Delimit Scope app_scope with app.
#[local] Notation "x <- m ;; k" := (gbind m (fun x => k))
  (at level 100, m at next level, right associativity) : app_scope.
#[local] Notation "m ;; k" := (gbind m (fun _ => k))
  (at level 100, right associativity) : app_scope.
#[local] Open Scope app_scope.

(** [clear_keyboard_key_buffer] *)
Definition clear_keyboard_key_buffer : @W KB unit :=
  Main.bind
    (Main.modify (fun self =>
       set_keyboard_key_buffer (clear (keyboard_key_buffer self)) self))
    (fun _ =>
       Main.bind Main.get_self (fun self =>
         emit "keyboard_write" (PKeyboard (keyboard_key_buffer self)))).

(** [quick_paste_trigger]; [text] is what the clipboard holds. *)
Definition quick_paste_trigger (text : list N) : @W KB unit :=
  if (length text =? 0)%nat then Main.ret tt
  else
    Main.bind clear_keyboard_key_buffer
      (fun _ => keyboard_send_string SHIFT_SYMBOL text).

(** [update_keyboard_buffer_with_scancode] *)
Definition update_keyboard_buffer_with_scancode (scancode : Z)
    (state : KeyStateEnum.t) : G unit :=
  self <- gget ;;
  let hid_code :=
    Py.dict_get (keyboard_scancode_to_hid_code self) scancode 0%Z in
  if (hid_code =? 0)%Z then
    gmodify (fun self =>
      set_unknown_scancodes (unknown_scancodes self ++ [scancode]) self)
  else lift (update_keyboard_buffer_with_hid_code hid_code state).

(** The scan code a hook callback works with. *)
Definition hook_scan_code (event : HookEvent) : Z :=
  match SCANCODE_REMAP !! Key event with
  | Some scan_code => scan_code
  | None => ScanCode event
  end.

(** [hook_keyboard_down_event] *)
Definition hook_keyboard_down_event (event : HookEvent) : G bool :=
  let scan_code := hook_scan_code event in
  self <- gget ;;
  (if negb (existsb (Z.eqb scan_code) (hook_pressed_keys self)) then
     gmodify (fun self =>
       set_hook_pressed_keys (hook_pressed_keys self ++ [scan_code]) self) ;;
     update_keyboard_buffer_with_scancode scan_code KeyStateEnum.PRESS
   else gret tt) ;;
  gret false.

(** [hook_keyboard_up_event] *)
Definition hook_keyboard_up_event (event : HookEvent) : G bool :=
  let scan_code := hook_scan_code event in
  update_keyboard_buffer_with_scancode scan_code KeyStateEnum.RELEASE ;;
  gmodify (fun self =>
    set_hook_pressed_keys (list_remove scan_code (hook_pressed_keys self))
      self) ;;
  gret false.

(** [controller_device_connect] *)
Definition controller_device_connect : G unit :=
  gmodify (fun self =>
    set_device_init_calls
      (device_init_calls self
       ++ [(controller_port self, controller_baud self,
            video_resolution_x (config (window self)),
            video_resolution_y (config (window self)))])
      self) ;;
  lift (emit "device_open" PNone).

(** [controller_device_disconnect] *)
Definition controller_device_disconnect : G unit :=
  lift (emit "device_close" PNone).

(** [controller_device_check_connection] *)
Definition controller_device_check_connection : G unit :=
  lift (emit "device_check" PNone).

(** [controller_device_reload] *)
Definition controller_device_reload (reload_type : string) : G unit :=
  (if String.eqb reload_type "keyboard"
   then lift (controller_device_release reload_type)
   else if String.eqb reload_type "mouse"
   then lift (controller_device_release reload_type)
   else lift (controller_device_release "all")) ;;
  controller_device_disconnect ;;
  controller_device_connect.

(** [controller_command_reply] (status-bar messages and debug lines are
    left out); [data] is the mapping a [keyboard_read] reply carries. *)
Definition controller_command_reply (command : string) (status : Z)
    (data : gmap string bool) : G unit :=
  let ignored_command :=
    ["device_release"; "device_reset"; "mouse_relative_write";
     "mouse_absolute_write"; "keyboard_write"] in
  if String.eqb command "device_open" then
    if (status =? 0)%Z then
      lift (status_set_bool "controller" true) ;;
      lift (emit "keyboard_read" PNone)
    else lift (status_set_bool "controller" false)
  else if String.eqb command "device_close" then
    lift (status_set_bool "controller" false)
  else if String.eqb command "device_check" then
    if negb (status =? 0)%Z then
      controller_device_disconnect ;;
      controller_device_connect
    else gret tt
  else if String.eqb command "keyboard_read" then
    if (status =? 0)%Z then
      lift (Main.modify (fun w =>
              set_keyboard_indicator_buffer
                (from_dict data (keyboard_indicator_buffer w)) w)) ;;
      lift update_status_bar
    else gret tt
  else if existsb (String.eqb command) ignored_command then gret tt
  else gret tt.

(** [shortcut_key_action]; [u] is the number [random.uniform] draws. *)
Definition shortcut_key_action (action_name : string) (u : Q) : G unit :=
  self <- gget ;;
  match shortcut_keys self !! action_name with
  | Some send_buffer => lift (shortcut_key_send send_buffer u)
  | None => gret tt
  end.

(** [custom_key_send] *)
Definition custom_key_send (keys : list string) (u : Q) : G unit :=
  lift (shortcut_key_send keys u).

(** [keyPressEvent] (the status-bar message and the call of the base
    class are left out); [clipboard] is the text the clipboard holds. *)
Definition keyPressEvent (event : QKeyEvent) (clipboard : list N) : G unit :=
  if isAutoRepeat event then gret tt
  else
    self <- gget ;;
    is_register_function_keys <-
      (if (modifiers event =? Z.lor ControlModifier AltModifier)%Z then
         match key event with
         | Key.Key_F11 => lift fullscreen_state_toggle ;; gret true
         | Key.Key_F12 =>
             lift mouse_capture_release_action ;;
             lift (controller_device_release "mouse") ;;
             gret true
         | Key.Key_V =>
             if is_enabled (window self) "quick_paste"
             then lift (quick_paste_trigger clipboard) ;; gret true
             else gret false
         | _ => gret false
         end
       else gret false) ;;
    if is_register_function_keys then lift clear_keyboard_key_buffer
    else
      self <- gget ;;
      if is_enabled (window self) "block_input" then gret tt
      else if is_enabled (window self) "pause_keyboard" then gret tt
      else
        match key event with
        | Key.Key_CapsLock => lift (update_keyboard_indicator_buffer "caps_lock")
        | Key.Key_ScrollLock =>
            lift (update_keyboard_indicator_buffer "scroll_lock")
        | Key.Key_NumLock => lift (update_keyboard_indicator_buffer "num_lock")
        | _ =>
            update_keyboard_buffer_with_scancode (nativeScanCode event)
              KeyStateEnum.PRESS
        end.

(** [keyReleaseEvent] *)
Definition keyReleaseEvent (event : QKeyEvent) : G unit :=
  if isAutoRepeat event then gret tt
  else
    self <- gget ;;
    if is_enabled (window self) "block_input" then gret tt
    else if is_enabled (window self) "pause_keyboard" then gret tt
    else
      update_keyboard_buffer_with_scancode (nativeScanCode event)
        KeyStateEnum.RELEASE.

(** *** The handlers driven by events *)

(** What the system-wide keyboard hook delivers. *)
Inductive hook_input : Type :=
| HookDown (event : HookEvent)
| HookUp (event : HookEvent).

Definition hook_step (self : Application) (i : hook_input) : Application :=
  match i with
  | HookDown event => snd (hook_keyboard_down_event event self)
  | HookUp event => snd (hook_keyboard_up_event event self)
  end.

Definition run_hook (self : Application) (inputs : list hook_input)
    : Application :=
  fold_left hook_step inputs self.

(** What Qt delivers of the keyboard; [clipboard] is the text the
    clipboard holds when the key goes down. *)
Inductive key_input : Type :=
| KeyPress (event : QKeyEvent) (clipboard : list N)
| KeyRelease (event : QKeyEvent).

Definition key_event (i : key_input) : QKeyEvent :=
  match i with
  | KeyPress event _ => event
  | KeyRelease event => event
  end.

Definition key_step (self : Application) (i : key_input) : Application :=
  match i with
  | KeyPress event clipboard => snd (keyPressEvent event clipboard self)
  | KeyRelease event => snd (keyReleaseEvent event self)
  end.

Definition run_keys (self : Application) (inputs : list key_input)
    : Application :=
  fold_left key_step inputs self.

(** A key press with Ctrl+Alt held and one of the keys [keyPressEvent]
    reserves for the window itself. *)
Definition shortcut_press (i : key_input) : bool :=
  match i with
  | KeyPress event _ =>
      (modifiers event =? Z.lor ControlModifier AltModifier)%Z
      && match key event with
         | Key.Key_F11 | Key.Key_F12 | Key.Key_V => true
         | _ => false
         end
  | KeyRelease _ => false
  end.

End Shell.

(** *** [resize_window_with_video_resolution] *)

(** What the method reads of the screen and of the bars of the window. *)
Record Screen : Type := mkScreen {
  screen_height : Z;
  screen_width : Z;
  menu_bar_height : Z;
  status_bar_height : Z
}.

(** What it asks of the window. *)
Inductive window_op : Type :=
| showNormal
| resize (width height : Z)
| showMaximized
| move_to_centre
| setAspectRatioMode (keep : bool).

(** The test of the branch and of the loop: the recommended size leaves
    the retained margin free. *)
Definition screen_is_enough (scr : Screen)
    (recommend_width recommend_height : Z) : bool :=
  let retained_height := (9 * 5)%Z in
  let retained_width := (16 * 5)%Z in
  (recommend_height <? screen_height scr - retained_height)%Z
  && (recommend_width <? screen_width scr - retained_width)%Z.

(** The [while] loop, run for at most [fuel] turns: [None] when the size
    still does not fit after them. [int(n * 1 / 4)] truncates towards
    zero. *)
Fixpoint shrink_to_screen (fuel : nat) (scr : Screen)
    (recommend_width recommend_height : Z) : option (Z * Z) :=
  if screen_is_enough scr recommend_width recommend_height
  then Some (recommend_width, recommend_height)
  else
    match fuel with
    | O => None
    | S fuel' =>
        shrink_to_screen fuel' scr (Z.quot (recommend_width * 1) 4)
          (Z.quot (recommend_height * 1) 4)
    end.

(** The method: the calls it makes on the window, [None] when the loop
    has not ended within [fuel] turns. *)
Definition resize_window_with_video_resolution (fuel : nat)
    (fullscreen keep_aspect_ratio : bool) (resolution_x resolution_y : Z)
    (scr : Screen) (center : bool) : option (list window_op) :=
  if fullscreen then Some []
  else
    let add_height := (menu_bar_height scr + status_bar_height scr)%Z in
    let recommend_height := (resolution_y + add_height)%Z in
    let recommend_width := resolution_x in
    match
      (if screen_is_enough scr recommend_width recommend_height
       then Some [showNormal; resize recommend_width recommend_height]
       else
         match shrink_to_screen fuel scr recommend_width recommend_height with
         | Some (w, h) => Some [showNormal; resize w h; showMaximized]
         | None => None
         end)
    with
    | Some ops =>
        Some (ops
              ++ (if center then [move_to_centre] else [])
              ++ [setAspectRatioMode keep_aspect_ratio])
    | None => None
    end.

End Shell.

(* ===================================================================== *)
(** ** Sample objects *)
(* ===================================================================== *)

Module Sample.
Import Ch9329.

Definition open_serial : Serial :=
  {| ser_port := "COM3"; ser_baudrate := 9600; ser_timeout := 5 # 10;
     is_open := true |}.

Definition closed_serial : Serial :=
  {| ser_port := "COM3"; ser_baudrate := 9600; ser_timeout := 5 # 10;
     is_open := false |}.

(** A driver as [__init__] leaves it. *)
Definition fresh_controller : ControllerCh9329 := init "COM3" 9600 1920 1080.

(** A driver holding an open connection. *)
Definition open_controller : ControllerCh9329 :=
  set_connection (Some open_serial) fresh_controller.

(** A driver whose [Serial] object is present but not open. *)
Definition closed_controller : ControllerCh9329 :=
  set_connection (Some closed_serial) fresh_controller.

(** A driver configured with a baud rate of -1. *)
Definition misconfigured_controller : ControllerCh9329 :=
  init "COM3" (-1) 1920 1080.

(** A connected driver after [set_connection_params] with an empty port. *)
Definition unconfigured_controller : ControllerCh9329 :=
  set_connection_params "" 9600 1920 1080 open_controller.

Definition seven_keys : list string := ["a"; "b"; "c"; "d"; "e"; "f"; "g"].

Definition nine_function_keys : list string :=
  ["ctrl_left"; "shift_left"; "alt_left"; "win_left"; "ctrl_right";
   "shift_right"; "alt_right"; "win_right"; "ctrl_left"].

(** A key buffer for the samples: the codes held, in the order pressed. *)
#[export] Instance held_codes : Main.KeyboardKeyBufferOps (list Z) :=
  {| Main.key_press := fun code held =>
       if existsb (Z.eqb code) held then held else held ++ [code];
     Main.key_release := fun code held =>
       List.filter (fun c => negb (c =? code)%Z) held;
     Main.clear_released := fun held => held;
     Main.clear := fun _ => [] |}.

(** The arithmetic of the samples: their speed factor is the integer 1,
    for which Python computes the sum exactly. *)
#[export] Instance exact_arithmetic : Main.FloatArithmetic :=
  {| Main.round_sum := fun rel delta speed =>
       Main.py_round (rel + inject_Z delta * speed)%Q |}.

Definition key_table : gmap string Z :=
  list_to_map
    [("shift", 225%Z); ("caps_lock", 57%Z); ("ctrl", 224%Z); ("alt", 226%Z);
     ("delete", 76%Z); ("h", 11%Z); ("H", 11%Z); ("e", 8%Z); ("l", 15%Z);
     ("o", 18%Z); ("1", 30%Z); ("!", 30%Z)].

Definition shift_symbol : list string := ["!"; "@"; "#"; "$"; "%"].

Definition flags (mouse_capture : bool) : gmap string bool :=
  list_to_map
    [("camera", true); ("mouse_capture", mouse_capture);
     ("relative_mode", false); ("correction_cursor", false);
     ("block_input", false); ("pause_mouse", false)].

(** A window showing a 1920x1080 source in a 1600x1200 video widget, with
    caps lock on in the indicator cache. *)
Definition window (mouse_capture : bool) : Main.MyMainWindow :=
  {| Main.status := flags mouse_capture;
     Main.config :=
       {| Main.video_resolution_x := 1920; Main.video_resolution_y := 1080;
          Main.video_keep_aspect_ratio := true;
          Main.mouse_cursor_offset_x := 0; Main.mouse_cursor_offset_y := 0;
          Main.paste_board_interval := 10 |};
     Main.disconnect_label :=
       {| Main.width := 1600; Main.height := 1200;
          Main.pos_x := 0; Main.pos_y := 22 |};
     Main.video_widget :=
       {| Main.width := 1600; Main.height := 1200;
          Main.pos_x := 0; Main.pos_y := 22 |};
     Main.keyboard_key_name_to_hid_code := key_table;
     Main.relative_mouse_speed := 1;
     Main.keyboard_key_buffer := ([] : list Z);
     Main.keyboard_indicator_buffer :=
       {| Main.num_lock := false; Main.caps_lock := true;
          Main.scroll_lock := false |};
     Main.mouse_buffer := Main.MouseBuffer.new;
     Main.mouse_last_pos := None;
     Main.mouse_need_report := false;
     Main.effects := [] |}.

(** The window with the mouse captured, and before it is. *)
Definition captured_window : Main.MyMainWindow := window true.
Definition idle_window : Main.MyMainWindow := window false.

(** The text [Hello!] as code points. *)
Definition hello : list N := [72; 101; 108; 108; 111; 33]%N.

(** The captured window with wheel state up in the mouse buffer and a
    report pending when the report timer fires. *)
Definition scrolling_window : Main.MyMainWindow :=
  Main.set_mouse_need_report true
    (Main.set_mouse_buffer
       (Main.MouseBuffer.set_wheel Main.MouseWheelStateEnum.UP
          Main.MouseBuffer.new)
       captured_window).

(** The window, the mouse not captured, while a paste holds user input
    blocked. *)
Definition blocked_window : Main.MyMainWindow :=
  Main.set_status (<["block_input" := true]> (flags false)) idle_window.

(** The captured window with its video widget squeezed to no width. *)
Definition flat_window : Main.MyMainWindow :=
  {| Main.status := Main.status captured_window;
     Main.config := Main.config captured_window;
     Main.disconnect_label := Main.disconnect_label captured_window;
     Main.video_widget :=
       {| Main.width := 0; Main.height := 1200;
          Main.pos_x := 0; Main.pos_y := 22 |};
     Main.keyboard_key_name_to_hid_code := key_table;
     Main.relative_mouse_speed := 1;
     Main.keyboard_key_buffer := ([] : list Z);
     Main.keyboard_indicator_buffer :=
       Main.keyboard_indicator_buffer captured_window;
     Main.mouse_buffer := Main.MouseBuffer.new;
     Main.mouse_last_pos := Some (10, 10)%Z;
     Main.mouse_need_report := false;
     Main.effects := [] |}.

(** The captured window before the key table is loaded, with quick paste
    enabled. *)
Definition keyless_window : Main.MyMainWindow :=
  {| Main.status := <["quick_paste" := true]> (flags true);
     Main.config := Main.config captured_window;
     Main.disconnect_label := Main.disconnect_label captured_window;
     Main.video_widget := Main.video_widget captured_window;
     Main.keyboard_key_name_to_hid_code := ∅;
     Main.relative_mouse_speed := 1;
     Main.keyboard_key_buffer := ([] : list Z);
     Main.keyboard_indicator_buffer :=
       Main.keyboard_indicator_buffer captured_window;
     Main.mouse_buffer := Main.MouseBuffer.new;
     Main.mouse_last_pos := None;
     Main.mouse_need_report := false;
     Main.effects := [] |}.

(** Scan codes of A, left control and left alt with their HID codes. *)
Definition scancode_table : gmap Z Z :=
  list_to_map [(0x1E, 4); (0x1D, 224); (0x38, 226)]%Z.

(** The whole object around a window, nothing held by the hook. *)
Definition application (w : @Main.MyMainWindow (list Z))
    : @Shell.Application (list Z) :=
  {| Shell.window := w;
     Shell.keyboard_scancode_to_hid_code := scancode_table;
     Shell.hook_pressed_keys := [];
     Shell.shortcut_keys := list_to_map [("Ctrl+Alt+Del", ["ctrl"; "alt"; "delete"])];
     Shell.controller_port := "COM3";
     Shell.controller_baud := 9600;
     Shell.device_init_calls := [];
     Shell.unknown_scancodes := [] |}.

(** The hook event of the key A, and what Qt delivers for A, for
    Ctrl+Alt+F12 and for Ctrl+Alt+V. *)
Definition hook_a : Shell.HookEvent :=
  {| Shell.Key := "A"; Shell.ScanCode := 0x1E |}.

Definition key_a : Shell.QKeyEvent :=
  {| Shell.isAutoRepeat := false; Shell.modifiers := 0;
     Shell.key := Shell.Key.Key_other 0x41; Shell.nativeScanCode := 0x1E |}.

Definition ctrl_alt_f12 : Shell.QKeyEvent :=
  {| Shell.isAutoRepeat := false;
     Shell.modifiers := Z.lor Shell.ControlModifier Shell.AltModifier;
     Shell.key := Shell.Key.Key_F12; Shell.nativeScanCode := 0x58 |}.

Definition ctrl_alt_v : Shell.QKeyEvent :=
  {| Shell.isAutoRepeat := false;
     Shell.modifiers := Z.lor Shell.ControlModifier Shell.AltModifier;
     Shell.key := Shell.Key.Key_V; Shell.nativeScanCode := 0x2F |}.

(** [fullscreen_state_toggle] and [from_dict] for the samples: the first
    changes nothing the handlers read, the second stores the three
    indicators the reply names. *)
Definition fullscreen_state_toggle : @Main.W (list Z) unit := Main.ret tt.

Definition from_dict (data : gmap string bool)
    (b : Main.KeyboardIndicatorBuffer) : Main.KeyboardIndicatorBuffer :=
  {| Main.num_lock := Py.dict_get data "num_lock" (Main.num_lock b);
     Main.caps_lock := Py.dict_get data "caps_lock" (Main.caps_lock b);
     Main.scroll_lock := Py.dict_get data "scroll_lock" (Main.scroll_lock b) |}.

(** A full-HD screen, and one lower than the retained margin. *)
Definition full_hd : Shell.Screen :=
  {| Shell.screen_height := 1080; Shell.screen_width := 1920;
     Shell.menu_bar_height := 22; Shell.status_bar_height := 20 |}.

Definition low_screen : Shell.Screen :=
  {| Shell.screen_height := 40; Shell.screen_width := 1920;
     Shell.menu_bar_height := 22; Shell.status_bar_height := 20 |}.

End Sample.

(* ===================================================================== *)
(** ** Properties of the controller driver *)
(* ===================================================================== *)

Section ControllerProperties.
Import Ch9329.

(** Unfolds a method of the driver down to its transport calls. *)
Ltac unfold_method :=
  cbv [create_connection close_connection reset_connection check_connection
       product_info restore_factory_settings reset_controller mouse_send_data
       keyboard_send_data keyboard_receive_status release
       bind ret get_self assign_connection perform io_bind].

(** Uses the knowledge that the connection is absent or not open. *)
Ltac use_unavailable H :=
  unfold unavailable in H;
  match type of H with
  | context [connection ?s] =>
      destruct (connection s) as [c|] eqn:Hc; [rewrite H|]; reflexivity
  end.

Lemma mouse_send_data_unavailable button_name x y wheel relative self :
  unavailable self ->
  mouse_send_data button_name x y wheel relative self
  = Ret (Py.PyBool false, self).
Proof. intros Hu. unfold_method. use_unavailable Hu. Qed.

Lemma keyboard_send_data_unavailable keys function_keys self :
  unavailable self ->
  keyboard_send_data keys function_keys self = Ret (Py.PyBool false, self).
Proof. intros Hu. unfold_method. use_unavailable Hu. Qed.

Lemma keyboard_receive_status_unavailable self :
  unavailable self ->
  keyboard_receive_status self = Ret ((false, ∅), self).
Proof. intros Hu. unfold_method. use_unavailable Hu. Qed.

Lemma product_info_unavailable self :
  unavailable self -> product_info self = Ret ("", self).
Proof. intros Hu. unfold_method. use_unavailable Hu. Qed.

Lemma reset_controller_unavailable self :
  unavailable self -> reset_controller self = Ret (Py.PyBool false, self).
Proof. intros Hu. unfold_method. use_unavailable Hu. Qed.

Lemma release_absent release_type self :
  connection self = None -> release release_type self = Ret (tt, self).
Proof. intros Hc. unfold_method. rewrite Hc. reflexivity. Qed.

(** C1. With a connection object that is present but not open, the four
    operations that take the mutex return their failure value without
    any transport call, whereas [release], which tests the connection
    for [None] only, calls [mouse.release] and [keyboard.release] on the
    closed object whatever the transport answers. *)
Theorem release_calls_transport_on_closed_connection :
  unavailable Sample.closed_controller
  /\ mouse_send_data "left" 0 0 0 false Sample.closed_controller
     = Ret (Py.PyBool false, Sample.closed_controller)
  /\ keyboard_send_data ["a"] [] Sample.closed_controller
     = Ret (Py.PyBool false, Sample.closed_controller)
  /\ keyboard_receive_status Sample.closed_controller
     = Ret ((false, ∅), Sample.closed_controller)
  /\ product_info Sample.closed_controller = Ret ("", Sample.closed_controller)
  /\ forall (env : transport) (n : nat),
       run (release "all" Sample.closed_controller) env n
       = ((tt, Sample.closed_controller),
          [Event (mouse_release Sample.closed_serial)
             (env n _ (mouse_release Sample.closed_serial));
           Event (keyboard_release Sample.closed_serial)
             (env (S n) _ (keyboard_release Sample.closed_serial))]).
Proof.
  assert (Hu : unavailable Sample.closed_controller) by reflexivity.
  split; [exact Hu|].
  split; [apply mouse_send_data_unavailable, Hu|].
  split; [apply keyboard_send_data_unavailable, Hu|].
  split; [apply keyboard_receive_status_unavailable, Hu|].
  split; [apply product_info_unavailable, Hu|].
  intros env n. cbn.
  destruct (env n unit (mouse_release Sample.closed_serial)).
  destruct (env (S n) unit (keyboard_release Sample.closed_serial)).
  reflexivity.
Qed.

(** C2. With an open connection [keyboard_send_data] makes exactly one
    transport call, [keyboard.trigger], handing it the first six of the
    given keys when there are more than six (the given list otherwise)
    and the first eight of the given function keys when there are more
    than eight (the given list otherwise); nothing else happens and the
    call returns [True]. *)
Theorem keyboard_send_data_truncates
    (self : ControllerCh9329) (c : Serial) (keys function_keys : list string)
    (env : transport) (n : nat) :
  connection self = Some c ->
  is_open c = true ->
  exists (sent_keys sent_function_keys : list string) (reply : unit),
    run (keyboard_send_data keys function_keys self) env n
    = ((Py.PyBool true, self),
       [Event (keyboard_trigger c sent_keys sent_function_keys) reply])
    /\ (6 < length keys -> sent_keys = firstn 6 keys)%nat
    /\ (length keys <= 6 -> sent_keys = keys)%nat
    /\ (8 < length function_keys
        -> sent_function_keys = firstn 8 function_keys)%nat
    /\ (length function_keys <= 8 -> sent_function_keys = function_keys)%nat
    /\ (length sent_keys <= 6)%nat
    /\ (length sent_function_keys <= 8)%nat.
Proof.
  intros Hc Ho.
  unfold_method. rewrite Hc, Ho. unfold Py.slice_to.
  destruct (Nat.ltb_spec 6 (length keys));
    destruct (Nat.ltb_spec 8 (length function_keys));
    cbn; eexists _, _, _; (split; [reflexivity|]);
    repeat split; intros; try reflexivity; try lia;
    rewrite ?length_firstn; lia.
Qed.

(** At seven keys and nine function keys on an open connection. *)
Lemma keyboard_send_data_truncates_witness :
  exists (sent_keys sent_function_keys : list string) (reply : unit),
    run (keyboard_send_data Sample.seven_keys Sample.nine_function_keys
           Sample.open_controller) ideal_transport 0
    = ((Py.PyBool true, Sample.open_controller),
       [Event (keyboard_trigger Sample.open_serial sent_keys sent_function_keys)
          reply])
    /\ (6 < length Sample.seven_keys
        -> sent_keys = firstn 6 Sample.seven_keys)%nat
    /\ (length Sample.seven_keys <= 6 -> sent_keys = Sample.seven_keys)%nat
    /\ (8 < length Sample.nine_function_keys
        -> sent_function_keys = firstn 8 Sample.nine_function_keys)%nat
    /\ (length Sample.nine_function_keys <= 8
        -> sent_function_keys = Sample.nine_function_keys)%nat
    /\ (length sent_keys <= 6)%nat
    /\ (length sent_function_keys <= 8)%nat.
Proof.
  apply (keyboard_send_data_truncates Sample.open_controller Sample.open_serial);
    reflexivity.
Defined.

(** C3, the counterexample. A driver that holds an open connection and
    whose port has been set to the empty string: [create_connection]
    returns [False] at once, makes no transport call and leaves the
    connection field holding the open connection, not [None]. And a
    driver configured with a baud rate of -1, on a transport that checks
    it as pyserial does: the [ValueError] of the constructor is not a
    [SerialException], so it escapes [create_connection]. *)
Lemma create_connection_keeps_connection_or_raises :
  port Sample.unconfigured_controller = ""
  /\ run (create_connection Sample.unconfigured_controller) ideal_transport 0
     = ((Py.Returned false, Sample.unconfigured_controller), [])
  /\ connection Sample.unconfigured_controller = Some Sample.open_serial
  /\ run (create_connection Sample.misconfigured_controller)
       validating_transport 0
     = ((Py.Raised (Py.ValueError "Not a valid baudrate"),
         Sample.misconfigured_controller),
        [Event (Serial_new "COM3" (-1) (5 # 10))
           (ConstructorRaised (Py.ValueError "Not a valid baudrate"))]).
Proof. repeat split. Qed.

(** C3, amended. With an empty port [create_connection] returns [False]
    without any transport call and leaves the object, its connection
    field included, as it was. With a port configured it calls the
    [Serial] constructor exactly once. When the constructor raises
    [SerialException] it returns [False] and the connection field is
    [None]. When the constructor raises anything else, that exception
    escapes the call and the connection field is [None]. It returns
    [True] exactly when the constructor returned, and the connection
    field then holds the new object. *)
Theorem create_connection_outcome
    (self : ControllerCh9329) (env : transport) (n : nat) :
  let '((r, self'), tr) := run (create_connection self) env n in
  (port self = "" -> r = Py.Returned false /\ self' = self /\ tr = [])
  /\ (port self <> "" -> exists reply, open_attempts tr = [reply])
  /\ (open_attempts tr = [SerialException]
      -> r = Py.Returned false /\ connection self' = None)
  /\ (forall e, open_attempts tr = [ConstructorRaised e]
        -> r = Py.Raised e /\ connection self' = None)
  /\ (r = Py.Returned true <-> exists c, open_attempts tr = [Opened c])
  /\ (forall c, open_attempts tr = [Opened c] -> connection self' = Some c).
Proof.
  unfold_method.
  destruct (String.eqb_spec (port self) "") as [Hp|Hp].
  - cbn. repeat split; try discriminate; try contradiction.
    intros [c Hc]. discriminate.
  - destruct (connection self) as [old|] eqn:Hc; cbn; rewrite ?Hc; cbn.
    + destruct (env n unit (Serial_close old)).
      destruct (env (S n) open_outcome
                  (Serial_new (port self) (baud self) (timeout self)))
        as [c| |e]; cbn;
        repeat split; try congruence; eauto;
        intros [c' Hd]; discriminate.
    + destruct (env n open_outcome
                  (Serial_new (port self) (baud self) (timeout self)))
        as [c| |e]; cbn;
        repeat split; try congruence; eauto;
        intros [c' Hd]; discriminate.
Qed.

(** C7. On an open connection [mouse_send_data] sends the absolute or the
    relative report and then falls off its end: it returns [None], not
    [True], whereas [keyboard_send_data] on the same object returns
    [True]. *)
Theorem mouse_send_data_returns_none_after_sending :
  forall (button_name : string) (x y wheel : Z) (env : transport) (n : nat),
    (exists reply,
       run (mouse_send_data button_name x y wheel false Sample.open_controller)
         env n
       = ((Py.PyNone, Sample.open_controller),
          [Event (mouse_send_absolute_data Sample.open_serial x y button_name
                    1920 1080 wheel) reply]))
    /\ (exists reply,
          run (mouse_send_data button_name x y wheel true Sample.open_controller)
            env n
          = ((Py.PyNone, Sample.open_controller),
             [Event (mouse_send_relative_data Sample.open_serial x y button_name
                       wheel) reply]))
    /\ fst (fst (run (keyboard_send_data [] [] Sample.open_controller) env n))
       = Py.PyBool true.
Proof.
  intros. repeat split; cbn; try (eexists; reflexivity).
Qed.

(** C9. With an open connection [reset_controller] makes exactly one
    transport call, the chip's reset command: it neither closes nor opens
    a port, and the object, with its connection field and the open state
    of the connection, is afterwards what it was. *)
Theorem reset_controller_keeps_connection
    (self : ControllerCh9329) (c : Serial) (env : transport) (n : nat) :
  connection self = Some c ->
  is_open c = true ->
  let '((_, self'), tr) := run (reset_controller self) env n in
  self' = self
  /\ connection self' = Some c
  /\ (exists reply, tr = [Event (chip_send_command_reset c) reply])
  /\ List.filter reconnects tr = [].
Proof.
  intros Hc Ho. unfold_method. rewrite Hc, Ho. cbn.
  repeat split; eauto.
Qed.

(** On the sample driver holding an open connection. *)
Lemma reset_controller_keeps_connection_witness :
  let '((_, self'), tr) :=
    run (reset_controller Sample.open_controller) ideal_transport 0 in
  self' = Sample.open_controller
  /\ connection self' = Some Sample.open_serial
  /\ (exists reply, tr = [Event (chip_send_command_reset Sample.open_serial) reply])
  /\ List.filter reconnects tr = [].
Proof.
  apply (reset_controller_keeps_connection Sample.open_controller
           Sample.open_serial ideal_transport 0); reflexivity.
Defined.

(** X1. [close_connection] closes the held [Serial] object, once, and
    leaves the connection field [None]; on a driver without connection it
    makes no transport call, so closing twice is the same as closing
    once. *)
Theorem close_connection_closes_once
    (self : ControllerCh9329) (env : transport) (n : nat) :
  run (close_connection self) env n
  = ((tt, set_connection None self),
     match connection self with
     | Some c => [Event (Serial_close c) (env n _ (Serial_close c))]
     | None => []
     end)
  /\ run (close_connection (set_connection None self)) env n
     = ((tt, set_connection None self), []).
Proof.
  split; [|reflexivity].
  unfold_method. destruct (connection self) as [c|]; cbn; [|reflexivity].
  destruct (env n unit (Serial_close c)). reflexivity.
Qed.

(** A port that cannot be opened: the driver stays without connection. *)
Example create_connection_on_dead_transport :
  run (create_connection Sample.fresh_controller) dead_transport 0
  = ((Py.Returned false, Sample.fresh_controller),
     [Event (Serial_new "COM3" 9600 (5 # 10)) SerialException]).
Proof. reflexivity. Qed.

(** X2. None of the protocol operations changes the driver object or
    closes or opens a port, whatever the state of the connection and
    whatever the transport answers: a failed or refused operation never
    tears the connection down and never reconnects. *)
Theorem protocol_operations_keep_driver
    (self : ControllerCh9329) (env : transport) (n : nat) :
  (forall button_name x y wheel relative,
      keeps_driver (mouse_send_data button_name x y wheel relative) self env n)
  /\ (forall keys function_keys,
         keeps_driver (keyboard_send_data keys function_keys) self env n)
  /\ keeps_driver keyboard_receive_status self env n
  /\ keeps_driver product_info self env n
  /\ (forall release_type, keeps_driver (release release_type) self env n)
  /\ keeps_driver reset_controller self env n
  /\ keeps_driver restore_factory_settings self env n
  /\ keeps_driver check_connection self env n.
Proof.
  unfold keeps_driver.
  repeat split; intros; unfold_method;
    destruct (connection self) as [c|]; try reflexivity;
    try (destruct (is_open c); try reflexivity); cbn;
    repeat match goal with
           | |- context [if ?b then _ else _] => destruct b; cbn
           | |- context [env ?k ?R ?c] => destruct (env k R c); cbn
           end;
    reflexivity.
Qed.

(** X3. On a driver holding a connection [release] makes the calls its
    argument names and nothing else: [mouse.release] for "mouse",
    [keyboard.release] for "keyboard", both, the mouse first, for "all"
    and for "any"; any other release type makes no transport call at
    all. *)
Theorem release_dispatches_by_type
    (self : ControllerCh9329) (c : Serial) (env : transport) (n : nat) :
  connection self = Some c ->
  run (release "mouse" self) env n
  = ((tt, self), [Event (mouse_release c) tt])
  /\ run (release "keyboard" self) env n
     = ((tt, self), [Event (keyboard_release c) tt])
  /\ run (release "all" self) env n
     = ((tt, self), [Event (mouse_release c) tt; Event (keyboard_release c) tt])
  /\ run (release "any" self) env n = run (release "all" self) env n
  /\ (forall release_type,
        release_type <> "mouse" -> release_type <> "keyboard" ->
        release_type <> "all" -> release_type <> "any" ->
        run (release release_type self) env n = ((tt, self), [])).
Proof.
  intros Hc. unfold_method. rewrite Hc. cbn.
  repeat match goal with
         | |- context [env ?k unit ?c] => destruct (env k unit c)
         end.
  repeat split.
  intros t Hm Hk Ha Hy.
  destruct (String.eqb_spec t "mouse"); [contradiction|].
  destruct (String.eqb_spec t "keyboard"); [contradiction|].
  destruct (String.eqb_spec t "all"); [contradiction|].
  destruct (String.eqb_spec t "any"); [contradiction|].
  reflexivity.
Qed.

(** On the sample driver holding an open connection. *)
Lemma release_dispatches_by_type_witness :
  run (release "mouse" Sample.open_controller) ideal_transport 0
  = ((tt, Sample.open_controller), [Event (mouse_release Sample.open_serial) tt])
  /\ run (release "keyboard" Sample.open_controller) ideal_transport 0
     = ((tt, Sample.open_controller),
        [Event (keyboard_release Sample.open_serial) tt])
  /\ run (release "all" Sample.open_controller) ideal_transport 0
     = ((tt, Sample.open_controller),
        [Event (mouse_release Sample.open_serial) tt;
         Event (keyboard_release Sample.open_serial) tt])
  /\ run (release "any" Sample.open_controller) ideal_transport 0
     = run (release "all" Sample.open_controller) ideal_transport 0
  /\ (forall release_type,
        release_type <> "mouse" -> release_type <> "keyboard" ->
        release_type <> "all" -> release_type <> "any" ->
        run (release release_type Sample.open_controller) ideal_transport 0
        = ((tt, Sample.open_controller), [])).
Proof.
  apply (release_dispatches_by_type Sample.open_controller Sample.open_serial
           ideal_transport 0).
  reflexivity.
Defined.

(** X4. Called on a driver that holds a connection and has a port
    configured, [create_connection] closes the held object before it
    opens the port again, in that order and nothing else; when the
    reopen raises [SerialException] the old connection is gone and the
    driver is left without one, as it is when the constructor raises
    anything else, which escapes the call. *)
Theorem create_connection_closes_first
    (self : ControllerCh9329) (old : Serial) (env : transport) (n : nat) :
  connection self = Some old ->
  port self <> "" ->
  exists reply : open_outcome,
    run (create_connection self) env n
    = ((match reply with
        | Opened _ => Py.Returned true
        | SerialException => Py.Returned false
        | ConstructorRaised e => Py.Raised e
        end,
        set_connection
          match reply with Opened c => Some c | _ => None end
          self),
       [Event (Serial_close old) tt;
        Event (Serial_new (port self) (baud self) (timeout self)) reply]).
Proof.
  intros Hc Hp. unfold_method.
  destruct (String.eqb_spec (port self) ""); [contradiction|].
  rewrite Hc. cbn. rewrite Hc. cbn.
  destruct (env n unit (Serial_close old)).
  exists (env (S n) _ (Serial_new (port self) (baud self) (timeout self))).
  destruct (env (S n) _ (Serial_new (port self) (baud self) (timeout self)));
    reflexivity.
Qed.

(** Reopening the sample connection on a transport that refuses. *)
Lemma create_connection_closes_first_witness :
  exists reply : open_outcome,
    run (create_connection Sample.open_controller) dead_transport 0
    = ((match reply with
        | Opened _ => Py.Returned true
        | SerialException => Py.Returned false
        | ConstructorRaised e => Py.Raised e
        end,
        set_connection
          match reply with Opened c => Some c | _ => None end
          Sample.open_controller),
       [Event (Serial_close Sample.open_serial) tt;
        Event (Serial_new (port Sample.open_controller)
                 (baud Sample.open_controller) (timeout Sample.open_controller))
          reply]).
Proof.
  apply (create_connection_closes_first Sample.open_controller
           Sample.open_serial dead_transport 0).
  - reflexivity.
  - discriminate.
Defined.

(** X5. After a [create_connection] that returned [False] on a driver
    with a port configured, the driver holds no connection, so
    [check_connection] answers [False] and the write operations return
    [False] without any transport call until a later open succeeds. *)
Theorem failed_open_blocks_operations
    (self : ControllerCh9329) (env : transport) (n : nat) :
  port self <> "" ->
  fst (fst (run (create_connection self) env n)) = Py.Returned false ->
  let self' := snd (fst (run (create_connection self) env n)) in
  connection self' = None
  /\ check_connection self' = Ret (false, self')
  /\ (forall button_name x y wheel relative,
        mouse_send_data button_name x y wheel relative self'
        = Ret (Py.PyBool false, self'))
  /\ (forall keys function_keys,
        keyboard_send_data keys function_keys self'
        = Ret (Py.PyBool false, self'))
  /\ keyboard_receive_status self' = Ret ((false, ∅), self').
Proof.
  intros Hp Hfail self'.
  assert (Hnone : connection self' = None).
  { subst self'. revert Hfail. unfold_method.
    destruct (String.eqb_spec (port self) ""); [contradiction|].
    destruct (connection self) as [old|] eqn:Hc; cbn; rewrite ?Hc; cbn.
    - destruct (env n unit (Serial_close old)).
      destruct (env (S n) _ (Serial_new (port self) (baud self) (timeout self)));
        cbn; [discriminate | reflexivity | discriminate].
    - destruct (env n _ (Serial_new (port self) (baud self) (timeout self)));
        cbn; [discriminate | reflexivity | discriminate]. }
  assert (Hu : unavailable self') by (unfold unavailable; rewrite Hnone; exact I).
  split; [exact Hnone|].
  split; [unfold_method; rewrite Hnone; reflexivity|].
  split; [intros; apply mouse_send_data_unavailable, Hu|].
  split; [intros; apply keyboard_send_data_unavailable, Hu|].
  apply keyboard_receive_status_unavailable, Hu.
Qed.

(** A refused open on the sample driver that holds no connection. *)
Lemma failed_open_blocks_operations_witness :
  let self' :=
    snd (fst (run (create_connection Sample.fresh_controller) dead_transport 0)) in
  connection self' = None
  /\ check_connection self' = Ret (false, self')
  /\ (forall button_name x y wheel relative,
        mouse_send_data button_name x y wheel relative self'
        = Ret (Py.PyBool false, self'))
  /\ (forall keys function_keys,
        keyboard_send_data keys function_keys self'
        = Ret (Py.PyBool false, self'))
  /\ keyboard_receive_status self' = Ret ((false, ∅), self').
Proof.
  apply (failed_open_blocks_operations Sample.fresh_controller dead_transport 0).
  - discriminate.
  - reflexivity.
Defined.

(** X6. [reset_connection] closes the held connection, if any, exactly
    once and first; with an empty port it then stops, leaving the driver
    without a connection and no port opened; with a port configured it
    opens that port once and holds the object the constructor returned,
    or nothing when the constructor raised. It returns unless the
    constructor raised something else than [SerialException], which
    escapes. *)
Theorem reset_connection_outcome
    (self : ControllerCh9329) (env : transport) (n : nat) :
  exists reply : open_outcome,
    snd (run (reset_connection self) env n)
    = match connection self with
      | Some old => [Event (Serial_close old) tt]
      | None => []
      end
      ++ (if String.eqb (port self) "" then []
          else [Event (Serial_new (port self) (baud self) (timeout self)) reply])
    /\ connection (snd (fst (run (reset_connection self) env n)))
       = (if String.eqb (port self) "" then None
          else match reply with Opened c => Some c | _ => None end)
    /\ fst (fst (run (reset_connection self) env n))
       = (if String.eqb (port self) "" then Py.Returned tt
          else match reply with
               | ConstructorRaised e => Py.Raised e
               | _ => Py.Returned tt
               end).
Proof.
  unfold_method.
  destruct (connection self) as [old|] eqn:Hc; cbn; rewrite ?Hc; cbn;
    destruct (String.eqb (port self) "") eqn:Hp; cbn; rewrite ?Hc; cbn;
    repeat match goal with
           | |- context [env ?k unit ?c] => destruct (env k unit c); cbn
           end;
    first
      [ exists SerialException; repeat split; reflexivity
      | match goal with
        | |- context [env ?k open_outcome ?c] =>
            exists (env k open_outcome c); destruct (env k open_outcome c)
        end; repeat split; reflexivity ].
Qed.

End ControllerProperties.

(* ===================================================================== *)
(** ** Properties of the input handling *)
(* ===================================================================== *)

Section WindowProperties.
Import Main.

Context {KB : Type} `{KeyboardKeyBufferOps KB}
  {float_arithmetic : FloatArithmetic}.
Variable SHIFT_SYMBOL : list string.

Abbreviation Window := (@MyMainWindow KB).

(** Unfolds the plumbing of window methods. *)
Ltac unfold_w :=
  cbv [bind ret raise get_self modify do_effect emit logger sleep_ms
       update_status_bar status_set_bool user_input_block].

Lemma update_keyboard_buffer_returns hid_code state (self : Window) :
  fst (update_keyboard_buffer_with_hid_code hid_code state self)
  = Py.Returned tt.
Proof. reflexivity. Qed.

Lemma update_keyboard_buffer_effects hid_code state (self : Window) :
  exists snapshot,
    effects (snd (update_keyboard_buffer_with_hid_code hid_code state self))
    = effects self ++ [Emit "keyboard_write" (PKeyboard snapshot)].
Proof. eexists. reflexivity. Qed.

Lemma update_keyboard_buffer_frame hid_code state (self : Window) :
  let self' := snd (update_keyboard_buffer_with_hid_code hid_code state self) in
  keyboard_key_name_to_hid_code self' = keyboard_key_name_to_hid_code self
  /\ config self' = config self
  /\ status self' = status self
  /\ keyboard_indicator_buffer self' = keyboard_indicator_buffer self.
Proof. repeat split. Qed.

(** A loop whose body always returns runs to its end. *)
Lemma for_each_returns {A : Type} (body : A -> W unit) (xs : list A)
    (self : Window) :
  (forall x s, fst (body x s) = Py.Returned tt) ->
  for_each xs body self
  = (Py.Returned tt, fold_left (fun s x => snd (body x s)) xs self).
Proof.
  intros Hbody. revert self.
  induction xs as [|x xs IH]; intros self; cbn.
  - reflexivity.
  - unfold bind. specialize (Hbody x self).
    destruct (body x self) as [[[]|e] s']; cbn in *; [apply IH | discriminate].
Qed.

Lemma random_sleep_ms_raises min_interval max_interval u (self : Window) :
  random_sleep_ms min_interval max_interval u self
  = (Py.Raised (Py.NameError "interval"), self).
Proof. reflexivity. Qed.

(** C10. Every call of [random_sleep_ms] raises [NameError] for the name
    [interval], in the state it was called in. So [shortcut_key_send]
    raises on every call: it ends with that exception in the state its
    press phase has reached, one [keyboard_write] emitted per mapped key
    and none for a release. *)
Theorem shortcut_key_send_never_releases
    (keys : list string) (u : Q) (self : Window) :
  (forall min_interval max_interval (s : Window),
      random_sleep_ms min_interval max_interval u s
      = (Py.Raised (Py.NameError "interval"), s))
  /\ let key_code_list :=
       List.filter (fun key_code => negb (key_code =? 0)%Z)
         (List.map
            (fun key_name =>
               Py.dict_get (keyboard_key_name_to_hid_code self) key_name 0%Z)
            keys) in
     let pressed :=
       fold_left
         (fun s key_code =>
            snd (update_keyboard_buffer_with_hid_code key_code
                   KeyStateEnum.PRESS s))
         key_code_list self in
     shortcut_key_send keys u self
     = (Py.Raised (Py.NameError "interval"), pressed)
     /\ length (effects pressed)
        = (length (effects self) + length key_code_list)%nat.
Proof.
  split; [intros; apply random_sleep_ms_raises|].
  cbv zeta. split.
  - unfold shortcut_key_send at 1. unfold bind at 1. unfold get_self at 1.
    unfold bind at 1.
    rewrite for_each_returns
      by (intros; apply update_keyboard_buffer_returns).
    unfold bind at 1. rewrite random_sleep_ms_raises. reflexivity.
  - generalize (List.filter (fun key_code => negb (key_code =? 0)%Z)
         (List.map
            (fun key_name =>
               Py.dict_get (keyboard_key_name_to_hid_code self) key_name 0%Z)
            keys)) as codes.
    intros codes. generalize self as s.
    induction codes as [|k codes IH]; intros s; cbn [fold_left length].
    + lia.
    + rewrite IH.
      destruct (update_keyboard_buffer_effects k KeyStateEnum.PRESS s)
        as [snapshot ->].
      rewrite length_app. cbn. lia.
Qed.

(** C8, amended. A wheel event received while the mouse is not
    captured, input is blocked or the mouse is paused changes nothing.
    A wheel event that is accepted sets the wheel state to down for an
    angle delta of exactly 120, to up for exactly -120 and to neutral for
    any other value, and hands the buffer in that state to
    [mouse_scroll_report]: one mouse write command goes out whose
    snapshot carries the wheel state just set, and the buffer is neutral
    again when the handler returns. *)
Theorem wheelEvent_dispatches_mapped_wheel (y : Z) (self : Window) :
  let accepted :=
    is_enabled self "mouse_capture"
    && negb (is_enabled self "block_input")
    && negb (is_enabled self "pause_mouse") in
  (accepted = false -> wheelEvent y self = (Py.Returned tt, self))
  /\ (accepted = true ->
      exists (command : string) (wheel_state : MouseWheelStateEnum.t),
        wheelEvent y self
        = mouse_scroll_report
            (set_mouse_buffer
               (MouseBuffer.set_wheel wheel_state (mouse_buffer self)) self)
        /\ wheelEvent y self
           = (Py.Returned tt,
              set_mouse_buffer
                (MouseBuffer.set_wheel MouseWheelStateEnum.STOP
                   (mouse_buffer self))
                (set_effects
                   (effects self
                    ++ [Emit command
                          (PMouse
                             (MouseBuffer.set_wheel wheel_state
                                (mouse_buffer self)))])
                   self))
        /\ is_mouse_write command = true
        /\ (y = 120%Z -> wheel_state = MouseWheelStateEnum.DOWN)
        /\ (y = (-120)%Z -> wheel_state = MouseWheelStateEnum.UP)
        /\ (y <> 120%Z -> y <> (-120)%Z
            -> wheel_state = MouseWheelStateEnum.STOP)).
Proof.
  cbv zeta. split.
  - intros Hrej. unfold wheelEvent. unfold_w.
    destruct (is_enabled self "mouse_capture"); [|reflexivity].
    destruct (is_enabled self "block_input"); [reflexivity|].
    destruct (is_enabled self "pause_mouse"); [reflexivity|discriminate].
  - intros Hacc.
    apply andb_prop in Hacc as [Hacc Hpause%negb_true_iff].
    apply andb_prop in Hacc as [Hcap Hblock%negb_true_iff].
    exists (if is_enabled self "relative_mode"
            then "mouse_relative_write" else "mouse_absolute_write"),
           (wheel_of_angle_delta y).
    split; [|split; [|split; [|unfold wheel_of_angle_delta; repeat split]]].
    + unfold wheelEvent. unfold_w.
      rewrite Hcap, Hblock, Hpause. reflexivity.
    + unfold wheelEvent, mouse_scroll_report. unfold_w.
      rewrite Hcap, Hblock, Hpause.
      unfold is_enabled. cbn [negb status set_mouse_buffer set_effects].
      destruct (Py.dict_get (status self) "relative_mode" false); reflexivity.
    + destruct (is_enabled self "relative_mode"); reflexivity.
    + intros ->. reflexivity.
    + intros ->. reflexivity.
    + intros H1 H2.
      destruct (Z.eqb_spec y 120); [contradiction|].
      destruct (Z.eqb_spec y (-120)); [contradiction|]. reflexivity.
Qed.

(** Case analysis on the tests a method makes. *)
Ltac split_ifs :=
  repeat (match goal with
          | |- context [if ?c then _ else _] => destruct c eqn:?
          | |- context [match ?x with Some _ => _ | None => _ end] =>
              destruct x eqn:?
          end; cbv beta iota zeta).

(** Reads fields through the setters. *)
Ltac simpl_w :=
  cbn [fst snd wheel button point mouse_buffer effects status
       mouse_need_report mouse_last_pos
       set_mouse_buffer set_effects set_status set_mouse_last_pos
       set_mouse_need_report set_keyboard_key_buffer
       MouseBuffer.set_point MouseBuffer.set_wheel MouseBuffer.set_button
       MouseBuffer.clear_point MouseBuffer.clear_wheel MouseBuffer.clear_button
       MouseBuffer.clear MouseBuffer.dup MouseBuffer.new MouseBuffer.get_point].

Ltac simpl_w_all :=
  cbn [fst snd wheel button point mouse_buffer effects status
       mouse_need_report mouse_last_pos
       set_mouse_buffer set_effects set_status set_mouse_last_pos
       set_mouse_need_report set_keyboard_key_buffer
       MouseBuffer.set_point MouseBuffer.set_wheel MouseBuffer.set_button
       MouseBuffer.clear_point MouseBuffer.clear_wheel MouseBuffer.clear_button
       MouseBuffer.clear MouseBuffer.dup MouseBuffer.new MouseBuffer.get_point]
    in *.

(** The absolute mapping touches the point and the last pointer position
    only, also when it raises. *)
Lemma absolute_mode_frame x y (self : Window) :
  let self' := snd (update_mouse_position_buffer_with_absolute_mode x y self) in
  effects self' = effects self
  /\ wheel (mouse_buffer self') = wheel (mouse_buffer self)
  /\ status self' = status self.
Proof.
  unfold update_mouse_position_buffer_with_absolute_mode, truediv. unfold_w.
  cbv zeta. split_ifs; simpl_w; repeat split.
Qed.

(** The relative mapping returns, moves the pointer at most once and
    leaves the wheel alone. *)
Lemma relative_mode_frame middle_pos mouse_pos (self : Window) :
  let r := update_mouse_position_buffer_with_relative_mode middle_pos mouse_pos
             self in
  fst r = Py.Returned tt
  /\ wheel (mouse_buffer (snd r)) = wheel (mouse_buffer self)
  /\ status (snd r) = status self
  /\ (effects (snd r) = effects self
      \/ effects (snd r) = effects self ++ [SetCursorPos middle_pos]).
Proof.
  unfold update_mouse_position_buffer_with_relative_mode. unfold_w.
  cbv zeta. destruct (mouse_last_pos self) as [last|]; cbv beta iota zeta.
  - destruct (MouseBuffer.get_point (mouse_buffer self)) as [rel_x rel_y].
    split_ifs; simpl_w; repeat split; auto.
  - simpl_w; repeat split; auto.
Qed.

(** What one turn of the event loop does to the wheel state and which
    mouse write commands it dispatches. *)
Lemma step_frame (e : gui_event) (self : Window) :
  (wheel (mouse_buffer self) = MouseWheelStateEnum.STOP
   -> wheel (mouse_buffer (step self e)) = MouseWheelStateEnum.STOP)
  /\ exists new,
       effects (step self e) = effects self ++ new
       /\ forall b, In b (mouse_writes new) ->
            wheel b = MouseWheelStateEnum.STOP
            \/ wheel b = wheel (mouse_buffer self)
            \/ (exists y, e = WheelEvent y /\ wheel b = wheel_of_angle_delta y).
Proof.
  assert (Hnil : forall l : list (@effect KB), l = l ++ [])
    by (intros; symmetry; apply app_nil_r).
  unfold step.
  destruct e as [y|x y middle_pos mouse_pos|b|b| | |t| |name value];
    cbn [handler].
  - (* wheelEvent *)
    unfold wheelEvent, mouse_scroll_report. unfold_w. unfold is_enabled.
    simpl_w. split_ifs; simpl_w;
      (split; [auto|]);
      first [ exists []; split; [apply Hnil | intros ? []]
            | eexists; split; [reflexivity|];
              cbn; intros ? [<-|[]]; right; right; eexists; split; reflexivity ].
  - (* mouseMoveEvent *)
    unfold mouseMoveEvent, update_mouse_position_buffer. unfold_w.
    unfold is_enabled. split_ifs; simpl_w;
      try (split; [auto|]; exists []; split; [apply Hnil | intros ? []]).
    + pose proof (absolute_mode_frame x y self) as (He & Hw & _).
      destruct (update_mouse_position_buffer_with_absolute_mode x y self)
        as [[[]|ex] s']; simpl_w_all;
        (split; [congruence|]); exists []; rewrite He;
        (split; [apply Hnil | intros ? []]).
    + pose proof (relative_mode_frame middle_pos mouse_pos self)
        as (Hr & Hw & _ & He).
      destruct (update_mouse_position_buffer_with_relative_mode middle_pos
                  mouse_pos self) as [[[]|ex] s']; simpl_w_all;
        try discriminate.
      split; [congruence|].
      destruct He as [-> | ->];
        [exists [] | exists [SetCursorPos middle_pos]];
        (split; [first [apply Hnil | reflexivity] | intros ? []]).
  - (* mousePressEvent *)
    unfold mousePressEvent, mouse_button_report, mouse_capture_action.
    unfold_w. unfold is_enabled. simpl_w. split_ifs; simpl_w;
      (split; [auto|]);
      first [ exists []; split; [apply Hnil | intros ? []]
            | eexists; split; [reflexivity|];
              cbn; intros ? [<-|[]]; right; left; reflexivity ].
  - (* mouseReleaseEvent *)
    unfold mouseReleaseEvent, mouse_button_report.
    unfold_w. unfold is_enabled. simpl_w. split_ifs; simpl_w;
      (split; [auto|]);
      first [ exists []; split; [apply Hnil | intros ? []]
            | eexists; split; [reflexivity|];
              cbn; intros ? [<-|[]]; right; left; reflexivity ].
  - (* mouse_timer_report *)
    unfold mouse_timer_report. unfold_w. unfold is_enabled. simpl_w.
    split_ifs; simpl_w;
      (split; [auto|]);
      first [ exists []; split; [apply Hnil | intros ? []]
            | eexists; split; [reflexivity|];
              cbn; intros ? [<-|[]]; right; left; reflexivity ].
  - (* clear_mouse_key_buffer *)
    unfold clear_mouse_key_buffer. unfold_w. simpl_w.
    split; [auto|]. eexists; split; [reflexivity|].
    cbn. intros ? [<-|[]]. left. reflexivity.
  - (* controller_device_release *)
    unfold controller_device_release. unfold_w.
    split_ifs; simpl_w; (split; [auto|]);
      (eexists; split; [reflexivity|]); cbn; intros ? [].
  - (* controller_device_reset *)
    unfold controller_device_reset. unfold_w. simpl_w.
    split; [auto|]. eexists; split; [reflexivity|]. cbn. intros ? [].
  - (* a status flag changes *)
    unfold_w. simpl_w. split; [auto|].
    exists []; split; [apply Hnil | intros ? []].
Qed.

Lemma run_events_wheel (es : list gui_event) (self : Window) :
  wheel (mouse_buffer self) = MouseWheelStateEnum.STOP ->
  wheel (mouse_buffer (run_events self es)) = MouseWheelStateEnum.STOP.
Proof.
  unfold run_events. revert self.
  induction es as [|e es IH]; intros self Hw; cbn [fold_left].
  - exact Hw.
  - apply IH. apply step_frame, Hw.
Qed.

(** C5, amended. The reset belongs to [mouse_scroll_report] alone: it
    dispatches the buffer as it stands and sets the wheel state to
    neutral right after, so a wheel event that is accepted dispatches the
    wheel state it maps to and leaves the buffer neutral. The flush on
    the report timer and the button reports contain no reset: they
    dispatch the wheel state as it stands and leave it as it was. They
    never carry a wheel state that is not neutral only because the wheel
    is neutral whenever they run: from a window whose wheel state is
    neutral, whatever events the loop delivers, the wheel state is
    neutral when a handler returns, and a mouse write command dispatched
    with another wheel state comes from [wheelEvent]. *)
Theorem wheel_reset_follows_scroll_report_only
    (self : Window) (y : Z) (mouse_button : Qt.MouseButton)
    (button_state : MouseButtonStateEnum.t) :
  let neutral := MouseWheelStateEnum.STOP in
  (exists command,
      is_mouse_write command = true
      /\ mouse_scroll_report self
         = (Py.Returned tt,
            set_mouse_buffer
              (MouseBuffer.set_wheel neutral (mouse_buffer self))
              (set_effects
                 (effects self ++ [Emit command (PMouse (mouse_buffer self))])
                 self)))
  /\ (is_enabled self "mouse_capture" = true ->
      is_enabled self "block_input" = false ->
      is_enabled self "pause_mouse" = false ->
      exists command,
        is_mouse_write command = true
        /\ effects (snd (wheelEvent y self))
           = effects self
             ++ [Emit command
                   (PMouse
                      (MouseBuffer.set_wheel (wheel_of_angle_delta y)
                         (mouse_buffer self)))]
        /\ wheel (mouse_buffer (snd (wheelEvent y self))) = neutral)
  /\ (mouse_need_report self = true ->
      exists command,
        is_mouse_write command = true
        /\ effects (snd (mouse_timer_report self))
           = effects self ++ [Emit command (PMouse (mouse_buffer self))]
        /\ wheel (mouse_buffer (snd (mouse_timer_report self)))
           = wheel (mouse_buffer self))
  /\ (exists command snapshot,
        is_mouse_write command = true
        /\ effects (snd (mouse_button_report mouse_button button_state self))
           = effects self ++ [Emit command (PMouse snapshot)]
        /\ wheel snapshot = wheel (mouse_buffer self)
        /\ wheel (mouse_buffer
                    (snd (mouse_button_report mouse_button button_state self)))
           = wheel (mouse_buffer self))
  /\ (wheel (mouse_buffer self) = neutral ->
      forall (es : list gui_event) (e : gui_event),
        let s := run_events self es in
        let s' := step s e in
        wheel (mouse_buffer s') = neutral
        /\ exists new,
             effects s' = effects s ++ new
             /\ forall b, In b (mouse_writes new) ->
                  wheel b <> neutral ->
                  exists y', e = WheelEvent y'
                             /\ wheel b = wheel_of_angle_delta y').
Proof.
  cbv zeta.
  split; [|split; [|split; [|split]]].
  - exists (if is_enabled self "relative_mode"
            then "mouse_relative_write" else "mouse_absolute_write").
    split; [destruct (is_enabled self "relative_mode"); reflexivity|].
    unfold mouse_scroll_report. unfold_w. reflexivity.
  - intros Hcap Hblock Hpause.
    exists (if is_enabled self "relative_mode"
            then "mouse_relative_write" else "mouse_absolute_write").
    split; [destruct (is_enabled self "relative_mode"); reflexivity|].
    unfold wheelEvent, mouse_scroll_report. unfold_w.
    rewrite Hcap, Hblock, Hpause.
    unfold is_enabled. cbn [negb status set_mouse_buffer set_effects].
    split; reflexivity.
  - intros Hneed.
    exists (if is_enabled self "relative_mode"
            then "mouse_relative_write" else "mouse_absolute_write").
    split; [destruct (is_enabled self "relative_mode"); reflexivity|].
    unfold mouse_timer_report. unfold_w. rewrite Hneed.
    unfold is_enabled. simpl_w.
    destruct (Py.dict_get (status self) "relative_mode" false);
      simpl_w; split; reflexivity.
  - exists (if is_enabled self "relative_mode"
            then "mouse_relative_write" else "mouse_absolute_write").
    unfold mouse_button_report. unfold_w. unfold is_enabled. simpl_w.
    destruct (Py.dict_get (status self) "relative_mode" false);
      simpl_w; eexists; (split; [reflexivity|]);
      (split; [reflexivity|]); split; reflexivity.
  - intros Hstart es e.
    assert (Hs : wheel (mouse_buffer (run_events self es))
                 = MouseWheelStateEnum.STOP)
      by (apply run_events_wheel, Hstart).
    destruct (step_frame e (run_events self es)) as (Hw & new & Heff & Hnew).
    split; [exact (Hw Hs)|].
    exists new. split; [exact Heff|].
    intros b Hb Hne.
    destruct (Hnew b Hb) as [Hstop | [Hsame | Hwheel]];
      [congruence | congruence | exact Hwheel].
Qed.

(** Emitting keystrokes never raises: [play] is a fold over the list. *)
Lemma play_keystroke_returns k (self : Window) :
  fst (play_keystroke k self) = Py.Returned tt.
Proof. destruct k; reflexivity. Qed.

Lemma play_returns ks (self : Window) :
  play ks self = (Py.Returned tt, typed ks self).
Proof. apply for_each_returns, play_keystroke_returns. Qed.

Lemma typed_app ks1 ks2 (self : Window) :
  typed (ks1 ++ ks2) self = typed ks2 (typed ks1 self).
Proof. apply fold_left_app. Qed.

(** Keystrokes leave the key table and the configuration alone. *)
Lemma typed_frame ks (self : Window) :
  keyboard_key_name_to_hid_code (typed ks self)
  = keyboard_key_name_to_hid_code self
  /\ config (typed ks self) = config self.
Proof.
  revert self. induction ks as [|k ks IH]; intros self; [split; reflexivity|].
  cbn [typed fold_left]. fold (typed ks (snd (play_keystroke k self))).
  destruct (IH (snd (play_keystroke k self))) as [-> ->].
  destruct k; split; reflexivity.
Qed.

(** The body of the loop emits what the specification says for a
    character. *)
Lemma keyboard_send_character_expands shift_hid_code character (self : Window) :
  keyboard_send_character SHIFT_SYMBOL shift_hid_code character self
  = play (expand_character SHIFT_SYMBOL (keyboard_key_name_to_hid_code self)
            (paste_board_interval (config self)) shift_hid_code character)
      self.
Proof.
  unfold keyboard_send_character, expand_character, Py.dict_get.
  destruct (isascii character); cbn [negb]; [|reflexivity].
  unfold bind at 1. unfold get_self at 1. cbv beta iota.
  destruct (default 0%Z
              (keyboard_key_name_to_hid_code self !! str_of_char character))
    as [|p|p]; cbn [Z.eqb]; try reflexivity;
    destruct (isupper character);
    destruct (existsb (String.eqb (str_of_char character)) SHIFT_SYMBOL);
    reflexivity.
Qed.

Lemma keyboard_send_loop_expands shift_hid_code data (self : Window) :
  for_each data (keyboard_send_character SHIFT_SYMBOL shift_hid_code) self
  = play (flat_map
            (expand_character SHIFT_SYMBOL (keyboard_key_name_to_hid_code self)
               (paste_board_interval (config self)) shift_hid_code)
            data)
      self.
Proof.
  rewrite play_returns. revert self.
  induction data as [|character data IH]; intros self; [reflexivity|].
  cbn [for_each flat_map]. unfold bind.
  rewrite keyboard_send_character_expands, play_returns, typed_app.
  set (ks := expand_character _ _ _ _ character).
  rewrite IH.
  destruct (typed_frame ks self) as [-> ->]. reflexivity.
Qed.

Lemma bind_returned {A B : Type} (m : W A) (f : A -> W B) (self : Window)
    (a : A) (self' : Window) :
  m self = (Py.Returned a, self') -> bind m f self = f a self'.
Proof. intros Hm. unfold bind. rewrite Hm. reflexivity. Qed.

(** Toggling caps lock by name flips the cached indicator and emits the
    press and the release of the caps-lock key. *)
Lemma caps_lock_toggle (self : Window) :
  Py.dict_get (keyboard_key_name_to_hid_code self) "caps_lock" 0%Z <> 0%Z ->
  update_keyboard_indicator_buffer "caps_lock" self
  = (Py.Returned tt,
     typed
       [Stroke (default 0%Z (keyboard_key_name_to_hid_code self !! "caps_lock"))
          KeyStateEnum.PRESS;
        Stroke (default 0%Z (keyboard_key_name_to_hid_code self !! "caps_lock"))
          KeyStateEnum.RELEASE]
       (set_keyboard_indicator_buffer
          {| num_lock := num_lock (keyboard_indicator_buffer self);
             caps_lock := negb (caps_lock (keyboard_indicator_buffer self));
             scroll_lock := scroll_lock (keyboard_indicator_buffer self) |}
          self)).
Proof.
  intros Hcode. unfold update_keyboard_indicator_buffer, Py.dict_get in *.
  erewrite bind_returned by reflexivity.
  cbn [String.eqb Ascii.eqb Bool.eqb andb].
  destruct (Z.eqb_spec
              (default 0%Z (keyboard_key_name_to_hid_code self !! "caps_lock"))
              0) as [Hz|_]; [contradiction|].
  reflexivity.
Qed.

Lemma typed_keeps_table ks (self : Window) :
  keyboard_key_name_to_hid_code (typed ks self)
  = keyboard_key_name_to_hid_code self.
Proof. apply typed_frame. Qed.

(** [keyboard_send_string] comes to blocking user input, emitting the
    keystrokes of [expand_string] with the methods of the window and
    unblocking user input. *)
Lemma keyboard_send_string_plays (data : list N) (self : Window) :
  Py.dict_get (keyboard_key_name_to_hid_code self) "shift" 0%Z <> 0%Z ->
  (caps_lock (keyboard_indicator_buffer self) = true ->
   Py.dict_get (keyboard_key_name_to_hid_code self) "caps_lock" 0%Z <> 0%Z) ->
  exists sent : Window,
    play (expand_string SHIFT_SYMBOL self data) (begin_paste self)
    = (Py.Returned tt, sent)
    /\ keyboard_send_string SHIFT_SYMBOL data self
       = (Py.Returned tt, end_paste sent).
Proof.
  intros Hshift Hcaps.
  eexists. split; [apply play_returns|].
  unfold keyboard_send_string, expand_string.
  erewrite bind_returned by reflexivity.
  erewrite bind_returned by reflexivity.
  cbn [keyboard_key_name_to_hid_code keyboard_indicator_buffer set_status].
  unfold Py.dict_get in *.
  destruct (Z.eqb_spec
              (default 0%Z (keyboard_key_name_to_hid_code self !! "shift")) 0)
    as [Hz|_]; [contradiction|].
  rewrite typed_app.
  destruct (caps_lock (keyboard_indicator_buffer self)) eqn:Hcl.
  - (* caps lock is on: the toggle goes out first *)
    erewrite bind_returned
      by (apply caps_lock_toggle, (Hcaps eq_refl)).
    cbn [keyboard_indicator_buffer set_status]. rewrite Hcl. cbn [negb].
    erewrite bind_returned
      by (rewrite keyboard_send_loop_expands; apply play_returns).
    rewrite !typed_keeps_table.
    reflexivity.
  - (* caps lock is off *)
    erewrite bind_returned by reflexivity.
    erewrite bind_returned
      by (rewrite keyboard_send_loop_expands; apply play_returns).
    cbn [typed fold_left].
    replace (begin_paste self)
      with (set_status (<["block_input" := true]> (status self)) self).
    + reflexivity.
    + unfold begin_paste, set_keyboard_indicator_buffer, set_status.
      cbn. rewrite <- Hcl.
      destruct (keyboard_indicator_buffer self); reflexivity.
Qed.

(** The keystrokes emitted with the methods of the window, on the wire. *)
Lemma typed_effects ks (self : Window) :
  typed ks self
  = set_keyboard_key_buffer
      (snd (keystroke_effects ks (keyboard_key_buffer self)))
      (set_effects
         (effects self ++ fst (keystroke_effects ks (keyboard_key_buffer self)))
         self).
Proof.
  revert self. induction ks as [|k ks IH]; intros self.
  - cbn. rewrite app_nil_r. destruct self; reflexivity.
  - cbn [typed fold_left]. fold (typed ks (snd (play_keystroke k self))).
    rewrite IH. cbn [keystroke_effects].
    destruct k as [hid_code [|]|interval|record];
      cbn [play_keystroke keystroke_effect];
      unfold update_keyboard_buffer_with_hid_code; unfold_w;
      cbn [snd fst keyboard_key_buffer effects set_effects
           set_keyboard_key_buffer];
      match goal with
      | |- context [keystroke_effects ks ?held] =>
          destruct (keystroke_effects ks held) as [es held'']
      end;
      cbn [fst snd]; rewrite <- app_assoc; reflexivity.
Qed.

(** C6. [keyboard_send_string] returns having appended to what the window
    has emitted exactly the keystrokes of [expand_string], in their
    order, each as it is on the wire: the caps-lock press and release
    first when the indicator cache has caps lock on, then, for each
    character in order, one log line for a character that is not ASCII or
    has no key code, and otherwise one [keyboard_write] for its key press
    and one for its release, inside a shift press and release for an
    uppercase letter or a shift symbol, followed by one sleep of the
    configured interval. Nothing else is emitted. Afterwards the key
    buffer is what the keystrokes leave, caps lock is off in the
    indicator cache and user input is unblocked. The key table must know
    the names [shift] and, when caps lock is on, [caps_lock], which the
    method asserts. *)
Theorem keyboard_send_string_expands (data : list N) (self : Window) :
  Py.dict_get (keyboard_key_name_to_hid_code self) "shift" 0%Z <> 0%Z ->
  (caps_lock (keyboard_indicator_buffer self) = true ->
   Py.dict_get (keyboard_key_name_to_hid_code self) "caps_lock" 0%Z <> 0%Z) ->
  let sent :=
    keystroke_effects (expand_string SHIFT_SYMBOL self data)
      (keyboard_key_buffer self) in
  keyboard_send_string SHIFT_SYMBOL data self
  = (Py.Returned tt,
     set_status
       (<["block_input" := false]> (<["block_input" := true]> (status self)))
       (set_keyboard_indicator_buffer
          {| num_lock := num_lock (keyboard_indicator_buffer self);
             caps_lock := false;
             scroll_lock := scroll_lock (keyboard_indicator_buffer self) |}
          (set_keyboard_key_buffer (snd sent)
             (set_effects (effects self ++ fst sent) self)))).
Proof.
  intros Hshift Hcaps sent.
  destruct (keyboard_send_string_plays data self Hshift Hcaps)
    as (played & Hplay & ->).
  rewrite play_returns in Hplay. injection Hplay as <-.
  rewrite typed_effects. subst sent. reflexivity.
Qed.

Lemma Qltb_lt a b : Qltb a b = true <-> (a < b)%Q.
Proof.
  unfold Qltb. rewrite negb_true_iff, <- not_true_iff_false, Qle_bool_iff.
  split; [apply Qnot_le_lt | apply Qlt_not_le].
Qed.

Lemma Qltb_ge a b : Qltb a b = false <-> (b <= a)%Q.
Proof.
  unfold Qltb. rewrite negb_false_iff. apply Qle_bool_iff.
Qed.

Lemma Qeq_bool_pos q : (0 < q)%Q -> Qeq_bool q 0 = false.
Proof.
  intros Hq. apply not_true_iff_false. intros Heq.
  apply Qeq_bool_iff in Heq. rewrite Heq in Hq. apply (Qlt_irrefl 0), Hq.
Qed.

Lemma inject_Z_pos z : (0 < z)%Z -> (0 < inject_Z z)%Q.
Proof. intros Hz. change 0%Q with (inject_Z 0). rewrite <- Zlt_Qlt. exact Hz. Qed.

Lemma ratio_pos a b : (0 < a)%Z -> (0 < b)%Z -> (0 < inject_Z a / inject_Z b)%Q.
Proof.
  intros Ha Hb. apply Qlt_shift_div_l; [apply inject_Z_pos, Hb|].
  rewrite Qmult_0_l. apply inject_Z_pos, Ha.
Qed.

Lemma ratio_ltb a b c d :
  (0 < b)%Z -> (0 < d)%Z ->
  Qltb (inject_Z a / inject_Z b) (inject_Z c / inject_Z d) = (a * d <? c * b)%Z.
Proof.
  intros Hb Hd.
  destruct (Z.ltb_spec (a * d) (c * b)) as [Hlt|Hge].
  - apply Qltb_lt.
    apply Qlt_shift_div_l; [apply inject_Z_pos, Hd|].
    unfold Qdiv. rewrite <- Qmult_assoc, (Qmult_comm (/ _)), Qmult_assoc.
    apply Qlt_shift_div_r; [apply inject_Z_pos, Hb|].
    rewrite <- !inject_Z_mult, <- Zlt_Qlt. exact Hlt.
  - apply Qltb_ge.
    apply Qle_shift_div_r; [apply inject_Z_pos, Hd|].
    unfold Qdiv. rewrite <- Qmult_assoc, (Qmult_comm (/ _)), Qmult_assoc.
    apply Qle_shift_div_l; [apply inject_Z_pos, Hb|].
    rewrite <- !inject_Z_mult, <- Zle_Qle. exact Hge.
Qed.

Lemma py_clamp v : py_max (py_min v 1) 0 = clamp v 0 1.
Proof.
  unfold py_max, py_min, clamp.
  destruct (Qltb 1 v) eqn:H1.
  - apply Qltb_lt in H1.
    assert (H0 : Qltb v 0 = false). { apply Qltb_ge. lra. }
    rewrite H0. reflexivity.
  - reflexivity.
Qed.

Lemma clamp_bounds v : (0 <= clamp v 0 1 <= 1)%Q.
Proof.
  unfold clamp.
  destruct (Qltb v 0) eqn:H0; [lra|]. apply Qltb_ge in H0.
  destruct (Qltb 1 v) eqn:H1; [lra|]. apply Qltb_ge in H1. lra.
Qed.

Lemma clamp_low v : (v <= 0)%Q -> (clamp v 0 1 == 0)%Q.
Proof.
  intros Hv. unfold clamp.
  destruct (Qltb v 0) eqn:H0; [reflexivity|]. apply Qltb_ge in H0.
  destruct (Qltb 1 v) eqn:H1; [apply Qltb_lt in H1; lra|]. lra.
Qed.

Lemma clamp_high v : (1 <= v)%Q -> (clamp v 0 1 == 1)%Q.
Proof.
  intros Hv. unfold clamp.
  destruct (Qltb v 0) eqn:H0; [apply Qltb_lt in H0; lra|].
  destruct (Qltb 1 v) eqn:H1; [reflexivity|]. apply Qltb_ge in H1. lra.
Qed.

Lemma normalize_bounds p diff pos extent :
  (0 <= normalize p diff pos extent <= 1)%Q.
Proof. apply clamp_bounds. Qed.

Lemma normalize_low p diff pos extent :
  (0 < inject_Z extent - diff)%Q ->
  (inject_Z p <= inject_Z pos + diff / 2)%Q ->
  (normalize p diff pos extent == 0)%Q.
Proof.
  intros Hd Hp. apply clamp_low.
  apply Qle_shift_div_r; [exact Hd|]. lra.
Qed.

Lemma normalize_high p diff pos extent :
  (0 < inject_Z extent - diff)%Q ->
  (inject_Z pos + inject_Z extent - diff / 2 <= inject_Z p)%Q ->
  (normalize p diff pos extent == 1)%Q.
Proof.
  intros Hd Hp. apply clamp_high.
  apply Qle_shift_div_l; [exact Hd|].
  unfold Qdiv in *. change (/ 2)%Q with (1 # 2)%Q in *. lra.
Qed.

Lemma letterbox_extent keep (v : viewport) :
  (0 < vp_width v)%Z -> (0 < vp_height v)%Z ->
  (0 < vp_x_res v)%Z -> (0 < vp_y_res v)%Z ->
  (0 < inject_Z (vp_width v) - fst (letterbox keep v))%Q
  /\ (0 < inject_Z (vp_height v) - snd (letterbox keep v))%Q
  /\ (fst (letterbox keep v) = 0%Q \/ snd (letterbox keep v) = 0%Q).
Proof.
  intros Hw Hh Hxr Hyr.
  pose proof (inject_Z_pos _ Hw) as Hw'.
  pose proof (inject_Z_pos _ Hh) as Hh'.
  pose proof (ratio_pos _ _ Hyr Hxr) as Hr.
  unfold letterbox.
  destruct keep; cbn [negb fst snd]; [|repeat split; auto; lra].
  destruct (_ <? _)%Z; cbn [fst snd].
  - repeat split; auto; [lra|].
    pose proof (Qmult_lt_0_compat _ _ Hw' Hr). lra.
  - destruct (_ <? _)%Z; cbn [fst snd]; [|repeat split; auto; lra].
    repeat split; auto; [|lra].
    assert (0 < inject_Z (vp_height v)
                / (inject_Z (vp_y_res v) / inject_Z (vp_x_res v)))%Q.
    { apply Qlt_shift_div_l; [exact Hr|]. lra. }
    lra.
Qed.

(** Which axis [letterbox] pads. *)
Lemma letterbox_padding keep (v : viewport) :
  (0 < vp_width v)%Z -> (0 < vp_height v)%Z ->
  (0 < vp_x_res v)%Z -> (0 < vp_y_res v)%Z ->
  (keep = false -> letterbox keep v = (0%Q, 0%Q))
  /\ (keep = true ->
      (vp_y_res v * vp_width v < vp_height v * vp_x_res v)%Z ->
      fst (letterbox keep v) = 0%Q /\ (0 < snd (letterbox keep v))%Q)
  /\ (keep = true ->
      (vp_height v * vp_x_res v < vp_y_res v * vp_width v)%Z ->
      (0 < fst (letterbox keep v))%Q /\ snd (letterbox keep v) = 0%Q)
  /\ (keep = true ->
      (vp_height v * vp_x_res v = vp_y_res v * vp_width v)%Z ->
      letterbox keep v = (0%Q, 0%Q)).
Proof.
  intros Hw Hh Hxr Hyr.
  pose proof (inject_Z_pos _ Hxr) as Hxr'.
  pose proof (ratio_pos _ _ Hyr Hxr) as Hr.
  assert (Hscaled :
    (inject_Z (vp_width v) * (inject_Z (vp_y_res v) / inject_Z (vp_x_res v))
     == inject_Z (vp_y_res v * vp_width v) / inject_Z (vp_x_res v))%Q).
  { rewrite inject_Z_mult. field. lra. }
  unfold letterbox.
  split; [intros ->; reflexivity|].
  split; [|split]; intros ->; cbn [negb]; intros Hcmp.
  - destruct (Z.ltb_spec (vp_y_res v * vp_width v) (vp_height v * vp_x_res v));
      [|lia].
    cbn [fst snd]. split; [reflexivity|].
    rewrite Hscaled.
    assert (inject_Z (vp_y_res v * vp_width v) / inject_Z (vp_x_res v)
            < inject_Z (vp_height v))%Q; [|lra].
    apply Qlt_shift_div_r; [exact Hxr'|].
    rewrite <- inject_Z_mult, <- Zlt_Qlt. exact Hcmp.
  - destruct (Z.ltb_spec (vp_y_res v * vp_width v) (vp_height v * vp_x_res v));
      [lia|].
    destruct (Z.ltb_spec (vp_height v * vp_x_res v) (vp_y_res v * vp_width v));
      [|lia].
    cbn [fst snd]. split; [|reflexivity].
    assert (inject_Z (vp_height v)
              / (inject_Z (vp_y_res v) / inject_Z (vp_x_res v))
            < inject_Z (vp_width v))%Q; [|lra].
    apply Qlt_shift_div_r; [exact Hr|].
    rewrite Hscaled.
    apply Qlt_shift_div_l; [exact Hxr'|].
    rewrite <- inject_Z_mult, <- Zlt_Qlt. exact Hcmp.
  - destruct (Z.ltb_spec (vp_y_res v * vp_width v) (vp_height v * vp_x_res v));
      [lia|].
    destruct (Z.ltb_spec (vp_height v * vp_x_res v) (vp_y_res v * vp_width v));
      [lia|]. reflexivity.
Qed.

(** Discharges the divisions and comparisons of the absolute mapping. *)
Ltac crunch :=
  repeat first
    [ rewrite Qeq_bool_pos by assumption
    | rewrite ratio_ltb by assumption
    | progress cbv beta iota zeta
    | match goal with
      | |- context [(?a <? ?b)%Z] =>
          destruct (a <? b)%Z eqn:?; cbn [fst snd] in *
      end ].

Lemma absolute_mode_equation (x y : Z) (self : Window) :
  let v := viewport_of self in
  let diff := letterbox (video_keep_aspect_ratio (config self)) v in
  (0 < vp_width v)%Z -> (0 < vp_height v)%Z ->
  (0 < vp_x_res v)%Z -> (0 < vp_y_res v)%Z ->
  update_mouse_position_buffer_with_absolute_mode x y self
  = (Py.Returned tt,
     set_mouse_buffer
       (MouseBuffer.set_point
          (normalize x (fst diff) (vp_x_pos v) (vp_width v))
          (normalize y (snd diff) (vp_y_pos v) (vp_height v))
          (mouse_buffer self))
       (set_mouse_last_pos None self)).
Proof.
  intros v diff Hw Hh Hxr Hyr. subst diff.
  destruct (letterbox_extent (video_keep_aspect_ratio (config self)) v
              Hw Hh Hxr Hyr) as (Hdx & Hdy & _).
  pose proof (inject_Z_pos _ Hw) as Hw'.
  pose proof (inject_Z_pos _ Hh) as Hh'.
  pose proof (inject_Z_pos _ Hxr) as Hxr'.
  pose proof (ratio_pos _ _ Hyr Hxr) as Hr.
  unfold normalize, letterbox in *.
  unfold update_mouse_position_buffer_with_absolute_mode.
  erewrite bind_returned by reflexivity.
  erewrite bind_returned by reflexivity.
  unfold is_enabled in *.
  cbn [status config video_widget disconnect_label mouse_buffer
       set_mouse_last_pos].
  subst v. unfold viewport_of, is_enabled in *.
  destruct (Py.dict_get (status self) "camera" false);
  destruct (Py.dict_get (status self) "correction_cursor" false);
  cbn [negb vp_width vp_height vp_x_res vp_y_res vp_x_pos vp_y_pos] in *;
  destruct (video_keep_aspect_ratio (config self));
  cbn [negb fst snd] in *;
  unfold bind, truediv, ret, modify, raise;
  crunch; rewrite !py_clamp; reflexivity.
Qed.

(** C4. For a viewport and a source resolution of positive size the
    absolute mapping returns and stores, on each axis, the
    specification's [clamp((p - diff/2 - viewport_pos) / (viewport_extent
    - diff), 0, 1)], where the offsets are those of [letterbox]: zero
    unless the aspect ratio is kept, and then on the padded axis only (a
    taller viewport is padded vertically, a wider one horizontally). The
    stored point lies in the unit square, and a pointer left of or above
    the content area gives 0 on that axis, one right of or below it
    gives 1. The viewport position is the widget position, shifted by the
    cursor correction when that is enabled. *)
Theorem absolute_mode_normalizes (x y : Z) (self : Window) :
  let v := viewport_of self in
  let diff := letterbox (video_keep_aspect_ratio (config self)) v in
  let x_hid := normalize x (fst diff) (vp_x_pos v) (vp_width v) in
  let y_hid := normalize y (snd diff) (vp_y_pos v) (vp_height v) in
  (0 < vp_width v)%Z -> (0 < vp_height v)%Z ->
  (0 < vp_x_res v)%Z -> (0 < vp_y_res v)%Z ->
  update_mouse_position_buffer_with_absolute_mode x y self
  = (Py.Returned tt,
     set_mouse_buffer
       (MouseBuffer.set_point x_hid y_hid (mouse_buffer self))
       (set_mouse_last_pos None self))
  /\ (video_keep_aspect_ratio (config self) = false
      -> diff = (0%Q, 0%Q))
  /\ (video_keep_aspect_ratio (config self) = true ->
      (vp_y_res v * vp_width v < vp_height v * vp_x_res v)%Z ->
      fst diff = 0%Q /\ (0 < snd diff)%Q)
  /\ (video_keep_aspect_ratio (config self) = true ->
      (vp_height v * vp_x_res v < vp_y_res v * vp_width v)%Z ->
      (0 < fst diff)%Q /\ snd diff = 0%Q)
  /\ (video_keep_aspect_ratio (config self) = true ->
      (vp_height v * vp_x_res v = vp_y_res v * vp_width v)%Z ->
      diff = (0%Q, 0%Q))
  /\ (0 <= x_hid <= 1)%Q
  /\ (0 <= y_hid <= 1)%Q
  /\ ((inject_Z x <= inject_Z (vp_x_pos v) + fst diff / 2)%Q
      -> (x_hid == 0)%Q)
  /\ ((inject_Z (vp_x_pos v) + inject_Z (vp_width v) - fst diff / 2
       <= inject_Z x)%Q
      -> (x_hid == 1)%Q)
  /\ ((inject_Z y <= inject_Z (vp_y_pos v) + snd diff / 2)%Q
      -> (y_hid == 0)%Q)
  /\ ((inject_Z (vp_y_pos v) + inject_Z (vp_height v) - snd diff / 2
       <= inject_Z y)%Q
      -> (y_hid == 1)%Q).
Proof.
  intros v diff x_hid y_hid Hw Hh Hxr Hyr.
  destruct (letterbox_extent (video_keep_aspect_ratio (config self)) v
              Hw Hh Hxr Hyr) as (Hdx & Hdy & Hone).
  destruct (letterbox_padding (video_keep_aspect_ratio (config self)) v
              Hw Hh Hxr Hyr) as (Hoff & Htall & Hwide & Hsame).
  split; [apply absolute_mode_equation; assumption|].
  split; [exact Hoff|]. split; [exact Htall|].
  split; [exact Hwide|]. split; [exact Hsame|].
  split; [apply normalize_bounds|].
  split; [apply normalize_bounds|].
  split; [apply normalize_low, Hdx|].
  split; [apply normalize_high, Hdx|].
  split; [apply normalize_low, Hdy | apply normalize_high, Hdy].
Qed.

(** X7. [mouse_timer_report] always returns with the report flag cleared;
    when the flag was not set it does nothing else, and when it was set it
    dispatches one mouse write command carrying the buffer as it stood.
    A pending report is therefore sent once: a second timeout with no
    pointer movement in between changes nothing and emits nothing. *)
Theorem mouse_timer_report_flushes (self : Window) :
  fst (mouse_timer_report self) = Py.Returned tt
  /\ mouse_need_report (snd (mouse_timer_report self)) = false
  /\ (mouse_need_report self = false
      -> snd (mouse_timer_report self) = set_mouse_need_report false self)
  /\ (mouse_need_report self = true
      -> exists command,
           is_mouse_write command = true
           /\ effects (snd (mouse_timer_report self))
              = effects self ++ [Emit command (PMouse (mouse_buffer self))])
  /\ mouse_timer_report (snd (mouse_timer_report self))
     = (Py.Returned tt, snd (mouse_timer_report self)).
Proof.
  unfold mouse_timer_report. unfold_w. unfold is_enabled. simpl_w.
  destruct (mouse_need_report self);
    destruct (Py.dict_get (status self) "relative_mode" false);
    simpl_w; repeat split; try discriminate; intros _;
    (eexists; (split; [|reflexivity]); reflexivity).
Qed.

(** X8. In relative mode the reference position never strays more than
    25 pixels from the centre of the window on either axis: a sample
    within that square is kept as the reference and the cursor is left
    where it is; the first sample (no reference recorded) and any sample
    beyond the square warp the cursor to the centre and make the centre
    the reference. The update never raises. *)
Theorem relative_mode_keeps_reference_near_centre
    (middle_pos mouse_pos : QPoint) (self : Window) :
  let r := update_mouse_position_buffer_with_relative_mode middle_pos mouse_pos
             self in
  fst r = Py.Returned tt
  /\ ((mouse_last_pos self <> None
       /\ (Z.abs (fst mouse_pos - fst middle_pos) <= 25)%Z
       /\ (Z.abs (snd mouse_pos - snd middle_pos) <= 25)%Z
       /\ mouse_last_pos (snd r) = Some mouse_pos
       /\ effects (snd r) = effects self)
      \/ ((mouse_last_pos self = None
           \/ (25 < Z.abs (fst mouse_pos - fst middle_pos))%Z
           \/ (25 < Z.abs (snd mouse_pos - snd middle_pos))%Z)
          /\ mouse_last_pos (snd r) = Some middle_pos
          /\ effects (snd r) = effects self ++ [SetCursorPos middle_pos])).
Proof.
  cbv zeta.
  unfold update_mouse_position_buffer_with_relative_mode. unfold_w.
  destruct (mouse_last_pos self) as [last|] eqn:Hl.
  - unfold MouseBuffer.get_point.
    destruct (point (mouse_buffer self)) as [rel_x rel_y].
    cbv beta iota zeta.
    destruct (Z.ltb_spec 25 (Z.abs (fst mouse_pos - fst middle_pos)));
      destruct (Z.ltb_spec 25 (Z.abs (snd mouse_pos - snd middle_pos)));
      cbn [orb]; simpl_w; (split; [reflexivity|]);
      first [ left; repeat split; (discriminate || lia)
            | right; repeat split; auto ].
  - simpl_w. split; [reflexivity|]. right. repeat split. left. reflexivity.
Qed.

Lemma is_enabled_set_status name value other (self : Window) :
  other <> name ->
  is_enabled (set_status (<[name := value]> (status self)) self) other
  = is_enabled self other.
Proof.
  intros Hne. unfold is_enabled, Py.dict_get. cbn [status set_status].
  rewrite lookup_insert_ne by congruence. reflexivity.
Qed.

Lemma is_enabled_set_status_same name value (self : Window) :
  is_enabled (set_status (<[name := value]> (status self)) self) name = value.
Proof.
  unfold is_enabled, Py.dict_get. cbn [status set_status].
  rewrite lookup_insert_eq. reflexivity.
Qed.

(** With input blocked or the mouse paused, a mouse event of a captured
    window does nothing. *)
Lemma step_blocked_captured (e : gui_event) (self : Window) :
  is_enabled self "block_input" = true \/ is_enabled self "pause_mouse" = true ->
  is_enabled self "mouse_capture" = true ->
  mouse_input e = true ->
  step self e = self.
Proof.
  intros Hb Hc He. unfold step.
  destruct e; try discriminate; cbn [handler];
    unfold wheelEvent, mouseMoveEvent, mousePressEvent, mouseReleaseEvent;
    unfold_w; rewrite Hc; cbn [negb andb];
    destruct Hb as [-> | ->]; try reflexivity;
    destruct (is_enabled self "block_input"); reflexivity.
Qed.

Lemma run_events_blocked_captured (es : list gui_event) (self : Window) :
  is_enabled self "block_input" = true \/ is_enabled self "pause_mouse" = true ->
  is_enabled self "mouse_capture" = true ->
  forallb mouse_input es = true ->
  run_events self es = self.
Proof.
  intros Hb Hc. unfold run_events.
  induction es as [|e es IH]; cbn [fold_left forallb]; [reflexivity|].
  intros [He Hes]%andb_prop.
  rewrite step_blocked_captured by assumption. apply IH, Hes.
Qed.

(** X10. While input is blocked or the mouse is paused, nothing the user
    does with the mouse reaches the controller: after any sequence of
    wheel, move, press and release events the window is as it was (no
    command emitted, no buffer touched; cursor shape and full-screen tool
    bar aside), except that a left click on a window that was not
    captured, with the camera on, has captured the mouse. *)
Theorem blocked_mouse_input_is_dropped (es : list gui_event) (self : Window) :
  is_enabled self "block_input" = true \/ is_enabled self "pause_mouse" = true ->
  forallb mouse_input es = true ->
  run_events self es = self
  \/ (is_enabled self "mouse_capture" = false
      /\ is_enabled self "camera" = true
      /\ In (MousePressEvent Qt.LeftButton) es
      /\ run_events self es
         = set_status (<["mouse_capture" := true]> (status self)) self).
Proof.
  intros Hb. unfold run_events.
  induction es as [|e es IH]; cbn [fold_left forallb]; [left; reflexivity|].
  intros [He Hes]%andb_prop.
  destruct (is_enabled self "mouse_capture") eqn:Hc.
  - left. rewrite step_blocked_captured by assumption.
    apply (run_events_blocked_captured es self Hb Hc Hes).
  - assert (Hstep :
      step self e = self
      \/ (is_enabled self "camera" = true
          /\ e = MousePressEvent Qt.LeftButton
          /\ step self e
             = set_status (<["mouse_capture" := true]> (status self)) self)).
    { unfold step.
      destruct e as [?|? ? ? ?|b|b| | |?| |? ?]; try discriminate;
        cbn [handler];
        unfold wheelEvent, mouseMoveEvent, mousePressEvent, mouseReleaseEvent,
          mouse_capture_action;
        unfold_w; rewrite Hc; cbn [negb andb]; try (left; reflexivity).
      destruct b; cbn [andb]; try (left; reflexivity).
      destruct (is_enabled self "camera"); [|left; reflexivity].
      right. repeat split. }
    destruct Hstep as [-> | (Hcam & -> & ->)].
    + destruct (IH Hes) as [Hr | (_ & Hcam & Hin & Hr)]; [left; exact Hr|].
      right. repeat split; [exact Hcam | right; exact Hin | exact Hr].
    + right. repeat split; [exact Hcam | left; reflexivity |].
      refine (run_events_blocked_captured es _ _
                (is_enabled_set_status_same _ _ _) Hes).
      destruct Hb as [Hb | Hb]; [left | right];
        rewrite is_enabled_set_status by discriminate; exact Hb.
Qed.

Lemma ratio_nonneg a b : (0 <= a)%Z -> (0 <= b)%Z -> (0 <= inject_Z a / inject_Z b)%Q.
Proof.
  intros Ha Hb. unfold Qdiv. apply Qmult_le_0_compat.
  - change 0%Q with (inject_Z 0). rewrite <- Zle_Qle. exact Ha.
  - apply Qinv_le_0_compat. change 0%Q with (inject_Z 0).
    rewrite <- Zle_Qle. exact Hb.
Qed.

Lemma zero_ratio b : (inject_Z 0 / b == 0)%Q.
Proof. unfold Qdiv. apply Qmult_0_l. Qed.

Lemma Qltb_zero_ratio a b : (0 <= a)%Q -> Qltb a (inject_Z 0 / b) = false.
Proof. intros Ha. apply Qltb_ge. rewrite zero_ratio. exact Ha. Qed.

Lemma Qeq_bool_zero_ratio w a : Qeq_bool (w - (w - inject_Z 0 / a)) 0 = true.
Proof. apply Qeq_bool_iff. rewrite zero_ratio. lra. Qed.

Lemma Qeq_bool_zero_minus : Qeq_bool (inject_Z 0 - 0) 0 = true.
Proof. reflexivity. Qed.

Lemma Qeq_bool_zero : Qeq_bool (inject_Z 0) 0 = true.
Proof. reflexivity. Qed.

(** X11. In absolute mode a viewport of zero width or zero height (the
    source resolution not negative) makes the pointer update raise
    [ZeroDivisionError]: the point of the mouse buffer is not updated and
    no report is scheduled; only the last pointer position has been
    forgotten. *)
Theorem absolute_mode_degenerate_viewport
    (x y : Z) (middle_pos mouse_pos : QPoint) (self : Window) :
  let v := viewport_of self in
  is_enabled self "relative_mode" = false ->
  (0 <= vp_x_res v)%Z -> (0 <= vp_y_res v)%Z ->
  vp_width v = 0%Z \/ vp_height v = 0%Z ->
  update_mouse_position_buffer x y middle_pos mouse_pos self
  = (Py.Raised Py.ZeroDivisionError, set_mouse_last_pos None self).
Proof.
  intros v Hrel Hxr Hyr Hz.
  unfold update_mouse_position_buffer.
  erewrite bind_returned by reflexivity.
  rewrite Hrel. cbn [negb].
  assert (Habs :
    update_mouse_position_buffer_with_absolute_mode x y self
    = (Py.Raised Py.ZeroDivisionError, set_mouse_last_pos None self)).
  2: { unfold bind. rewrite Habs. reflexivity. }
  unfold update_mouse_position_buffer_with_absolute_mode.
  erewrite bind_returned by reflexivity.
  erewrite bind_returned by reflexivity.
  unfold is_enabled in *.
  cbn [status config video_widget disconnect_label mouse_buffer
       set_mouse_last_pos].
  subst v. unfold viewport_of, is_enabled in *.
  destruct (Py.dict_get (status self) "camera" false);
  destruct (Py.dict_get (status self) "correction_cursor" false);
  cbn [negb vp_width vp_height vp_x_res vp_y_res vp_x_pos vp_y_pos] in *;
  destruct (video_keep_aspect_ratio (config self));
  cbn [negb fst snd] in *;
  unfold bind, truediv, ret, modify, raise;
  destruct Hz as [Hz | Hz]; rewrite Hz in *;
  repeat first
    [ rewrite Qeq_bool_zero
    | rewrite Qeq_bool_zero_minus
    | rewrite Qeq_bool_zero_ratio
    | rewrite Qltb_zero_ratio by (apply ratio_nonneg; assumption)
    | progress cbv beta iota zeta
    | match goal with
      | |- context [if Qeq_bool ?a ?b then _ else _] =>
          destruct (Qeq_bool a b) eqn:?
      | |- context [if Qltb ?a ?b then _ else _] =>
          destruct (Qltb a b) eqn:?
      end ];
  reflexivity.
Qed.

Lemma bind_raised {A B : Type} (m : W A) (f : A -> W B) (self : Window)
    (e : Py.exn) (self' : Window) :
  m self = (Py.Raised e, self') -> bind m f self = (Py.Raised e, self').
Proof. intros Hm. unfold bind. rewrite Hm. reflexivity. Qed.

(** X12. [keyboard_send_string] fails in two ways only, both before any
    key goes out: the key table has no [shift], or caps lock is on in the
    indicator cache and the table has no [caps_lock]. Either way it
    raises [AssertionError] having emitted nothing, and leaves the window
    with user input still blocked. *)
Theorem keyboard_send_string_failure_keeps_input_blocked
    (data : list N) (self : Window) (e : Py.exn) :
  fst (keyboard_send_string SHIFT_SYMBOL data self) = Py.Raised e ->
  e = Py.AssertionError
  /\ (Py.dict_get (keyboard_key_name_to_hid_code self) "shift" 0%Z = 0%Z
      \/ (caps_lock (keyboard_indicator_buffer self) = true
          /\ Py.dict_get (keyboard_key_name_to_hid_code self) "caps_lock" 0%Z
             = 0%Z))
  /\ snd (keyboard_send_string SHIFT_SYMBOL data self)
     = set_status (<["block_input" := true]> (status self)) self.
Proof.
  unfold keyboard_send_string.
  erewrite bind_returned by reflexivity.
  erewrite bind_returned by reflexivity.
  cbn [keyboard_key_name_to_hid_code keyboard_indicator_buffer set_status].
  destruct (Z.eqb_spec
              (Py.dict_get (keyboard_key_name_to_hid_code self) "shift" 0%Z) 0)
    as [Hs|Hs].
  - cbn. intros [= <-]. repeat split. left. exact Hs.
  - destruct (caps_lock (keyboard_indicator_buffer self)) eqn:Hcl.
    + destruct (Z.eqb_spec
                  (Py.dict_get (keyboard_key_name_to_hid_code self)
                     "caps_lock" 0%Z) 0) as [Hc|Hc].
      * erewrite bind_raised.
        2: { unfold update_keyboard_indicator_buffer.
             erewrite bind_returned by reflexivity.
             cbn [String.eqb Ascii.eqb Bool.eqb andb
                  keyboard_key_name_to_hid_code set_status].
             rewrite Hc. reflexivity. }
        cbn. intros [= <-]. repeat split. right. split; auto.
      * erewrite bind_returned
          by (apply caps_lock_toggle; exact Hc).
        erewrite bind_returned
          by (rewrite keyboard_send_loop_expands; apply play_returns).
        cbn. discriminate.
    + erewrite bind_returned by reflexivity.
      erewrite bind_returned
        by (rewrite keyboard_send_loop_expands; apply play_returns).
      cbn. discriminate.
Qed.

(** X13. [update_keyboard_indicator_buffer] fails without side effect on
    the keyboard: when it raises, the indicator cache and the key buffer
    are as before and no command has been emitted. It raises
    [AssertionError], leaving the window untouched, for one of the three
    indicator names whose key the table lacks, and [ValueError], after
    one error log line, for any other name. *)
Theorem update_keyboard_indicator_buffer_fails_cleanly
    (key_name : string) (self : Window) (e : Py.exn) :
  fst (update_keyboard_indicator_buffer key_name self) = Py.Raised e ->
  (e = Py.AssertionError
   /\ In key_name ["num_lock"; "caps_lock"; "scroll_lock"]
   /\ Py.dict_get (keyboard_key_name_to_hid_code self) key_name 0%Z = 0%Z
   /\ snd (update_keyboard_indicator_buffer key_name self) = self)
  \/ (e = Py.ValueError key_name
      /\ ~ In key_name ["num_lock"; "caps_lock"; "scroll_lock"]
      /\ snd (update_keyboard_indicator_buffer key_name self)
         = set_effects (effects self ++ [Log (error_key_name key_name)]) self).
Proof.
  unfold update_keyboard_indicator_buffer.
  erewrite bind_returned by reflexivity.
  destruct (String.eqb_spec key_name "num_lock") as [->|Hn];
    [|destruct (String.eqb_spec key_name "caps_lock") as [->|Hc];
      [|destruct (String.eqb_spec key_name "scroll_lock") as [->|Hs]]].
  1-3: match goal with
       | |- context [(?k =? 0)%Z] => destruct (Z.eqb_spec k 0) as [Hz|Hz]
       end;
       [ cbn; intros [= <-]; left; repeat split; cbn; auto
       | cbn; discriminate ].
  cbn. intros [= <-]. right. repeat split.
  cbn. intros [?|[?|[?|[]]]]; congruence.
Qed.

End WindowProperties.

(* ===================================================================== *)
(** ** Properties of the handlers around the input translation *)
(* ===================================================================== *)

Section ShellProperties.
Import Main.
Import Shell.

Context {KB : Type} `{KeyboardKeyBufferOps KB}.
Variable SHIFT_SYMBOL : list string.
Variable fullscreen_state_toggle : @W KB unit.
Variable from_dict :
  gmap string bool -> KeyboardIndicatorBuffer -> KeyboardIndicatorBuffer.

Abbreviation App := (@Application KB).

(** Unfolds the plumbing of the handlers. *)
Ltac unfold_g :=
  cbv [gbind gret gget gmodify lift
       Main.bind Main.ret Main.raise Main.get_self Main.modify do_effect emit
       logger sleep_ms update_status_bar status_set_bool user_input_block].

(** Reads fields through the setters. *)
Ltac simpl_g :=
  cbn [fst snd window keyboard_scancode_to_hid_code hook_pressed_keys
       shortcut_keys controller_port controller_baud device_init_calls
       unknown_scancodes set_window set_hook_pressed_keys
       set_device_init_calls set_unknown_scancodes
       effects status config keyboard_key_buffer mouse_buffer
       keyboard_indicator_buffer
       set_effects set_status set_keyboard_key_buffer set_mouse_buffer
       set_keyboard_indicator_buffer].

Lemma list_remove_In (x y : Z) (xs : list Z) :
  In y (list_remove x xs) -> In y xs.
Proof.
  induction xs as [|z xs IH]; cbn; [auto|].
  destruct (Z.eqb_spec z x); cbn; intuition.
Qed.

Lemma list_remove_NoDup (x : Z) (xs : list Z) :
  List.NoDup xs -> List.NoDup (list_remove x xs) /\ ~ In x (list_remove x xs).
Proof.
  induction 1 as [|z xs Hz Hnd [IHnd IHin]]; cbn.
  - split; [constructor | auto].
  - destruct (Z.eqb_spec z x) as [->|Hne].
    + split; assumption.
    + split.
      * constructor; [|exact IHnd]. intros Hin. apply Hz.
        eapply list_remove_In, Hin.
      * cbn. intros [Heq|Hin]; [congruence | contradiction].
Qed.

Lemma existsb_eqb_In (x : Z) (xs : list Z) :
  existsb (Z.eqb x) xs = true <-> In x xs.
Proof.
  rewrite existsb_exists. split.
  - intros (y & Hy & ->%Z.eqb_eq). exact Hy.
  - intros Hx. exists x. split; [exact Hx | apply Z.eqb_refl].
Qed.

(** What the hook callbacks do to the list of held keys. *)
Lemma hook_down_pressed_keys (event : HookEvent) (self : App) :
  hook_pressed_keys (snd (hook_keyboard_down_event event self))
  = if existsb (Z.eqb (hook_scan_code event)) (hook_pressed_keys self)
    then hook_pressed_keys self
    else hook_pressed_keys self ++ [hook_scan_code event].
Proof.
  unfold hook_keyboard_down_event, update_keyboard_buffer_with_scancode,
    update_keyboard_buffer_with_hid_code.
  unfold_g.
  destruct (existsb (Z.eqb (hook_scan_code event)) (hook_pressed_keys self));
    cbn [negb]; [reflexivity|].
  simpl_g.
  destruct (Py.dict_get (keyboard_scancode_to_hid_code self)
              (hook_scan_code event) 0 =? 0)%Z; reflexivity.
Qed.

Lemma hook_up_pressed_keys (event : HookEvent) (self : App) :
  hook_pressed_keys (snd (hook_keyboard_up_event event self))
  = list_remove (hook_scan_code event) (hook_pressed_keys self).
Proof.
  unfold hook_keyboard_up_event, update_keyboard_buffer_with_scancode,
    update_keyboard_buffer_with_hid_code.
  unfold_g.
  destruct (Py.dict_get (keyboard_scancode_to_hid_code self)
              (hook_scan_code event) 0 =? 0)%Z; reflexivity.
Qed.

Lemma hook_step_NoDup (i : hook_input) (self : App) :
  List.NoDup (hook_pressed_keys self) -> List.NoDup (hook_pressed_keys (hook_step self i)).
Proof.
  intros Hnd. destruct i as [event|event]; cbn [hook_step].
  - rewrite hook_down_pressed_keys.
    destruct (existsb (Z.eqb (hook_scan_code event)) (hook_pressed_keys self))
      eqn:Hin; [exact Hnd|].
    apply List.NoDup_app; [exact Hnd | repeat constructor; intros [] |].
    intros x Hx [<-|[]].
    apply existsb_eqb_In in Hx. congruence.
  - rewrite hook_up_pressed_keys. apply list_remove_NoDup, Hnd.
Qed.

(** What forwarding a scan code comes to. *)
Lemma scancode_known scancode state hid_code (self : App) :
  keyboard_scancode_to_hid_code self !! scancode = Some hid_code ->
  hid_code <> 0%Z ->
  update_keyboard_buffer_with_scancode scancode state self
  = (Py.Returned tt,
     set_window
       (snd (update_keyboard_buffer_with_hid_code hid_code state (window self)))
       self).
Proof.
  intros Hcode Hnz.
  unfold update_keyboard_buffer_with_scancode, Py.dict_get.
  unfold gbind at 1, gget. rewrite Hcode. cbn [default id].
  destruct (Z.eqb_spec hid_code 0) as [|_]; [contradiction|].
  reflexivity.
Qed.

Lemma scancode_unknown scancode state (self : App) :
  Py.dict_get (keyboard_scancode_to_hid_code self) scancode 0%Z = 0%Z ->
  update_keyboard_buffer_with_scancode scancode state self
  = (Py.Returned tt,
     set_unknown_scancodes (unknown_scancodes self ++ [scancode]) self).
Proof.
  intros Hcode. unfold update_keyboard_buffer_with_scancode.
  unfold gbind at 1, gget. rewrite Hcode. reflexivity.
Qed.

Lemma hook_down_held (event : HookEvent) (self : App) :
  existsb (Z.eqb (hook_scan_code event)) (hook_pressed_keys self) = true ->
  hook_keyboard_down_event event self = (Py.Returned false, self).
Proof.
  intros Hheld. unfold hook_keyboard_down_event.
  unfold gbind, gget, gret. rewrite Hheld. reflexivity.
Qed.

(** X14. The first *down* the hook sees of a key that is not held and
    whose scan code the table knows is forwarded as one [keyboard_write]
    with the key pressed, whatever the status flags say (the hook does
    not look at [block_input] or [pause_keyboard]); the scan code is
    then held, and a repeated *down* of the same key is swallowed without
    any effect. Both callbacks return [False]. *)
Theorem hook_key_down_forwards_once
    (event : HookEvent) (hid_code : Z) (self : App) :
  keyboard_scancode_to_hid_code self !! hook_scan_code event = Some hid_code ->
  hid_code <> 0%Z ->
  ~ In (hook_scan_code event) (hook_pressed_keys self) ->
  let r := hook_keyboard_down_event event self in
  fst r = Py.Returned false
  /\ hook_pressed_keys (snd r)
     = hook_pressed_keys self ++ [hook_scan_code event]
  /\ effects (window (snd r))
     = effects (window self)
       ++ [Emit "keyboard_write"
             (PKeyboard
                (key_press hid_code (keyboard_key_buffer (window self))))]
  /\ hook_keyboard_down_event event (snd r) = (Py.Returned false, snd r).
Proof.
  intros Hcode Hnz Hnew r.
  assert (Hex : existsb (Z.eqb (hook_scan_code event)) (hook_pressed_keys self)
                = false).
  { destruct (existsb _ _) eqn:Hex; [|reflexivity].
    apply existsb_eqb_In in Hex. contradiction. }
  assert (Hr : r = (Py.Returned false,
                    set_window
                      (snd (update_keyboard_buffer_with_hid_code hid_code
                              KeyStateEnum.PRESS (window self)))
                      (set_hook_pressed_keys
                         (hook_pressed_keys self ++ [hook_scan_code event])
                         self))).
  { subst r. unfold hook_keyboard_down_event.
    unfold gbind at 1, gget. unfold gbind at 1.
    rewrite Hex. cbn [negb]. unfold gbind at 1, gmodify.
    rewrite (scancode_known _ _ hid_code) by assumption. reflexivity. }
  rewrite Hr. cbn [fst snd].
  split; [reflexivity|]. split; [reflexivity|]. split; [reflexivity|].
  apply hook_down_held. cbn [hook_pressed_keys set_window set_hook_pressed_keys].
  apply existsb_eqb_In, in_or_app. right. left. reflexivity.
Qed.

(** X15. The scan codes the hook holds stay pairwise distinct over any
    sequence of *down* and *up* callbacks, and an *up* always forgets its
    key, so that the next *down* of that key is forwarded again. *)
Theorem hook_pressed_keys_stay_distinct
    (inputs : list hook_input) (event : HookEvent) (self : App) :
  List.NoDup (hook_pressed_keys self) ->
  let self' := run_hook self inputs in
  List.NoDup (hook_pressed_keys self')
  /\ ~ In (hook_scan_code event)
         (hook_pressed_keys (hook_step self' (HookUp event))).
Proof.
  intros Hnd self'.
  assert (Hnd' : List.NoDup (hook_pressed_keys self')).
  { subst self'. unfold run_hook. revert self Hnd.
    induction inputs as [|i inputs IH]; intros self Hnd; cbn [fold_left];
      [exact Hnd|].
    apply IH, hook_step_NoDup, Hnd. }
  split; [exact Hnd'|].
  cbn [hook_step]. rewrite hook_up_pressed_keys.
  apply list_remove_NoDup, Hnd'.
Qed.

(** X16. Ctrl+Alt+F12 is served before the input block is looked at:
    whatever the status flags, the key press (not an auto-repeat)
    releases the mouse capture, has the controller release the mouse,
    clears the mouse buffer and the key buffer and sends the emptied key
    buffer; the F12 key itself is never forwarded. *)
Theorem release_shortcut_ignores_input_block
    (event : QKeyEvent) (clipboard : list N) (self : App) :
  isAutoRepeat event = false ->
  modifiers event = Z.lor ControlModifier AltModifier ->
  key event = Key.Key_F12 ->
  let r := keyPressEvent SHIFT_SYMBOL fullscreen_state_toggle event clipboard
             self in
  fst r = Py.Returned tt
  /\ status (window (snd r))
     = <["mouse_capture" := false]> (status (window self))
  /\ mouse_buffer (window (snd r))
     = MouseBuffer.clear (mouse_buffer (window self))
  /\ keyboard_key_buffer (window (snd r))
     = clear (keyboard_key_buffer (window self))
  /\ effects (window (snd r))
     = effects (window self)
       ++ [Emit "device_release" (PStr "mouse");
           Emit "keyboard_write"
             (PKeyboard (clear (keyboard_key_buffer (window self))))].
Proof.
  intros Hrep Hmod Hkey r. subst r.
  unfold keyPressEvent. rewrite Hrep, Hmod, Hkey, Z.eqb_refl.
  unfold mouse_capture_release_action, controller_device_release,
    clear_keyboard_key_buffer.
  cbn [String.eqb Ascii.eqb Bool.eqb andb].
  unfold_g. simpl_g.
  rewrite <- app_assoc. repeat split.
Qed.

(** With input blocked or the keyboard paused, a key event that is not a
    reserved shortcut does nothing. *)
Lemma key_step_blocked (i : key_input) (self : App) :
  is_enabled (window self) "block_input" = true
  \/ is_enabled (window self) "pause_keyboard" = true ->
  shortcut_press i = false ->
  key_step SHIFT_SYMBOL fullscreen_state_toggle self i = self.
Proof.
  intros Hb Hi.
  destruct i as [event clipboard|event]; cbn [key_step shortcut_press] in *.
  - unfold keyPressEvent.
    destruct (isAutoRepeat event); [reflexivity|].
    assert (Hplain :
      (if (modifiers event =? Z.lor ControlModifier AltModifier)%Z
       then
         match key event with
         | Key.Key_F11 =>
             gbind (lift fullscreen_state_toggle) (fun _ => gret true)
         | Key.Key_F12 =>
             gbind (lift mouse_capture_release_action)
               (fun _ =>
                  gbind (lift (controller_device_release "mouse"))
                    (fun _ => gret true))
         | Key.Key_V =>
             if is_enabled (window self) "quick_paste"
             then gbind (lift (quick_paste_trigger SHIFT_SYMBOL clipboard))
                    (fun _ => gret true)
             else gret false
         | _ => gret false
         end
       else gret false) self = (Py.Returned false, self)).
    { destruct (modifiers event =? Z.lor ControlModifier AltModifier)%Z;
        [|reflexivity].
      destruct (key event); cbn [andb] in Hi; try discriminate; reflexivity. }
    unfold gbind at 1, gget. unfold gbind at 1. rewrite Hplain.
    unfold gbind, gget, gret.
    destruct Hb as [-> | ->]; [reflexivity|].
    destruct (is_enabled (window self) "block_input"); reflexivity.
  - unfold keyReleaseEvent.
    destruct (isAutoRepeat event); [reflexivity|].
    unfold gbind, gget, gret.
    destruct Hb as [-> | ->]; [reflexivity|].
    destruct (is_enabled (window self) "block_input"); reflexivity.
Qed.

(** X17. While input is blocked or the keyboard is paused, no key event
    Qt delivers reaches the controller: after any sequence of presses and
    releases that contains no reserved shortcut (Ctrl+Alt with F11, F12
    or V) the object is exactly as it was. In particular the release of
    a key that went down before the block is dropped as well. *)
Theorem blocked_key_events_are_dropped
    (inputs : list key_input) (self : App) :
  is_enabled (window self) "block_input" = true
  \/ is_enabled (window self) "pause_keyboard" = true ->
  forallb (fun i => negb (shortcut_press i)) inputs = true ->
  run_keys SHIFT_SYMBOL fullscreen_state_toggle self inputs = self.
Proof.
  intros Hb. unfold run_keys.
  induction inputs as [|i inputs IH]; cbn [fold_left forallb];
    [reflexivity|].
  intros [Hi%negb_true_iff Hrest]%andb_prop.
  rewrite key_step_blocked by assumption. apply IH, Hrest.
Qed.

(** X18. Handling a reply of the controller worker never raises and never
    touches the key or mouse buffers. It answers with commands of its
    own in two cases only: a successful [device_open] is followed by one
    [keyboard_read], and a failed [device_check] by a reconnect, that is
    [device_close], [device_init] with the configured port, baud rate and
    video resolution, and [device_open]. A failed [device_open] is not
    retried; it only clears the [controller] flag, as [device_close]
    does. *)
Theorem controller_command_reply_effects
    (command : string) (reply_status : Z) (data : gmap string bool)
    (self : App) :
  let r := controller_command_reply from_dict command reply_status data self in
  let opened := String.eqb command "device_open" && (reply_status =? 0)%Z in
  let reconnect :=
    String.eqb command "device_check" && negb (reply_status =? 0)%Z in
  fst r = Py.Returned tt
  /\ effects (window (snd r))
     = effects (window self)
       ++ (if opened then [Emit "keyboard_read" PNone]
           else if reconnect
                then [Emit "device_close" PNone; Emit "device_open" PNone]
                else [])
  /\ device_init_calls (snd r)
     = device_init_calls self
       ++ (if reconnect
           then [(controller_port self, controller_baud self,
                  video_resolution_x (config (window self)),
                  video_resolution_y (config (window self)))]
           else [])
  /\ is_enabled (window (snd r)) "controller"
     = (if String.eqb command "device_open" then (reply_status =? 0)%Z
        else if String.eqb command "device_close" then false
             else is_enabled (window self) "controller")
  /\ keyboard_key_buffer (window (snd r)) = keyboard_key_buffer (window self)
  /\ mouse_buffer (window (snd r)) = mouse_buffer (window self).
Proof.
  cbv zeta. unfold controller_command_reply, controller_device_disconnect,
    controller_device_connect.
  destruct (String.eqb_spec command "device_open") as [->|Hopen];
    [|destruct (String.eqb_spec command "device_close") as [->|Hclose];
      [|destruct (String.eqb_spec command "device_check") as [->|Hcheck];
        [|destruct (String.eqb_spec command "keyboard_read") as [->|Hread];
          [|destruct (existsb (String.eqb command) _)]]]];
    try destruct (reply_status =? 0)%Z;
    cbn [andb negb String.eqb Ascii.eqb Bool.eqb]; unfold_g; simpl_g;
    rewrite ?app_nil_r, <- ?app_assoc;
    repeat split;
    try (unfold is_enabled, Py.dict_get; simpl_g;
         rewrite lookup_insert_eq; reflexivity).
Qed.

(** X19. [controller_device_reload] never raises and emits, in this
    order, [device_release] (for the keyboard or the mouse when asked
    for one of them, for everything otherwise), [device_close] and
    [device_open], with one [device_init] carrying the configured port,
    baud rate and video resolution; the buffers of what was released are
    cleared. *)
Theorem controller_device_reload_sequence (reload_type : string) (self : App) :
  let r := controller_device_reload reload_type self in
  let released :=
    if String.eqb reload_type "keyboard" then "keyboard"
    else if String.eqb reload_type "mouse" then "mouse" else "all" in
  fst r = Py.Returned tt
  /\ effects (window (snd r))
     = effects (window self)
       ++ [Emit "device_release" (PStr released);
           Emit "device_close" PNone; Emit "device_open" PNone]
  /\ device_init_calls (snd r)
     = device_init_calls self
       ++ [(controller_port self, controller_baud self,
            video_resolution_x (config (window self)),
            video_resolution_y (config (window self)))]
  /\ keyboard_key_buffer (window (snd r))
     = (if String.eqb released "mouse"
        then keyboard_key_buffer (window self)
        else clear (keyboard_key_buffer (window self)))
  /\ mouse_buffer (window (snd r))
     = (if String.eqb released "keyboard"
        then mouse_buffer (window self)
        else MouseBuffer.clear (mouse_buffer (window self))).
Proof.
  cbv zeta. unfold controller_device_reload, controller_device_disconnect,
    controller_device_connect, controller_device_release.
  destruct (String.eqb_spec reload_type "keyboard") as [->|Hk];
    [|destruct (String.eqb_spec reload_type "mouse") as [->|Hm]];
    cbn [String.eqb Ascii.eqb Bool.eqb andb];
    unfold_g; simpl_g; rewrite <- ?app_assoc; repeat split.
Qed.

Lemma keyboard_send_string_without_shift (data : list N)
    (self : @MyMainWindow KB) :
  Py.dict_get (keyboard_key_name_to_hid_code self) "shift" 0%Z = 0%Z ->
  keyboard_send_string SHIFT_SYMBOL data self
  = (Py.Raised Py.AssertionError,
     set_status (<["block_input" := true]> (status self)) self).
Proof.
  intros Hshift. unfold keyboard_send_string.
  erewrite bind_returned by reflexivity.
  erewrite bind_returned by reflexivity.
  cbn [keyboard_key_name_to_hid_code set_status].
  rewrite Hshift. reflexivity.
Qed.

(** X20. A quick paste that fails locks the keyboard. With quick paste
    enabled, some text in the clipboard and no [shift] in the key table,
    Ctrl+Alt+V sends the emptied key buffer and then raises
    [AssertionError] out of [keyboard_send_string]; user input is left
    blocked, and from then on every key event Qt delivers, apart from the
    reserved shortcuts, is dropped. *)
Theorem failed_quick_paste_locks_keyboard
    (event : QKeyEvent) (clipboard : list N) (inputs : list key_input)
    (self : App) :
  isAutoRepeat event = false ->
  modifiers event = Z.lor ControlModifier AltModifier ->
  key event = Key.Key_V ->
  is_enabled (window self) "quick_paste" = true ->
  clipboard <> [] ->
  Py.dict_get (keyboard_key_name_to_hid_code (window self)) "shift" 0%Z = 0%Z ->
  forallb (fun i => negb (shortcut_press i)) inputs = true ->
  let r := keyPressEvent SHIFT_SYMBOL fullscreen_state_toggle event clipboard
             self in
  fst r = Py.Raised Py.AssertionError
  /\ is_enabled (window (snd r)) "block_input" = true
  /\ effects (window (snd r))
     = effects (window self)
       ++ [Emit "keyboard_write"
             (PKeyboard (clear (keyboard_key_buffer (window self))))]
  /\ run_keys SHIFT_SYMBOL fullscreen_state_toggle (snd r) inputs = snd r.
Proof.
  intros Hrep Hmod Hkey Hquick Htext Hshift Hinputs r.
  set (cleared :=
    set_effects
      (effects (window self)
       ++ [Emit "keyboard_write"
             (PKeyboard (clear (keyboard_key_buffer (window self))))])
      (set_keyboard_key_buffer (clear (keyboard_key_buffer (window self)))
         (window self))).
  assert (Hr : r = (Py.Raised Py.AssertionError,
                    set_window
                      (set_status (<["block_input" := true]> (status cleared))
                         cleared) self)).
  { subst r. unfold keyPressEvent.
    rewrite Hrep, Hmod, Hkey, Z.eqb_refl.
    unfold gbind at 1, gget. rewrite Hquick.
    unfold gbind at 1. unfold gbind at 1. unfold lift at 1.
    unfold quick_paste_trigger.
    destruct clipboard as [|c clipboard]; [contradiction|].
    cbn [length Nat.eqb].
    erewrite bind_returned by reflexivity.
    fold cleared.
    rewrite keyboard_send_string_without_shift by exact Hshift.
    reflexivity. }
  rewrite Hr. cbn [fst snd window set_window].
  split; [reflexivity|].
  split; [apply is_enabled_set_status_same|].
  split; [reflexivity|].
  unfold run_keys. clear Hr r.
  induction inputs as [|i inputs IH]; cbn [fold_left forallb] in *;
    [reflexivity|].
  apply andb_prop in Hinputs as [Hi%negb_true_iff Hrest].
  rewrite key_step_blocked; [apply IH, Hrest | | exact Hi].
  left. cbn [window set_window]. apply is_enabled_set_status_same.
Qed.

End ShellProperties.

(* ===================================================================== *)
(** ** Properties of the window resize *)
(* ===================================================================== *)

Section ResizeProperties.
Import Shell.

Lemma shrink_to_screen_mono (scr : Screen) (fuel extra : nat) (w h : Z)
    (r : Z * Z) :
  shrink_to_screen fuel scr w h = Some r ->
  shrink_to_screen (fuel + extra) scr w h = Some r.
Proof.
  revert w h. induction fuel as [|fuel IH]; intros w h; cbn [shrink_to_screen].
  - destruct (screen_is_enough scr w h) eqn:He; [|discriminate].
    intros <-. destruct extra; cbn [Nat.add shrink_to_screen]; rewrite He;
      reflexivity.
  - cbn [Nat.add shrink_to_screen].
    destruct (screen_is_enough scr w h); [auto | apply IH].
Qed.

Lemma shrink_to_screen_fits (scr : Screen) (fuel : nat) (w h : Z) (r : Z * Z) :
  shrink_to_screen fuel scr w h = Some r ->
  screen_is_enough scr (fst r) (snd r) = true.
Proof.
  revert w h. induction fuel as [|fuel IH]; intros w h; cbn [shrink_to_screen];
    destruct (screen_is_enough scr w h) eqn:He.
  - intros [= <-]. exact He.
  - discriminate.
  - intros [= <-]. exact He.
  - apply IH.
Qed.

Lemma shrink_to_screen_ends (scr : Screen) (fuel : nat) (w h : Z) :
  (45 < screen_height scr)%Z -> (80 < screen_width scr)%Z ->
  (Z.abs w + Z.abs h <= Z.of_nat fuel)%Z ->
  exists r, shrink_to_screen fuel scr w h = Some r.
Proof.
  intros Hh Hw. revert w h.
  induction fuel as [|fuel IH]; intros w h Hm; cbn [shrink_to_screen];
    destruct (screen_is_enough scr w h) eqn:He; eauto.
  - exfalso. assert (w = 0 /\ h = 0)%Z as [-> ->] by lia.
    unfold screen_is_enough in He.
    apply andb_false_iff in He as [He|He]; apply Z.ltb_ge in He; lia.
  - apply IH.
    assert (w <> 0 \/ h <> 0)%Z as Hnz.
    { destruct (Z.eq_dec w 0) as [->|]; [|auto].
      destruct (Z.eq_dec h 0) as [->|]; [|auto].
      exfalso. unfold screen_is_enough in He.
      apply andb_false_iff in He as [He|He]; apply Z.ltb_ge in He; lia. }
    rewrite !Z.mul_1_r.
    assert (Z.abs (Z.quot w 4) <= Z.abs w)%Z
      by (rewrite <- (Z.quot_abs w 4) by lia;
          apply Z.quot_le_upper_bound; lia).
    assert (Z.abs (Z.quot h 4) <= Z.abs h)%Z
      by (rewrite <- (Z.quot_abs h 4) by lia;
          apply Z.quot_le_upper_bound; lia).
    assert (w <> 0 -> Z.abs (Z.quot w 4) < Z.abs w)%Z
      by (intros; rewrite <- (Z.quot_abs w 4) by lia;
          apply Z.quot_lt; lia).
    assert (h <> 0 -> Z.abs (Z.quot h 4) < Z.abs h)%Z
      by (intros; rewrite <- (Z.quot_abs h 4) by lia;
          apply Z.quot_lt; lia).
    lia.
Qed.

Lemma shrink_to_screen_never_fits (scr : Screen) (fuel : nat) (w h : Z) :
  (screen_height scr <= 45)%Z \/ (screen_width scr <= 80)%Z ->
  (0 <= w)%Z -> (0 <= h)%Z ->
  shrink_to_screen fuel scr w h = None.
Proof.
  intros Hs. revert w h.
  induction fuel as [|fuel IH]; intros w h Hw Hh; cbn [shrink_to_screen];
    (assert (He : screen_is_enough scr w h = false)
      by (unfold screen_is_enough; apply andb_false_iff;
          destruct Hs; [left | right]; apply Z.ltb_ge; lia));
    rewrite He; [reflexivity|].
  apply IH; apply Z.quot_pos; lia.
Qed.

(** X21. On a screen higher than 45 and wider than 80 pixels the resize
    always comes to an end (the loop needs at most as many turns as the
    recommended width and height add up to), and the size it asks for
    leaves the retained margin free. The window is shown maximised
    exactly when the recommended size, the video resolution plus the
    height of the two bars, did not fit as it was. *)
Theorem resize_terminates_with_fitting_size
    (keep_aspect_ratio center : bool) (resolution_x resolution_y : Z)
    (scr : Screen) :
  (45 < screen_height scr)%Z ->
  (80 < screen_width scr)%Z ->
  let recommend_height :=
    (resolution_y + (menu_bar_height scr + status_bar_height scr))%Z in
  exists width height : Z,
    screen_is_enough scr width height = true
    /\ forall fuel : nat,
         (Z.abs resolution_x + Z.abs recommend_height <= Z.of_nat fuel)%Z ->
         resize_window_with_video_resolution fuel false keep_aspect_ratio
           resolution_x resolution_y scr center
         = Some ([showNormal; resize width height]
                 ++ (if screen_is_enough scr resolution_x recommend_height
                     then [] else [showMaximized])
                 ++ (if center then [move_to_centre] else [])
                 ++ [setAspectRatioMode keep_aspect_ratio]).
Proof.
  intros Hh Hw recommend_height.
  unfold resize_window_with_video_resolution. fold recommend_height.
  destruct (screen_is_enough scr resolution_x recommend_height) eqn:He.
  - exists resolution_x, recommend_height. split; [exact He|].
    intros fuel _. reflexivity.
  - set (bound := Z.to_nat (Z.abs resolution_x + Z.abs recommend_height)).
    destruct (shrink_to_screen_ends scr bound resolution_x recommend_height
                Hh Hw) as [[width height] Hr]; [subst bound; lia|].
    exists width, height.
    split; [apply (shrink_to_screen_fits _ _ _ _ _ Hr)|].
    intros fuel Hfuel.
    replace fuel with (bound + (fuel - bound))%nat by (subst bound; lia).
    rewrite (shrink_to_screen_mono _ _ _ _ _ _ Hr). reflexivity.
Qed.

(** X22. On a screen no higher than 45 or no wider than 80 pixels the
    resize of a window that is not in full screen never comes to an end,
    whatever the video resolution (not negative): quartering the size
    stops at zero, which still does not leave the retained margin free,
    so the loop has not ended after any number of turns and no window
    call is made. In full screen the method returns at once without any
    call. *)
Theorem resize_loops_forever_on_small_screen
    (fuel : nat) (keep_aspect_ratio center : bool)
    (resolution_x resolution_y : Z) (scr : Screen) :
  (screen_height scr <= 45)%Z \/ (screen_width scr <= 80)%Z ->
  (0 <= resolution_x)%Z ->
  (0 <= resolution_y + (menu_bar_height scr + status_bar_height scr))%Z ->
  resize_window_with_video_resolution fuel false keep_aspect_ratio
    resolution_x resolution_y scr center = None
  /\ resize_window_with_video_resolution fuel true keep_aspect_ratio
       resolution_x resolution_y scr center = Some [].
Proof.
  intros Hs Hx Hy. split; [|reflexivity].
  unfold resize_window_with_video_resolution.
  rewrite shrink_to_screen_never_fits by assumption.
  assert (He : screen_is_enough scr resolution_x
                 (resolution_y + (menu_bar_height scr + status_bar_height scr))
               = false)
    by (unfold screen_is_enough; apply andb_false_iff;
        destruct Hs; [left | right]; apply Z.ltb_ge; lia).
  rewrite He. reflexivity.
Qed.

End ResizeProperties.

(* ===================================================================== *)
(** ** The properties on the sample window *)
(* ===================================================================== *)

Section SampleRuns.
Import Main.
Import Sample.

(** A pointer above the letterboxed picture of the sample window. *)
Lemma absolute_mode_normalizes_witness :
  let v := viewport_of captured_window in
  let diff := letterbox (video_keep_aspect_ratio (config captured_window)) v in
  let x_hid := normalize 800 (fst diff) (vp_x_pos v) (vp_width v) in
  let y_hid := normalize 100 (snd diff) (vp_y_pos v) (vp_height v) in
  update_mouse_position_buffer_with_absolute_mode 800 100 captured_window
  = (Py.Returned tt,
     set_mouse_buffer
       (MouseBuffer.set_point x_hid y_hid (mouse_buffer captured_window))
       (set_mouse_last_pos None captured_window))
  /\ (video_keep_aspect_ratio (config captured_window) = false
      -> diff = (0%Q, 0%Q))
  /\ (video_keep_aspect_ratio (config captured_window) = true ->
      (vp_y_res v * vp_width v < vp_height v * vp_x_res v)%Z ->
      fst diff = 0%Q /\ (0 < snd diff)%Q)
  /\ (video_keep_aspect_ratio (config captured_window) = true ->
      (vp_height v * vp_x_res v < vp_y_res v * vp_width v)%Z ->
      (0 < fst diff)%Q /\ snd diff = 0%Q)
  /\ (video_keep_aspect_ratio (config captured_window) = true ->
      (vp_height v * vp_x_res v = vp_y_res v * vp_width v)%Z ->
      diff = (0%Q, 0%Q))
  /\ (0 <= x_hid <= 1)%Q
  /\ (0 <= y_hid <= 1)%Q
  /\ ((inject_Z 800 <= inject_Z (vp_x_pos v) + fst diff / 2)%Q
      -> (x_hid == 0)%Q)
  /\ ((inject_Z (vp_x_pos v) + inject_Z (vp_width v) - fst diff / 2
       <= inject_Z 800)%Q
      -> (x_hid == 1)%Q)
  /\ ((inject_Z 100 <= inject_Z (vp_y_pos v) + snd diff / 2)%Q
      -> (y_hid == 0)%Q)
  /\ ((inject_Z (vp_y_pos v) + inject_Z (vp_height v) - snd diff / 2
       <= inject_Z 100)%Q
      -> (y_hid == 1)%Q).
Proof.
  apply (absolute_mode_normalizes 800 100 captured_window); reflexivity.
Defined.

(** C5, the counterexample. The report timer fires on a window whose
    buffer holds wheel state up with a report pending: the flush
    dispatches a mouse write command carrying wheel up, and the wheel
    state is still up, not neutral, when [mouse_timer_report] has
    returned. *)
Lemma mouse_timer_report_keeps_wheel :
  wheel (mouse_buffer scrolling_window) = MouseWheelStateEnum.UP
  /\ mouse_need_report scrolling_window = true
  /\ fst (mouse_timer_report scrolling_window) = Py.Returned tt
  /\ effects (snd (mouse_timer_report scrolling_window))
     = effects scrolling_window
       ++ [Emit "mouse_absolute_write"
             (PMouse
                (MouseBuffer.set_wheel MouseWheelStateEnum.UP MouseBuffer.new))]
  /\ wheel (mouse_buffer (snd (mouse_timer_report scrolling_window)))
     = MouseWheelStateEnum.UP.
Proof. repeat split. Qed.

(** The text [Hello!] with caps lock on in the indicator cache. *)
Lemma keyboard_send_string_expands_witness :
  let sent :=
    keystroke_effects (expand_string shift_symbol captured_window hello)
      (keyboard_key_buffer captured_window) in
  keyboard_send_string shift_symbol hello captured_window
  = (Py.Returned tt,
     set_status
       (<["block_input" := false]>
          (<["block_input" := true]> (status captured_window)))
       (set_keyboard_indicator_buffer
          {| num_lock := num_lock (keyboard_indicator_buffer captured_window);
             caps_lock := false;
             scroll_lock :=
               scroll_lock (keyboard_indicator_buffer captured_window) |}
          (set_keyboard_key_buffer (snd sent)
             (set_effects (effects captured_window ++ fst sent)
                captured_window)))).
Proof.
  apply (keyboard_send_string_expands shift_symbol hello captured_window).
  - vm_compute. discriminate.
  - intros _. vm_compute. discriminate.
Defined.

(** C8, the counterexample. With the mouse not captured a wheel event
    with angle delta 120 returns at once: the wheel state stays neutral,
    not down, the window is unchanged and nothing is dispatched. *)
Lemma wheelEvent_ignored_without_capture :
  is_enabled idle_window "mouse_capture" = false
  /\ wheelEvent 120 idle_window = (Py.Returned tt, idle_window)
  /\ wheel (mouse_buffer idle_window) = MouseWheelStateEnum.STOP
  /\ effects idle_window = [].
Proof. repeat split. Qed.

(** One notch of the wheel on the captured sample window. *)
Lemma wheelEvent_dispatches_mapped_wheel_witness :
  exists (command : string) (wheel_state : MouseWheelStateEnum.t),
    wheelEvent 120 captured_window
    = mouse_scroll_report
        (set_mouse_buffer
           (MouseBuffer.set_wheel wheel_state (mouse_buffer captured_window))
           captured_window)
    /\ wheelEvent 120 captured_window
       = (Py.Returned tt,
          set_mouse_buffer
            (MouseBuffer.set_wheel MouseWheelStateEnum.STOP
               (mouse_buffer captured_window))
            (set_effects
               (effects captured_window
                ++ [Emit command
                      (PMouse (MouseBuffer.set_wheel wheel_state
                                 (mouse_buffer captured_window)))])
               captured_window))
    /\ is_mouse_write command = true
    /\ (120%Z = 120%Z -> wheel_state = MouseWheelStateEnum.DOWN)
    /\ (120%Z = (-120)%Z -> wheel_state = MouseWheelStateEnum.UP)
    /\ (120%Z <> 120%Z -> 120%Z <> (-120)%Z
        -> wheel_state = MouseWheelStateEnum.STOP).
Proof.
  apply (proj2 (wheelEvent_dispatches_mapped_wheel 120 captured_window)).
  reflexivity.
Defined.

(** A move, a click and a wheel turn on the window whose input is
    blocked. *)
Lemma blocked_mouse_input_is_dropped_witness :
  run_events blocked_window
    [MouseMoveEvent 800 622 (0, 0)%Z (0, 0)%Z; MousePressEvent Qt.LeftButton;
     WheelEvent 120]
  = blocked_window
  \/ (is_enabled blocked_window "mouse_capture" = false
      /\ is_enabled blocked_window "camera" = true
      /\ In (MousePressEvent Qt.LeftButton)
           [MouseMoveEvent 800 622 (0, 0)%Z (0, 0)%Z;
            MousePressEvent Qt.LeftButton; WheelEvent 120]
      /\ run_events blocked_window
           [MouseMoveEvent 800 622 (0, 0)%Z (0, 0)%Z;
            MousePressEvent Qt.LeftButton; WheelEvent 120]
         = set_status (<["mouse_capture" := true]> (status blocked_window))
             blocked_window).
Proof.
  apply (blocked_mouse_input_is_dropped
           [MouseMoveEvent 800 622 (0, 0)%Z (0, 0)%Z;
            MousePressEvent Qt.LeftButton; WheelEvent 120] blocked_window).
  - left. reflexivity.
  - reflexivity.
Defined.

(** A pointer move over the video widget that has no width. *)
Lemma absolute_mode_degenerate_viewport_witness :
  update_mouse_position_buffer 800 622 (0, 0)%Z (0, 0)%Z flat_window
  = (Py.Raised Py.ZeroDivisionError, set_mouse_last_pos None flat_window).
Proof.
  apply (absolute_mode_degenerate_viewport 800 622 (0, 0)%Z (0, 0)%Z
           flat_window).
  - reflexivity.
  - vm_compute. discriminate.
  - vm_compute. discriminate.
  - left. reflexivity.
Defined.

(** The text [Hello!] on the window whose key table is empty. *)
Lemma keyboard_send_string_failure_keeps_input_blocked_witness :
  Py.AssertionError = Py.AssertionError
  /\ (Py.dict_get (keyboard_key_name_to_hid_code keyless_window) "shift" 0%Z
      = 0%Z
      \/ (caps_lock (keyboard_indicator_buffer keyless_window) = true
          /\ Py.dict_get (keyboard_key_name_to_hid_code keyless_window)
               "caps_lock" 0%Z = 0%Z))
  /\ snd (keyboard_send_string shift_symbol hello keyless_window)
     = set_status (<["block_input" := true]> (status keyless_window))
         keyless_window.
Proof.
  apply (keyboard_send_string_failure_keeps_input_blocked shift_symbol hello
           keyless_window Py.AssertionError).
  reflexivity.
Defined.

(** A name that is no indicator, on the captured window. *)
Lemma update_keyboard_indicator_buffer_fails_cleanly_witness :
  (Py.ValueError "kana_lock" = Py.AssertionError
   /\ In "kana_lock" ["num_lock"; "caps_lock"; "scroll_lock"]
   /\ Py.dict_get (keyboard_key_name_to_hid_code captured_window)
        "kana_lock" 0%Z = 0%Z
   /\ snd (update_keyboard_indicator_buffer "kana_lock" captured_window)
      = captured_window)
  \/ (Py.ValueError "kana_lock" = Py.ValueError "kana_lock"
      /\ ~ In "kana_lock" ["num_lock"; "caps_lock"; "scroll_lock"]
      /\ snd (update_keyboard_indicator_buffer "kana_lock" captured_window)
         = set_effects
             (effects captured_window ++ [Log (error_key_name "kana_lock")])
             captured_window).
Proof.
  apply (update_keyboard_indicator_buffer_fails_cleanly "kana_lock"
           captured_window (Py.ValueError "kana_lock")).
  reflexivity.
Defined.

End SampleRuns.


(* ===================================================================== *)
(** ** The properties of the handlers on the sample objects *)
(* ===================================================================== *)

Section HandlerSampleRuns.
Import Main.
Import Sample.
Import Shell.

(** The key A goes down twice while user input is blocked. *)
Lemma hook_key_down_forwards_once_witness :
  let self := Sample.application Sample.blocked_window in
  let r := hook_keyboard_down_event Sample.hook_a self in
  fst r = Py.Returned false
  /\ hook_pressed_keys (snd r)
     = hook_pressed_keys self ++ [hook_scan_code Sample.hook_a]
  /\ effects (window (snd r))
     = effects (window self)
       ++ [Emit "keyboard_write"
             (PKeyboard (key_press 4%Z (keyboard_key_buffer (window self))))]
  /\ hook_keyboard_down_event Sample.hook_a (snd r) = (Py.Returned false, snd r).
Proof.
  apply (hook_key_down_forwards_once Sample.hook_a 4%Z
           (Sample.application Sample.blocked_window)).
  - reflexivity.
  - discriminate.
  - intros [].
Defined.

(** A goes down twice and up once; then it goes up again. *)
Lemma hook_pressed_keys_stay_distinct_witness :
  let self' :=
    run_hook (Sample.application Sample.captured_window)
      [HookDown Sample.hook_a; HookDown Sample.hook_a; HookUp Sample.hook_a] in
  List.NoDup (hook_pressed_keys self')
  /\ ~ In (hook_scan_code Sample.hook_a)
         (hook_pressed_keys (hook_step self' (HookUp Sample.hook_a))).
Proof.
  apply (hook_pressed_keys_stay_distinct
           [HookDown Sample.hook_a; HookDown Sample.hook_a;
            HookUp Sample.hook_a]
           Sample.hook_a (Sample.application Sample.captured_window)).
  constructor.
Defined.

(** Ctrl+Alt+F12 while user input is blocked. *)
Lemma release_shortcut_ignores_input_block_witness :
  let self := Sample.application Sample.blocked_window in
  let r := keyPressEvent Sample.shift_symbol Sample.fullscreen_state_toggle
             Sample.ctrl_alt_f12 [] self in
  fst r = Py.Returned tt
  /\ status (window (snd r))
     = <["mouse_capture" := false]> (status (window self))
  /\ mouse_buffer (window (snd r))
     = MouseBuffer.clear (mouse_buffer (window self))
  /\ keyboard_key_buffer (window (snd r))
     = clear (keyboard_key_buffer (window self))
  /\ effects (window (snd r))
     = effects (window self)
       ++ [Emit "device_release" (PStr "mouse");
           Emit "keyboard_write"
             (PKeyboard (clear (keyboard_key_buffer (window self))))].
Proof.
  apply (release_shortcut_ignores_input_block Sample.shift_symbol
           Sample.fullscreen_state_toggle Sample.ctrl_alt_f12 []
           (Sample.application Sample.blocked_window));
    reflexivity.
Defined.

(** The key A goes down and up while user input is blocked. *)
Lemma blocked_key_events_are_dropped_witness :
  run_keys Sample.shift_symbol Sample.fullscreen_state_toggle
    (Sample.application Sample.blocked_window)
    [KeyPress Sample.key_a []; KeyRelease Sample.key_a]
  = Sample.application Sample.blocked_window.
Proof.
  apply (blocked_key_events_are_dropped Sample.shift_symbol
           Sample.fullscreen_state_toggle
           [KeyPress Sample.key_a []; KeyRelease Sample.key_a]
           (Sample.application Sample.blocked_window)).
  - left. reflexivity.
  - reflexivity.
Defined.

(** Ctrl+Alt+V with [Hello!] in the clipboard before the key table is
    loaded, then the key A. *)
Lemma failed_quick_paste_locks_keyboard_witness :
  let self := Sample.application Sample.keyless_window in
  let r := keyPressEvent Sample.shift_symbol Sample.fullscreen_state_toggle
             Sample.ctrl_alt_v Sample.hello self in
  fst r = Py.Raised Py.AssertionError
  /\ is_enabled (window (snd r)) "block_input" = true
  /\ effects (window (snd r))
     = effects (window self)
       ++ [Emit "keyboard_write"
             (PKeyboard (clear (keyboard_key_buffer (window self))))]
  /\ run_keys Sample.shift_symbol Sample.fullscreen_state_toggle (snd r)
       [KeyPress Sample.key_a []; KeyRelease Sample.key_a]
     = snd r.
Proof.
  apply (failed_quick_paste_locks_keyboard Sample.shift_symbol
           Sample.fullscreen_state_toggle Sample.ctrl_alt_v Sample.hello
           [KeyPress Sample.key_a []; KeyRelease Sample.key_a]
           (Sample.application Sample.keyless_window));
    try reflexivity.
  discriminate.
Defined.

(** A 3840x2160 source on the full-HD screen: one turn of the loop. *)
Lemma resize_terminates_with_fitting_size_witness :
  let recommend_height :=
    (2160 + (menu_bar_height Sample.full_hd
             + status_bar_height Sample.full_hd))%Z in
  exists width height : Z,
    screen_is_enough Sample.full_hd width height = true
    /\ forall fuel : nat,
         (Z.abs 3840 + Z.abs recommend_height <= Z.of_nat fuel)%Z ->
         resize_window_with_video_resolution fuel false true 3840 2160
           Sample.full_hd true
         = Some ([showNormal; resize width height]
                 ++ (if screen_is_enough Sample.full_hd 3840 recommend_height
                     then [] else [showMaximized])
                 ++ (if true then [move_to_centre] else [])
                 ++ [setAspectRatioMode true]).
Proof.
  apply (resize_terminates_with_fitting_size true true 3840 2160
           Sample.full_hd).
  - reflexivity.
  - reflexivity.
Defined.

(** A 1920x1080 source on the screen 40 pixels high, after a thousand
    turns of the loop. *)
Lemma resize_loops_forever_on_small_screen_witness :
  resize_window_with_video_resolution 1000 false true 1920 1080
    Sample.low_screen true = None
  /\ resize_window_with_video_resolution 1000 true true 1920 1080
       Sample.low_screen true = Some [].
Proof.
  apply (resize_loops_forever_on_small_screen 1000 true true 1920 1080
           Sample.low_screen).
  - left. vm_compute. discriminate.
  - lia.
  - vm_compute. discriminate.
Defined.

End HandlerSampleRuns.
